(** * Lead acquisition pipeline of brilliox-1: embedding and properties

    The Python sources under [app/services], [app/schemas], [app/api] and
    [app/core] are embedded as executable Rocq functions; the second half
    of the file states and proves the properties of the pipeline.

    - Python [str] is a list of Unicode code points ([str]).
    - Python [int] is [Z]; [len] results are [nat], injected with [Z.of_nat]
      where they meet an [int].
    - Python [set] of strings is [gset str].
    - The [re] module is embedded as a backtracking matcher (leftmost match,
      greedy quantifiers) over the fragment the sources use.
    - Network calls take their replies from an oracle and log the request,
      so the order and number of calls can be stated. *)

From Stdlib Require Import ZArith NArith Strings.String Strings.Ascii Lia.
From Stdlib Require Import DecimalString.
From stdpp Require Import base option list gmap.

Set Default Proof Using "Type".
Set Warnings "-clear-no-such-hyp".

Local Open Scope Z_scope.

(* ===================================================================== *)
(** * Part I: definitions                                                 *)
(* ===================================================================== *)

(** ** Python runtime: strings *)

Module Py.

(** A code point. *)
Abbreviation char := N.

(** A Python [str]. *)
Abbreviation str := (list char).

(** UTF-8 decoding of the bytes of a literal: [need] continuation bytes are
    still expected and [acc] holds the bits read so far. *)
Fixpoint utf8 (bs : list N) (need : nat) (acc : N) : str :=
  match bs with
  | [] => []
  | b :: t =>
    match need with
    | O =>
      if (b <? 128)%N then b :: utf8 t 0 0%N
      else if (b <? 224)%N then utf8 t 1 (b - 192)%N
      else if (b <? 240)%N then utf8 t 2 (b - 224)%N
      else utf8 t 3 (b - 240)%N
    | S O => (acc * 64 + (b - 128))%N :: utf8 t 0 0%N
    | S n => utf8 t n (acc * 64 + (b - 128))%N
    end
  end.

(** [lit "..."] is the [str] a source literal denotes. *)
Definition lit (s : string) : str :=
  utf8 (map N_of_ascii (list_ascii_of_string s)) 0 0%N.

(** A literal in which the backquote stands for the double quote (no
    literal of the sources has a backquote). *)
Definition qlit (s : string) : str :=
  map (fun c => if (c =? 96)%N then 34%N else c) (lit s).

(** [f'"{s}"'] *)
Definition quoted (s : str) : str := qlit "`" ++ s ++ qlit "`".

(** [sep.join(xs)] *)
Fixpoint join (sep : str) (xs : list str) : str :=
  match xs with
  | [] => []
  | [x] => x
  | x :: rest => x ++ sep ++ join sep rest
  end.

(** [str.isspace] of one character, which is also [\s] of [re]. *)
Definition isspace (c : char) : bool :=
  ((9 <=? c) && (c <=? 13) || (28 <=? c) && (c <=? 32)
   || (c =? 133) || (c =? 160) || (c =? 5760)
   || (8192 <=? c) && (c <=? 8202)
   || (c =? 8232) || (c =? 8233) || (c =? 8239) || (c =? 8287)
   || (c =? 12288))%N.

(** First code point of every run of ten decimal digits (Unicode category
    Nd, Unicode 14 as shipped with CPython 3.11); the digit at offset [i] of
    a run has value [i]. *)
Definition decimal_runs : list N :=
  [ 0x30; 0x660; 0x6f0; 0x7c0; 0x966; 0x9e6; 0xa66; 0xae6; 0xb66; 0xbe6;
    0xc66; 0xce6; 0xd66; 0xde6; 0xe50; 0xed0; 0xf20; 0x1040; 0x1090;
    0x17e0; 0x1810; 0x1946; 0x19d0; 0x1a80; 0x1a90; 0x1b50; 0x1bb0;
    0x1c40; 0x1c50; 0xa620; 0xa8d0; 0xa900; 0xa9d0; 0xa9f0; 0xaa50;
    0xabf0; 0xff10; 0x104a0; 0x10d30; 0x11066; 0x110f0; 0x11136; 0x111d0;
    0x112f0; 0x11450; 0x114d0; 0x11650; 0x116c0; 0x11730; 0x118e0;
    0x11950; 0x11c50; 0x11d50; 0x11da0; 0x16a60; 0x16ac0; 0x16b50;
    0x1d7ce; 0x1d7d8; 0x1d7e2; 0x1d7ec; 0x1d7f6; 0x1e140; 0x1e2f0;
    0x1e950; 0x1fbf0 ]%N.

(** Decimal value of a character, if it is a decimal digit. *)
Definition decimal (c : char) : option N :=
  (fun run => (c - run)%N)
    <$> find (fun run => (run <=? c) && (c <? run + 10))%N decimal_runs.

(** [str.isdecimal] of one character, which is also [\d] of [re]. *)
Definition isdecimal (c : char) : bool := bool_decide (is_Some (decimal c)).

(** [s.startswith(p)] *)
Fixpoint startswith (s p : str) {struct p} : bool :=
  match p with
  | [] => true
  | a :: p' =>
    match s with
    | [] => false
    | b :: s' => (a =? b)%N && startswith s' p'
    end
  end.

(** [p in s] for two strings. *)
Fixpoint contains (p s : str) : bool :=
  startswith s p || match s with [] => false | _ :: t => contains p t end.

(** [s.lstrip()] *)
Fixpoint lstrip (s : str) : str :=
  match s with
  | c :: t => if isspace c then lstrip t else s
  | [] => []
  end.

(** [s.rstrip()] *)
Definition rstrip (s : str) : str := reverse (lstrip (reverse s)).

(** [s.strip()] *)
Definition strip (s : str) : str := rstrip (lstrip s).

(** [xs[:n]] for an [int] bound: a negative bound counts from the end. *)
Definition slice_to {A} (n : Z) (xs : list A) : list A :=
  if 0 <=? n then take (Z.to_nat n) xs
  else take (length xs - Z.to_nat (- n)) xs.

(** Truth value of a string. *)
Definition truthy (s : str) : bool :=
  match s with [] => false | _ => true end.

(** [str.lower] on a text whose only cased letters are ASCII (Arabic text
    has none); the examples of this file use it where the interpreter's
    tables are a parameter. *)
Definition ascii_lower (s : str) : str :=
  map (fun c => if (65 <=? c)%N && (c <=? 90)%N then (c + 32)%N else c) s.

(** [int(s)] of a string: [None] stands for [ValueError].  Only strings of
    decimal digits reach it in the sources; [max_str_digits] is the limit of
    [sys.set_int_max_str_digits] ([None]: no limit). *)
Definition int_of_digits (max_str_digits : option nat) (s : str) : option Z :=
  match s with
  | [] => None
  | _ =>
    if from_option (fun m => m <? length s)%nat false max_str_digits
    then None
    else foldl (fun acc c => d ← decimal c; n ← acc; Some (10 * n + Z.of_N d))
               (Some 0) s
  end.

End Py.

(** ** Python runtime: the [re] module

    The patterns of the sources use single characters and character
    classes, concatenation, the greedy optional group [(?:r)?] and greedy
    bounded or unbounded repetition of a character class.  There is no
    capturing group, so [findall] returns whole matches. *)

Module Re.
Import Py.

(** A character class, as its membership test. *)
Definition cls := char -> bool.

Inductive regex :=
| Eps
| Chr (p : cls)
| Cat (r1 r2 : regex)
| Opt (r : regex)
| Rep (p : cls) (lo : nat) (hi : option nat).

(** The texts a pattern matches. *)
Inductive matches : regex -> str -> Prop :=
| matches_eps : matches Eps []
| matches_chr p c : p c = true -> matches (Chr p) [c]
| matches_cat r1 r2 a b :
    matches r1 a -> matches r2 b -> matches (Cat r1 r2) (a ++ b)
| matches_opt_skip r : matches (Opt r) []
| matches_opt_take r a : matches r a -> matches (Opt r) a
| matches_rep p lo hi a :
    Forall (fun c => p c = true) a ->
    (lo <= length a)%nat ->
    (forall h, hi = Some h -> (length a <= h)%nat) ->
    matches (Rep p lo hi) a.

(** Greedy repetition of a class, at least [lo] and at most [hi] times:
    one more character is tried before stopping, and the continuation [k]
    decides whether a shorter repetition has to be tried. *)
Fixpoint rep {A} (p : cls) (lo : nat) (hi : option nat) (s : str)
    (k : str -> option A) : option A :=
  let stop := match lo with O => k s | S _ => None end in
  match s with
  | c :: t =>
    if p c && negb (bool_decide (hi = Some O)) then
      match rep p (pred lo) (pred <$> hi) t k with
      | Some x => Some x
      | None => stop
      end
    else stop
  | [] => stop
  end.

(** Backtracking match of [r] at the head of [s]; [k] receives what is left
    of [s] after the match. *)
Fixpoint run {A} (r : regex) (s : str) (k : str -> option A) : option A :=
  match r with
  | Eps => k s
  | Chr p =>
    match s with
    | c :: t => if p c then k t else None
    | [] => None
    end
  | Cat r1 r2 => run r1 s (fun t => run r2 t k)
  | Opt r1 =>
    match run r1 s k with
    | Some x => Some x
    | None => k s
    end
  | Rep p lo hi => rep p lo hi s k
  end.

(** Length of the match of [r] at the head of [s], if there is one. *)
Definition match_here (r : regex) (s : str) : option nat :=
  run r s (fun t => Some (length s - length t)%nat).

(** [re.findall(r, s)]: scan from the left; [skip] characters still belong
    to the match found last. *)
Fixpoint findall_from (r : regex) (s : str) (skip : nat) : list str :=
  match skip, s with
  | S n, [] => []
  | S n, _ :: t => findall_from r t n
  | O, _ =>
    match match_here r s with
    | Some len =>
      take len s ::
        match s with
        | [] => []
        | _ :: t => findall_from r t (pred len)
        end
    | None =>
      match s with
      | [] => []
      | _ :: t => findall_from r t 0
      end
    end
  end.

Definition findall (r : regex) (s : str) : list str := findall_from r s 0.

(** [re.sub(r, repl, s)] for a replacement without group references. *)
Fixpoint sub_from (r : regex) (repl : str) (s : str) (skip : nat) : str :=
  match skip, s with
  | S n, [] => []
  | S n, _ :: t => sub_from r repl t n
  | O, _ =>
    match match_here r s with
    | Some (S n) =>
      repl ++ match s with [] => [] | _ :: t => sub_from r repl t n end
    | Some O =>
      repl ++ match s with [] => [] | c :: t => c :: sub_from r repl t 0 end
    | None =>
      match s with [] => [] | c :: t => c :: sub_from r repl t 0 end
    end
  end.

Definition sub (r : regex) (repl : str) (s : str) : str := sub_from r repl s 0.

(** *** Pattern syntax *)

(** A literal character. *)
Definition ch (c : string) : cls :=
  fun x => bool_decide ([x] = lit c).

(** [[abc]]: one of the characters of a literal. *)
Definition oneof (cs : string) : cls :=
  fun x => bool_decide (x ∈ lit cs).

(** [[a-z]] *)
Definition range (a b : string) : cls :=
  fun x => match lit a, lit b with
           | [lo], [hi] => (lo <=? x)%N && (x <=? hi)%N
           | _, _ => false
           end.

Definition cls_or (p q : cls) : cls := fun x => p x || q x.
Definition cls_not (p : cls) : cls := fun x => negb (p x).

(** [\d], [\D], [\s] and [.] *)
Definition d : cls := isdecimal.
Definition D : cls := cls_not isdecimal.
Definition s : cls := isspace.
Definition dot : cls := fun x => negb (x =? 10)%N.

(** A literal string. *)
Definition str_re (t : string) : regex :=
  foldr (fun c r => Cat (Chr (fun x => (x =? c)%N)) r) Eps (lit t).

(** [p{n}], [p{n,}], [p+] and [p*] for a class [p]. *)
Definition times (p : cls) (n : nat) : regex := Rep p n (Some n).
Definition at_least (p : cls) (n : nat) : regex := Rep p n None.
Definition plus (p : cls) : regex := Rep p 1 None.
Definition star (p : cls) : regex := Rep p 0 None.

(** Concatenation of a list of patterns. *)
Definition seq (rs : list regex) : regex := foldr Cat Eps rs.

End Re.

(** ** [app/services/ai_service.py] *)

Module AIService.
Import Py.

Record country_config := {
  name : str;
  phone_patterns : str;
  sites : str;
  cities : list str;
  gl : str
}.

(** The dict is kept as an association list: [detect_country] iterates over
    it in insertion order. *)
Definition COUNTRY_CONFIGS : list (str * country_config) := [
  (lit "egypt", {|
    name := lit "مصر";
    phone_patterns := qlit "(`010` OR `011` OR `012` OR `015`)";
    sites := lit "site:olx.com.eg OR site:facebook.com OR site:instagram.com";
    cities := [lit "القاهرة"; lit "الإسكندرية"; lit "الجيزة"; lit "المنصورة";
               lit "طنطا"; lit "أسوان"; lit "الأقصر"; lit "شرم الشيخ"];
    gl := lit "eg" |});
  (lit "saudi", {|
    name := lit "السعودية";
    phone_patterns := qlit "(`05` OR `9665` OR `966`)";
    sites := lit "site:opensooq.com OR site:facebook.com OR site:instagram.com OR site:linkedin.com/in";
    cities := [lit "الرياض"; lit "جدة"; lit "مكة"; lit "المدينة"; lit "الدمام";
               lit "الخبر"; lit "الطائف"; lit "تبوك"; lit "أبها"];
    gl := lit "sa" |});
  (lit "uae", {|
    name := lit "الإمارات";
    phone_patterns := qlit "(`050` OR `055` OR `056` OR `9714`)";
    sites := lit "site:dubizzle.com OR site:facebook.com OR site:instagram.com OR site:linkedin.com/in";
    cities := [lit "دبي"; lit "أبوظبي"; lit "الشارقة"; lit "عجمان"; lit "العين";
               lit "رأس الخيمة"];
    gl := lit "ae" |});
  (lit "kuwait", {|
    name := lit "الكويت";
    phone_patterns := qlit "(`965` OR `9` OR `5` OR `6`)";
    sites := lit "site:opensooq.com OR site:facebook.com OR site:instagram.com";
    cities := [lit "الكويت"; lit "حولي"; lit "الفروانية"; lit "الأحمدي";
               lit "الجهراء"];
    gl := lit "kw" |})
].

Record strategy_config := {
  strategy_name : str;
  strategy_sites : str;
  keywords : list str
}.

Definition HUNTING_STRATEGIES : list (str * strategy_config) := [
  (lit "social_media", {|
    strategy_name := lit "سوشيال ميديا";
    strategy_sites := lit "(site:facebook.com OR site:instagram.com OR site:twitter.com OR site:linkedin.com/in)";
    keywords := [lit "محتاج"; lit "عايز"; lit "ابحث عن"; lit "مين يعرف";
                 lit "دلوني على"] |});
  (lit "local_platforms", {|
    strategy_name := lit "منصات محلية";
    strategy_sites := lit "(site:olx.com.eg OR site:opensooq.com OR site:dubizzle.com)";
    keywords := [lit "للتواصل"; lit "اتصل"; lit "واتساب"; lit "رقم"] |});
  (lit "events", {|
    strategy_name := lit "مناسبات وأحداث";
    strategy_sites := lit "(site:facebook.com OR site:instagram.com)";
    keywords := [lit "تهاني"; lit "تهنئة"; lit "مبروك"; lit "الف مبروك";
                 lit "عقبال"] |});
  (lit "contact_pages", {|
    strategy_name := lit "صفحات التواصل";
    strategy_sites := qlit "(`contact us` OR `اتصل بنا` OR `تواصل معنا`)";
    keywords := [lit "هاتف"; lit "موبايل"; lit "واتس"; lit "للاستفسار"] |});
  (lit "competitor_monitor", {|
    strategy_name := lit "مراقبة المنافسين";
    strategy_sites := lit "(site:facebook.com OR site:instagram.com)";
    keywords := [lit "تعليق"; lit "رأيكم"; lit "تجربتكم"; lit "حد جرب"] |})
].

(** [d.get(key, default)] on an association list standing for a dict with
    distinct keys. *)
Definition dict_get {V} (d : list (str * V)) (key : str) (default : V) : V :=
  from_option snd default (find (fun kv => bool_decide (kv.1 = key)) d).

Definition no_config : country_config :=
  {| name := []; phone_patterns := []; sites := []; cities := []; gl := [] |}.

Definition no_strategy : strategy_config :=
  {| strategy_name := []; strategy_sites := []; keywords := [] |}.

(** [any(x in text for x in words)] *)
Definition any_in (words : list str) (text : str) : bool :=
  existsb (fun x => contains x text) words.

Definition prefixes : list str :=
  [lit "أنا "; lit "انا "; lit "أعمل كـ "; lit "اعمل ك"; lit "عندي "; lit "لدي "].

(** The loop of [_extract_service]: the text after the first prefix of the
    list that [query] starts with, [query] itself if there is none. *)
Fixpoint after_first_prefix (ps : list str) (query : str) : str :=
  match ps with
  | [] => query
  | prefix :: rest =>
    if startswith query prefix then drop (length prefix) query
    else after_first_prefix rest query
  end.

Definition _extract_service (query : str) : str :=
  strip (after_first_prefix prefixes query).

(** [c in city or city in c] for some city [c] of a country. *)
Definition city_matches (city : str) (config : country_config) : bool :=
  existsb (fun c => contains c city || contains city c) (cities config).

Section Lower.

(** [str.lower], whose case tables belong to the interpreter. *)
Variable lower : str -> str.

Definition detect_country (city : str) : str :=
  let city_lower := strip (lower city) in
  match find (fun kv : str * country_config => city_matches city kv.2)
             COUNTRY_CONFIGS with
  | Some kv => kv.1
  | None =>
    if any_in [lit "الرياض"; lit "جدة"; lit "مكة"; lit "السعودية"] city_lower
    then lit "saudi"
    else if any_in [lit "دبي"; lit "أبوظبي"; lit "الشارقة"; lit "الإمارات"] city_lower
    then lit "uae"
    else if any_in [lit "الكويت"; lit "حولي"] city_lower
    then lit "kuwait"
    else lit "egypt"
  end.

(** [COUNTRY_CONFIGS.get(country, COUNTRY_CONFIGS["egypt"])] *)
Definition config_of (country : str) : country_config :=
  dict_get COUNTRY_CONFIGS country
           (dict_get COUNTRY_CONFIGS (lit "egypt") no_config).

(** [HUNTING_STRATEGIES.get(strategy, HUNTING_STRATEGIES["social_media"])] *)
Definition strategy_of (strategy : str) : strategy_config :=
  dict_get HUNTING_STRATEGIES strategy
           (dict_get HUNTING_STRATEGIES (lit "social_media") no_strategy).

(** [if not country: country = cls.detect_country(city)], for an optional
    argument: [None] and the empty string are both false. *)
Definition country_or_detect (country : option str) (city : str) : str :=
  match country with
  | Some c => if truthy c then c else detect_country city
  | None => detect_country city
  end.

Definition generate_golden_query (query city strategy : str)
    (country : option str) : str :=
  let country := country_or_detect country city in
  let country_config := config_of country in
  let strategy_config := strategy_of strategy in
  let service := _extract_service query in
  let customer_keywords := [
    lit "محتاج " ++ service;
    lit "عايز " ++ service;
    lit "مين يعرف " ++ service;
    lit "دلوني على " ++ service;
    lit "ابحث عن " ++ service;
    lit "يا ريت حد يرشحلي " ++ service;
    lit "حد يعرف " ++ service ++ lit " كويس"
  ] in
  let customer_keywords_str :=
    join (lit " OR ") (map quoted (take 4 customer_keywords)) in
  strategy_sites strategy_config ++ lit " (" ++ customer_keywords_str
    ++ qlit ") `" ++ city ++ qlit "` " ++ phone_patterns country_config
    ++ qlit " -site:youtube.com -`وظيفة` -`مطلوب` -`شركة`".

Definition generate_fallback_queries (query city : str)
    (country : option str) : list str :=
  let country := country_or_detect country city in
  let country_config := config_of country in
  let service := _extract_service query in
  [ qlit "site:facebook.com (`محتاج " ++ service ++ qlit "` OR `عايز "
      ++ service ++ qlit "` OR `مين يعرف " ++ service ++ qlit "`) `" ++ city
      ++ qlit "` " ++ phone_patterns country_config;
    qlit "site:facebook.com (`دلوني على " ++ service
      ++ qlit "` OR `يا ريت حد يرشحلي " ++ service ++ qlit "`) `" ++ city
      ++ qlit "`";
    qlit "site:instagram.com (`محتاج " ++ service ++ qlit "` OR `ابحث عن "
      ++ service ++ qlit "`) " ++ city ++ lit " " ++ phone_patterns country_config;
    qlit "`حد جرب " ++ service ++ qlit "` OR `تجربتكم مع " ++ service
      ++ qlit "` " ++ city ++ lit " " ++ phone_patterns country_config;
    qlit "(`محتاج " ++ service ++ qlit " ضروري` OR `عايز " ++ service
      ++ qlit " كويس`) " ++ city ].

End Lower.

End AIService.

(** ** The network

    A search backend is reached by one blocking HTTP request.  The reply to
    the [n]-th request of a run is given by an oracle; every request is
    appended to a log. *)

Module Net.
Import Py.

Inductive request :=
| SerperPost (api_key q gl : str) (num : Z)
    (* POST https://google.serper.dev/search, hl = "ar", timeout 10 *)
| DuckGet (q : str).
    (* GET https://api.duckduckgo.com/, format = "json", timeout 10 *)

(** The search text a request carries. *)
Definition query_of (req : request) : str :=
  match req with
  | SerperPost _ q _ _ => q
  | DuckGet q => q
  end.

(** An entry of the result array of a payload.  The values of a JSON
    object are strings, as both providers document them for the fields the
    code reads.  A result whose title, snippet or link is something else (a
    null, a number) has no counterpart here: on it
    [extract_leads_from_results] can raise [TypeError], outside every
    [try].  The statements of this file are about replies of the documented
    shape; they restrict and relate what a hunt returns. *)
Inductive item :=
| IObj (fields : gmap str str)
| IStr (text : str)
| IList (strings : list str)               (* an array, with its string elements *)
| IAtom.                                   (* number, true, false, null *)

(** A value of the top-level JSON object. *)
Inductive value :=
| VList (items : list item)
| VStr (text : str)
| VOther.                                  (* object, number, true, false, null *)

(** What [response.json()] does. *)
Inductive payload :=
| NotJson                                  (* it raises *)
| NotDict                                  (* it returns no JSON object *)
| Dict (fields : gmap str value).

Inductive reply :=
| Failed                                   (* [requests] raised: timeout, connection error *)
| Response (status_code : Z) (body : payload).

Definition oracle := nat -> request -> reply.

(** A reply that is an exception or has a status other than 200. *)
Definition unsuccessful (r : reply) : Prop :=
  match r with
  | Failed => True
  | Response status_code _ => status_code <> 200
  end.

(** A computation that sends requests. *)
Definition io (A : Type) := list request -> A * list request.

Definition ret {A} (a : A) : io A := fun log => (a, log).

Definition bind {A B} (m : io A) (f : A -> io B) : io B :=
  fun log => let (a, log') := m log in f a log'.

Definition send (http : oracle) (req : request) : io reply :=
  fun log => (http (length log) req, log ++ [req]).

End Net.

Notation "'let*' x ':=' m 'in' k" := (Net.bind m (fun x => k))
  (at level 10, x pattern, k at level 200).

(** ** [app/services/search_service.py] *)

Module SearchService.
Import Py Re Net.

(** A search result dict; a key may be absent. *)
Record result := {
  title : option str;
  link : option str;
  snippet : option str;
  source : option str
}.

(** A lead dict. *)
Record lead := {
  name : str;
  phone : str;
  email : str;
  lead_source : str;
  notes : str;
  status : str;
  country : str;
  lead_type : str
}.

(** [item.get(key, "")] on a JSON object. *)
Definition field (fields : gmap str str) (key : string) : str :=
  default [] (fields !! lit key).

(** The loop of [search_serper] and [search_with_country] over the sliced
    [organic] array; [None] stands for a raised exception. *)
Definition serper_results (items : list item) : option (list result) :=
  mapM (fun it =>
          match it with
          | IObj f => Some {| title := Some (field f "title");
                              link := Some (field f "link");
                              snippet := Some (field f "snippet");
                              source := Some (lit "serper") |}
          | _ => None
          end) items.

(** [data.get(key, [])[:max_results]], then the loop [body] over it. *)
Definition sliced_items (body : payload) (key : string) (max_results : Z)
    (loop : list item -> option (list result)) : option (list result) :=
  match body with
  | NotJson | NotDict => None
  | Dict fields =>
    match fields !! lit key with
    | None => loop []
    | Some (VList items) => loop (slice_to max_results items)
    | Some (VStr text) =>
      loop ((fun c => IStr [c]) <$> slice_to max_results text)
    | Some VOther => None
    end
  end.

(** ["Text" in item]; [None] stands for [TypeError]. *)
Definition has_Text (it : item) : option bool :=
  match it with
  | IObj f => Some (bool_decide (is_Some (f !! lit "Text")))
  | IStr text => Some (contains (lit "Text") text)
  | IList strings => Some (bool_decide (lit "Text" ∈ strings))
  | IAtom => None
  end.

(** The loop of [search_duckduckgo] over the sliced [RelatedTopics]. *)
Fixpoint duckduckgo_results (items : list item) : option (list result) :=
  match items with
  | [] => Some []
  | it :: rest =>
    match has_Text it with
    | None => None
    | Some false => duckduckgo_results rest
    | Some true =>
      match it with
      | IObj f =>
        cons {| title := Some (take 100 (field f "Text"));
                link := Some (field f "FirstURL");
                snippet := Some (field f "Text");
                source := Some (lit "duckduckgo") |}
          <$> duckduckgo_results rest
      | _ => None
      end
    end
  end.

(** The [try] block after the request: the results it returns, [None] when
    it raises or falls through. *)
Definition parsed (r : reply) (key : string) (max_results : Z)
    (loop : list item -> option (list result)) : option (list result) :=
  match r with
  | Failed => None
  | Response status_code body =>
    if status_code =? 200 then sliced_items body key max_results loop
    else None
  end.

(** [[-\s]] *)
Definition dash_or_space : cls := cls_or (ch "-") Re.s.

Definition PHONE_PATTERNS_BY_COUNTRY : list (str * list regex) := [
  (lit "egypt", [
    (* (?:\+?2)?01[0125]\d{8} *)
    seq [Opt (seq [Opt (Chr (ch "+")); Chr (ch "2")]); str_re "01";
         Chr (oneof "0125"); times d 8];
    (* 01[0125]\d{8} *)
    seq [str_re "01"; Chr (oneof "0125"); times d 8];
    (* 01[0125][-\s]?\d{4}[-\s]?\d{4} *)
    seq [str_re "01"; Chr (oneof "0125"); Opt (Chr dash_or_space); times d 4;
         Opt (Chr dash_or_space); times d 4];
    (* \+20\s?1[0125]\d{8} *)
    seq [str_re "+20"; Opt (Chr Re.s); Chr (ch "1"); Chr (oneof "0125");
         times d 8]
  ]);
  (lit "saudi", [
    (* (?:\+?966)?0?5[0-9]\d{7} *)
    seq [Opt (seq [Opt (Chr (ch "+")); str_re "966"]); Opt (Chr (ch "0"));
         Chr (ch "5"); Chr (range "0" "9"); times d 7];
    (* 05[0-9]\d{7} *)
    seq [str_re "05"; Chr (range "0" "9"); times d 7];
    (* 05[0-9][-\s]?\d{3}[-\s]?\d{4} *)
    seq [str_re "05"; Chr (range "0" "9"); Opt (Chr dash_or_space); times d 3;
         Opt (Chr dash_or_space); times d 4];
    (* \+966\s?5[0-9]\d{7} *)
    seq [str_re "+966"; Opt (Chr Re.s); Chr (ch "5"); Chr (range "0" "9");
         times d 7];
    (* 9665[0-9]\d{7} *)
    seq [str_re "9665"; Chr (range "0" "9"); times d 7]
  ]);
  (lit "uae", [
    (* (?:\+?971)?0?5[0-9]\d{7} *)
    seq [Opt (seq [Opt (Chr (ch "+")); str_re "971"]); Opt (Chr (ch "0"));
         Chr (ch "5"); Chr (range "0" "9"); times d 7];
    (* 05[0-9]\d{7} *)
    seq [str_re "05"; Chr (range "0" "9"); times d 7];
    (* \+971\s?5[0-9]\d{7} *)
    seq [str_re "+971"; Opt (Chr Re.s); Chr (ch "5"); Chr (range "0" "9");
         times d 7];
    (* 9715[0-9]\d{7} *)
    seq [str_re "9715"; Chr (range "0" "9"); times d 7]
  ]);
  (lit "kuwait", [
    (* (?:\+?965)?[569]\d{7} *)
    seq [Opt (seq [Opt (Chr (ch "+")); str_re "965"]); Chr (oneof "569");
         times d 7];
    (* [569]\d{7} *)
    seq [Chr (oneof "569"); times d 7];
    (* \+965\s?[569]\d{7} *)
    seq [str_re "+965"; Opt (Chr Re.s); Chr (oneof "569"); times d 7]
  ]);
  (lit "all", [
    (* (?:\+?2)?01[0125]\d{8} *)
    seq [Opt (seq [Opt (Chr (ch "+")); Chr (ch "2")]); str_re "01";
         Chr (oneof "0125"); times d 8];
    (* 01[0125]\d{8} *)
    seq [str_re "01"; Chr (oneof "0125"); times d 8];
    (* (?:\+?966)?0?5[0-9]\d{7} *)
    seq [Opt (seq [Opt (Chr (ch "+")); str_re "966"]); Opt (Chr (ch "0"));
         Chr (ch "5"); Chr (range "0" "9"); times d 7];
    (* 05[0-9]\d{7} *)
    seq [str_re "05"; Chr (range "0" "9"); times d 7];
    (* (?:\+?971)?0?5[0-9]\d{7} *)
    seq [Opt (seq [Opt (Chr (ch "+")); str_re "971"]); Opt (Chr (ch "0"));
         Chr (ch "5"); Chr (range "0" "9"); times d 7];
    (* (?:\+?965)?[569]\d{7} *)
    seq [Opt (seq [Opt (Chr (ch "+")); str_re "965"]); Chr (oneof "569");
         times d 7]
  ])
].

Definition CUSTOMER_INTENT_KEYWORDS : list str := [
  lit "محتاج"; lit "عايز"; lit "ابحث عن"; lit "مين يعرف"; lit "دلوني على";
  lit "يا ريت حد"; lit "حد يرشحلي"; lit "حد يعرف"; lit "تجربتكم مع"; lit "حد جرب"
].

(** [[a-zA-Z0-9._%+-]+@[a-zA-Z0-9.-]+\.[a-zA-Z]{2,}] *)
Definition email_pattern : regex :=
  let alnum := cls_or (range "a" "z") (cls_or (range "A" "Z") (range "0" "9")) in
  seq [plus (cls_or alnum (oneof "._%+-")); Chr (ch "@");
       plus (cls_or alnum (oneof ".-")); Chr (ch ".");
       at_least (cls_or (range "a" "z") (range "A" "Z")) 2].

(** [\s*[-|–]\s*.*], which cuts a title at its first separator. *)
Definition title_suffix : regex :=
  seq [star Re.s; Chr (oneof "-|–"); star Re.s; star dot].

(** The body of the two loops over patterns and matches: a match is
    cleaned and kept when it is long enough and new in this call. *)
Definition add_phone (st : list str * gset str) (m : str)
    : list str * gset str :=
  let (phones, seen_phones) := st in
  let clean_phone := sub (Chr dash_or_space) [] m in
  if (8 <=? length clean_phone)%nat
     && negb (bool_decide (clean_phone ∈ seen_phones))
  then (phones ++ [clean_phone], seen_phones ∪ {[clean_phone]})
  else st.

(** What [add_phone] lets through: a text of at least 8 characters without
    white space or dash. *)
Definition cleaned (p : str) : Prop :=
  (8 <= length p)%nat /\ Forall (fun c => dash_or_space c = false) p.

Definition scan_phones (phone_patterns : list regex) (text : str)
    (seen_phones : gset str) : list str * gset str :=
  foldl (fun st pattern => foldl add_phone st (findall pattern text))
        ([], seen_phones) phone_patterns.

Definition _detect_phone_country (phone : str) : str :=
  if negb (truthy phone) then lit "unknown"
  else
    let clean := sub (Chr (cls_or dash_or_space (ch "+"))) [] phone in
    if startswith clean (lit "20") || startswith clean (lit "01")
    then lit "egypt"
    else if startswith clean (lit "966") || startswith clean (lit "05")
    then lit "saudi"
    else if startswith clean (lit "971")
            || startswith clean (lit "05") && bool_decide (length clean = 10%nat)
    then lit "uae"
    else if startswith clean (lit "965") then lit "kuwait"
    else lit "unknown".

(** The variables of [extract_leads_from_results] that live across the
    iterations of its loop over the results. *)
Record extraction := {
  leads : list lead;
  seen_phones : gset str;
  seen_urls : gset str
}.

(** [f"{result.get('title', '')} {result.get('snippet', '')}"] *)
Definition text_of (r : result) : str :=
  default [] (title r) ++ lit " " ++ default [] (snippet r).

(** [result.get("link", "")] *)
Definition url_of (r : result) : str := default [] (link r).

(** One iteration of the loop over the results. *)
Definition extract_step (phone_patterns : list regex) (country : str)
    (include_no_phone : bool) (st : extraction) (r : result) : extraction :=
  let text := text_of r in
  let url := url_of r in
  let (phones, seen) := scan_phones phone_patterns text (seen_phones st) in
  let emails := findall email_pattern text in
  let has_customer_intent := AIService.any_in CUSTOMER_INTENT_KEYWORDS text in
  let should_include :=
    bool_decide (phones <> []) || bool_decide (emails <> [])
    || include_no_phone && has_customer_intent
       && negb (bool_decide (url ∈ seen_urls st)) in
  if should_include then
    let name := default (lit "عميل محتمل") (title r) in
    let name := take 60 (sub title_suffix [] name) in
    let detected_country :=
      match phones with
      | p :: _ => _detect_phone_country p
      | [] => country
      end in
    let lead_type :=
      match phones, emails with
      | _ :: _, _ => lit "with_phone"
      | [], _ :: _ => lit "with_email"
      | [], [] => lit "potential"
      end in
    {| leads := leads st ++ [
         {| name := name;
            phone := default [] (head phones);
            email := default [] (head emails);
            lead_source := url;
            notes := take 300 (default [] (snippet r));
            status := lit "new";
            country := detected_country;
            lead_type := lead_type |} ];
       seen_phones := seen;
       seen_urls := seen_urls st ∪ {[url]} |}
  else
    {| leads := leads st; seen_phones := seen; seen_urls := seen_urls st |}.

(** The patterns of the call: those of [country], or of ["all"] for an
    unknown one, followed by those of ["all"] unless [country] is ["all"]. *)
Definition patterns_of (country : str) : list regex :=
  let all_patterns := AIService.dict_get PHONE_PATTERNS_BY_COUNTRY (lit "all") [] in
  let phone_patterns :=
    AIService.dict_get PHONE_PATTERNS_BY_COUNTRY country all_patterns in
  if bool_decide (country <> lit "all") then phone_patterns ++ all_patterns
  else phone_patterns.

Definition extract_leads_from_results (results : list result) (country : str)
    (include_no_phone : bool) : list lead :=
  leads (foldl (extract_step (patterns_of country) country include_no_phone)
               {| leads := []; seen_phones := ∅; seen_urls := ∅ |} results).

Section Service.

Variable SERPER_API_KEY : str.
Variable http : oracle.

Definition search_serper (query : str) (max_results : Z) : io (list result) :=
  if negb (truthy SERPER_API_KEY) then ret []
  else
    let* response := send http (SerperPost SERPER_API_KEY query (lit "eg") max_results) in
    ret (default [] (parsed response "organic" max_results serper_results)).

Definition search_duckduckgo (query : str) (max_results : Z) : io (list result) :=
  let* response := send http (DuckGet query) in
  ret (default [] (parsed response "RelatedTopics" max_results duckduckgo_results)).

Definition search (query : str) (max_results : Z) : io (list result) :=
  let* results := search_serper query max_results in
  match results with
  | [] => search_duckduckgo query max_results
  | _ => ret results
  end.

Definition country_gl : list (str * str) :=
  [(lit "egypt", lit "eg"); (lit "saudi", lit "sa"); (lit "uae", lit "ae");
   (lit "kuwait", lit "kw")].

Definition search_with_country (query country : str) (max_results : Z)
    : io (list result) :=
  let gl := AIService.dict_get country_gl country (lit "eg") in
  if truthy SERPER_API_KEY then
    let* response := send http (SerperPost SERPER_API_KEY query gl max_results) in
    match parsed response "organic" max_results serper_results with
    | Some results => ret results
    | None => search_duckduckgo query max_results
    end
  else search_duckduckgo query max_results.

(** The variables of [hunt_leads] that live across its loops. *)
Record hunt := {
  all_leads : list lead;
  hunt_phones : gset str;       (* [seen_phones] *)
  seen_emails : gset str
}.

(** The body of the loop [for lead in leads], which [hunt_leads] repeats
    after each of its four kinds of search. *)
Definition accept (st : hunt) (l : lead) : hunt :=
  let phone := phone l in
  let email := email l in
  if truthy phone && negb (bool_decide (phone ∈ hunt_phones st)) then
    {| all_leads := all_leads st ++ [l];
       hunt_phones := hunt_phones st ∪ {[phone]};
       seen_emails := seen_emails st |}
  else if truthy email && negb (bool_decide (email ∈ seen_emails st))
          && negb (truthy phone) then
    {| all_leads := all_leads st ++ [l];
       hunt_phones := hunt_phones st;
       seen_emails := seen_emails st ∪ {[email]} |}
  else st.

Definition accumulate (st : hunt) (found : list lead) : hunt :=
  foldl accept st found.

(** The type tag of a lead follows from its contacts. *)
Definition typed (l : lead) : Prop :=
  lead_type l =
    match phone l, email l with
    | _ :: _, _ => lit "with_phone"
    | [], _ :: _ => lit "with_email"
    | [], [] => lit "potential"
    end.

(** What the loops of [hunt_leads] maintain: the two sets hold the phones
    and the emails the accepted leads were accepted for; two accepted
    leads never have the same phone, nor two phoneless ones the same email;
    every accepted lead has a contact and is not tagged potential. *)
Record hunt_ok (st : hunt) : Prop := {
  phones_seen : forall a,
    a ∈ all_leads st -> phone a <> [] -> phone a ∈ hunt_phones st;
  emails_seen : forall a,
    a ∈ all_leads st -> phone a = [] -> email a ∈ seen_emails st;
  phones_apart : forall i j a b,
    all_leads st !! i = Some a -> all_leads st !! j = Some b -> i <> j ->
    phone a <> [] -> phone a <> phone b;
  emails_apart : forall i j a b,
    all_leads st !! i = Some a -> all_leads st !! j = Some b -> i <> j ->
    phone a = [] -> phone b = [] -> email a <> email b;
  contacts : Forall (fun a => phone a <> [] \/ email a <> []) (all_leads st);
  types : Forall (fun a => lead_type a <> lit "potential") (all_leads st)
}.

Definition phone_patterns_map : list (str * str) := [
  (lit "egypt", qlit "(`010` OR `011` OR `012` OR `015`)");
  (lit "saudi", qlit "(`05` OR `9665` OR `966`)");
  (lit "uae", qlit "(`050` OR `055` OR `9714`)");
  (lit "kuwait", qlit "(`965`)")
].

Definition country_names : list (str * str) := [
  (lit "egypt", lit "مصر"); (lit "saudi", lit "السعودية");
  (lit "uae", lit "الإمارات"); (lit "kuwait", lit "الكويت")
].

Definition phone_heavy_queries (service city phone_patterns : str) : list str := [
  qlit "site:facebook.com (`محتاج " ++ service ++ qlit "` OR `عايز " ++ service
    ++ qlit "`) `" ++ city ++ qlit "` " ++ phone_patterns;
  qlit "site:facebook.com (`مين يعرف " ++ service ++ qlit "` OR `دلوني على "
    ++ service ++ qlit "`) `" ++ city ++ qlit "` " ++ phone_patterns;
  qlit "site:instagram.com (`محتاج " ++ service ++ qlit "` OR `ابحث عن "
    ++ service ++ qlit "`) " ++ city ++ lit " " ++ phone_patterns;
  qlit "`يا ريت حد يرشحلي " ++ service ++ qlit "` OR `حد يعرف " ++ service
    ++ qlit " كويس` " ++ city;
  qlit "`" ++ city ++ qlit "` (`محتاج " ++ service ++ qlit " ضروري` OR `عايز "
    ++ service ++ qlit " كويس`) " ++ phone_patterns;
  qlit "`حد جرب " ++ service ++ qlit "` OR `تجربتكم مع " ++ service
    ++ qlit "` " ++ city ++ lit " " ++ phone_patterns
].

Definition generic_queries (service city country_name phone_patterns : str)
    : list str := [
  qlit "`محتاج " ++ service ++ qlit "` " ++ country_name ++ lit " " ++ phone_patterns;
  qlit "`عايز " ++ service ++ qlit "` " ++ city ++ lit " " ++ phone_patterns;
  qlit "`مين يعرف " ++ service ++ qlit " كويس` " ++ city;
  qlit "`ابحث عن " ++ service ++ qlit "` " ++ city ++ lit " " ++ phone_patterns;
  qlit "`حد يرشحلي " ++ service ++ qlit "` " ++ country_name
].

(** [len(all_leads) >= max_results] *)
Definition quota_met (st : hunt) (max_results : Z) : bool :=
  max_results <=? Z.of_nat (length (all_leads st)).

Section Hunt.

Variable lower : str -> str.

(** A loop [for search_query in queries] of [hunt_leads]: it stops at the
    first query that finds the quota met. *)
Fixpoint wave (queries : list str) (country : str) (max_results : Z)
    (st : hunt) : io hunt :=
  match queries with
  | [] => ret st
  | search_query :: rest =>
    if quota_met st max_results then ret st
    else
      let* results := search_with_country search_query country max_results in
      let found := extract_leads_from_results results country true in
      wave rest country max_results (accumulate st found)
  end.

(** The golden query of [hunt_leads].  [generate_golden_query] returns for
    every argument, so the handler of the [try] around it is never
    entered; the query it returns replaces an empty one. *)
Definition golden_query (query city strategy country phone_patterns : str)
    : str :=
  let golden_query :=
    AIService.generate_golden_query lower query city strategy (Some country) in
  if negb (truthy golden_query)
  then qlit "site:facebook.com `" ++ query ++ qlit "` `" ++ city ++ qlit "` "
         ++ phone_patterns
  else golden_query.

(** The search with the golden query and the loop after it. *)
Definition golden_wave (query city : str) (max_results : Z) (strategy : str)
    (country phone_patterns : str) : io hunt :=
  let golden_query :=
    golden_query query city strategy country phone_patterns in
  let* results := search_with_country golden_query country (max_results * 3) in
  let found := extract_leads_from_results results country true in
  ret (accumulate {| all_leads := []; hunt_phones := ∅; seen_emails := ∅ |} found).

(** The three fallback tiers, each behind its quota check. *)
Definition fallback_waves (query city : str) (max_results : Z)
    (country phone_patterns : str) (st : hunt) : io hunt :=
  let service := AIService._extract_service query in
  let* st := wave (phone_heavy_queries service city phone_patterns)
                  country max_results st in
  let* st :=
    if negb (quota_met st max_results) then
      let fallback_queries :=
        AIService.generate_fallback_queries lower query city (Some country) in
      wave fallback_queries country max_results st
    else ret st in
  if negb (quota_met st max_results) then
    let country_name := AIService.dict_get country_names country (lit "مصر") in
    wave (generic_queries service city country_name phone_patterns)
         country max_results st
  else ret st.

Definition hunt_leads (query city : str) (max_results : Z) (strategy : str)
    (country : option str) : io (list lead) :=
  let country := AIService.country_or_detect lower country city in
  let phone_patterns :=
    AIService.dict_get phone_patterns_map country
                       (qlit "(`010` OR `011` OR `012` OR `015`)") in
  let* st := golden_wave query city max_results strategy country phone_patterns in
  let* st := fallback_waves query city max_results country phone_patterns st in
  ret (slice_to max_results (all_leads st)).

End Hunt.

End Service.

End SearchService.

(** ** [app/schemas/requests.py] *)

Module Requests.

(** [HuntRequest.validate_max] *)
Definition validate_max (v : Z) : Z := Z.min (Z.max 1 v) 50.

End Requests.

(** ** [app/services/smart_hunt_service.py] *)

Module SmartHunt.
Import Py Re SearchService.

(** The keys [build_smart_query] reads from the context dict; [None] is an
    absent key.  [count] holds an [int], on which [int()] is the identity. *)
Record context := {
  business_type : option str;
  service : option str;
  location : option str;
  count : option Z;
  extra_info : option str
}.

Definition build_smart_query (ctx : context) : str * str * Z :=
  let business := default [] (business_type ctx) in
  let service := default [] (service ctx) in
  let location := default (lit "مصر") (location ctx) in
  let count := default 20 (count ctx) in
  let extra := default [] (extra_info ctx) in
  let search_term := if truthy service then service else business in
  let search_term :=
    if negb (truthy search_term) && truthy extra then take 50 extra
    else search_term in
  (search_term, location, Z.min (Z.max count 5) 50).

Module DuplicateChecker.

(** [[\s\-\.\(\)]] *)
Definition separators : cls := cls_or Re.s (oneof "-.()").

Definition _normalize_phone (phone : str) : str :=
  let phone := sub (Chr separators) [] phone in
  if startswith phone (lit "+2") then drop 2 phone
  else if startswith phone (lit "002") then drop 3 phone
  else phone.

(** The variables of [filter_duplicates] that live across its loop. *)
Record filtering := {
  unique_leads : list lead;
  new_phones : gset str;
  new_emails : gset str
}.

(** [lead["phone"] = phone] *)
Definition set_phone (l : lead) (p : str) : lead :=
  {| name := name l; phone := p; email := email l;
     lead_source := lead_source l; notes := notes l; status := status l;
     country := country l; lead_type := lead_type l |}.

(** What the readers of the lead store see of [app/core/database.py]: the
    connection of [DB_TYPE == "replit_pg" and pg_conn], given by what the
    [try] block of each reader leaves of its query, the rows, or [None]
    when it raises ([psycopg2] missing, the query failing); the emails are
    asked for one user. *)
Record postgres := {
  phone_rows : option (list str);
  email_rows : str -> option (list str)
}.

(** [get_existing_phones]: with a connection, the set of the rows, or the
    empty set the handler of the [try] leaves.  [None] stands for the
    [AttributeError] of the other branch, with [DB_TYPE] local or supabase
    or without a connection: [LOCAL_DB["leads"]] is a list, which
    [app/services/lead_service.py] appends to and rebuilds, and a list has
    no [items]. *)
Definition get_existing_phones (db : option postgres) (user_id : str)
    : option (gset str) :=
  match db with
  | Some conn =>
    Some (match phone_rows conn with
          | Some rows => list_to_set rows
          | None => ∅
          end)
  | None => None
  end.

(** [get_existing_emails]: the rows of the user, in lower case.  [None]
    stands for the [AttributeError] of the other branch: a list has no
    [get]. *)
Definition get_existing_emails (lower : str -> str) (db : option postgres)
    (user_id : str) : option (gset str) :=
  match db with
  | Some conn =>
    Some (match email_rows conn user_id with
          | Some rows => list_to_set (lower <$> rows)
          | None => ∅
          end)
  | None => None
  end.

Section Filter.

Variable lower : str -> str.

(** The two sets read from the lead store at the start of the call, by
    [get_existing_phones] and [get_existing_emails]. *)
Variable existing_phones existing_emails : gset str.

(** One iteration of the loop: the phone of a lead that has one is
    normalized and written back before the tests. *)
Definition filter_step (st : filtering) (l : lead) : filtering :=
  let p := if truthy (phone l) then _normalize_phone (phone l) else phone l in
  let l := if truthy (phone l) then set_phone l p else l in
  let e := strip (lower (email l)) in
  if truthy p then
    if bool_decide (p ∈ existing_phones) || bool_decide (p ∈ new_phones st)
    then st
    else {| unique_leads := unique_leads st ++ [l];
            new_phones := new_phones st ∪ {[p]};
            new_emails := new_emails st |}
  else if truthy e then
    if bool_decide (e ∈ existing_emails) || bool_decide (e ∈ new_emails st)
    then st
    else {| unique_leads := unique_leads st ++ [l];
            new_phones := new_phones st;
            new_emails := new_emails st ∪ {[e]} |}
  else st.

(** The loop of [filter_duplicates] and the list it leaves. *)
Definition filter_loop (candidates : list lead) : list lead :=
  unique_leads
    (foldl filter_step
           {| unique_leads := []; new_phones := ∅; new_emails := ∅ |}
           candidates).

End Filter.

(** [filter_duplicates]: the two reads, then the loop.  [None] stands for
    the exception of a reader. *)
Definition filter_duplicates (lower : str -> str) (db : option postgres)
    (user_id : str) (leads : list lead) : option (list lead) :=
  existing_phones ← get_existing_phones db user_id;
  existing_emails ← get_existing_emails lower db user_id;
  Some (filter_loop lower existing_phones existing_emails leads).

End DuplicateChecker.

End SmartHunt.

(** ** [app/services/guided_hunt_service.py] *)

Module GuidedHunt.
Import Py Re.

Section Count.

(** The interpreter's limit on the digits [int()] converts. *)
Variable max_str_digits : option nat.

(** The answer to the step whose key is ["count"], in
    [GuidedHuntSession.process_response]: the step has no options, so the
    value is the stripped response; its non-digits are removed, and the
    handler of the [try] gives 20 when [int()] raises. *)
Definition count_value (response : str) : Z :=
  let value := strip response in
  match int_of_digits max_str_digits (sub (Chr D) [] value) with
  | Some count => Z.max 5 (Z.min 50 count)
  | None => 20
  end.

End Count.

End GuidedHunt.

(** ** Python runtime: printing integers *)

Module PyInt.
Import Py.

(** [str(n)] of an [int]. *)
Definition str_of_int (n : Z) : str := lit (NilZero.string_of_int (Z.to_int n)).

End PyInt.

(** ** [app/schemas/requests.py]: the other validators

    Pydantic runs a [field_validator] on the value already converted to the
    field's type, so the integer validators receive an [int]. *)

Module Schemas.
Import Py.

(** [AdminCreateUser.validate_balance] *)
Definition validate_balance (v : Z) : Z := Z.min (Z.max 0 v) 100000.

(** [DistributeTokens.validate_amount] *)
Definition validate_amount (v : Z) : Z := Z.min (Z.max 1 v) 50000.

(** [CampaignRequest.validate_duration] *)
Definition validate_duration (v : Z) : Z := Z.min (Z.max 1 v) 365.

(** [FeedbackRequest.validate_rating] and
    [LearningRateRequest.validate_rating] *)
Definition validate_rating (v : Z) : Z := Z.min (Z.max 1 v) 5.

(** [v if v in allowed else fallback] *)
Definition allowed_or (allowed : list str) (fallback v : str) : str :=
  if bool_decide (v ∈ allowed) then v else fallback.

Definition ad_platforms : list str :=
  [lit "facebook"; lit "instagram"; lit "google"; lit "tiktok";
   lit "linkedin"; lit "twitter"].

(** [AdRequest.validate_platform] *)
Definition validate_platform : str -> str :=
  allowed_or ad_platforms (lit "facebook").

Definition funnel_stages : list str :=
  [lit "bait_sent"; lit "replied"; lit "interested"; lit "negotiating";
   lit "hot"; lit "closed"; lit "lost"].

(** [FunnelUpdateRequest.validate_stage]: [None] stands for [ValueError]. *)
Definition validate_stage (v : str) : option str :=
  if bool_decide (v ∉ funnel_stages) then None else Some v.

Definition bait_templates : list str :=
  [lit "curiosity"; lit "problem"; lit "urgency"; lit "social_proof";
   lit "question"; lit "value"].

(** [BaitMessageRequest.validate_type] *)
Definition validate_type : str -> str :=
  allowed_or bait_templates (lit "curiosity").

Definition learning_platforms : list str :=
  [lit "whatsapp"; lit "messenger"; lit "instagram"; lit "other"].

(** [LearningImportRequest.validate_platform] *)
Definition validate_learning_platform : str -> str :=
  allowed_or learning_platforms (lit "whatsapp").

Definition outcomes : list str :=
  [lit "converted"; lit "lost"; lit "pending"; lit "unknown"].

(** [LearningRateRequest.validate_outcome] *)
Definition validate_outcome : str -> str :=
  allowed_or outcomes (lit "unknown").

End Schemas.

(** ** [GuidedHuntSession] of [app/services/guided_hunt_service.py]

    The class keeps its sessions in the dict [_sessions], keyed by user;
    every method is a function of that dict.  [datetime.now().isoformat()]
    is the argument [now]. *)

Module GuidedSession.
Import Py Re PyInt.

(** A text of several lines, joined by newline characters. *)
Definition lines (ls : list str) : str := join [10%N] ls.

(** A value of a session's data: an answer, or the count. *)
Inductive value :=
  | Text (s : str)
  | Number (n : Z).

#[global] Instance value_eq_dec : EqDecision value.
Proof. solve_decision. Defined.

(** [str(v)], as an f-string formats it. *)
Definition show (v : value) : str :=
  match v with
  | Text s => s
  | Number n => str_of_int n
  end.

(** Truth value. *)
Definition value_truthy (v : value) : bool :=
  match v with
  | Text s => truthy s
  | Number n => negb (n =? 0)
  end.

Record step_config := {
  step_id : str;
  question : option str;
  key : str;
  options : option (gmap str str)
}.

Definition STEPS : list step_config := [
  {| step_id := lit "target_type";
     question :=
       Some (lines [lit "🎯 **أهلاً! أنا مساعدك الذكي للصيد**";
        [];
        lit "إيه نوع العملاء اللي بتدور عليهم؟";
        [];
        lit "1️⃣ مشترين عقارات";
        lit "2️⃣ بايعين عقارات";
        lit "3️⃣ مستثمرين";
        lit "4️⃣ شركات عقارية";
        lit "5️⃣ نوع تاني (اكتبه)"]);
     key := lit "target_type";
     options :=
       Some {[ lit "1" := lit "مشترين عقارات";
        lit "2" := lit "بايعين عقارات";
        lit "3" := lit "مستثمرين";
        lit "4" := lit "شركات عقارية" ]} |};
  {| step_id := lit "property_type";
     question :=
       Some (lines [lit "🏠 **تمام! إيه نوع العقار؟**";
        [];
        lit "1️⃣ شقق سكنية";
        lit "2️⃣ فيلات";
        lit "3️⃣ أراضي";
        lit "4️⃣ محلات تجارية";
        lit "5️⃣ مكاتب";
        lit "6️⃣ كل الأنواع"]);
     key := lit "property_type";
     options :=
       Some {[ lit "1" := lit "شقق";
        lit "2" := lit "فيلات";
        lit "3" := lit "أراضي";
        lit "4" := lit "محلات";
        lit "5" := lit "مكاتب";
        lit "6" := lit "عقارات" ]} |};
  {| step_id := lit "location";
     question :=
       Some (lines [lit "📍 **فين المنطقة؟**";
        [];
        lit "اكتب اسم المدينة أو المنطقة";
        lit "(مثال: القاهرة، التجمع الخامس، الرياض، دبي)"]);
     key := lit "location";
     options :=
       None |};
  {| step_id := lit "budget";
     question :=
       Some (lines [lit "💰 **الميزانية المتوقعة؟**";
        [];
        lit "1️⃣ أقل من مليون";
        lit "2️⃣ 1-3 مليون";
        lit "3️⃣ 3-5 مليون";
        lit "4️⃣ أكثر من 5 مليون";
        lit "5️⃣ أي ميزانية"]);
     key := lit "budget";
     options :=
       Some {[ lit "1" := lit "اقتصادي";
        lit "2" := lit "متوسط";
        lit "3" := lit "فاخر";
        lit "4" := lit "سوبر لوكس";
        lit "5" := [] ]} |};
  {| step_id := lit "count";
     question :=
       Some (lines [lit "👥 **كام عميل تحتاج؟**";
        [];
        lit "اكتب الرقم (من 5 لـ 50)"]);
     key := lit "count";
     options :=
       None |};
  {| step_id := lit "confirm";
     question :=
       None;
     key := lit "confirm";
     options :=
       Some {[ lit "1" := lit "ابدأ";
        lit "2" := lit "تعديل" ]} |}
].

(** A session.  [step] starts at 0 and is only ever incremented, so it is
    a natural number. *)
Record session := {
  step : nat;
  data : gmap str value;
  started_at : str;
  active : bool
}.

(** A returned dict: [ready_to_hunt] and [hunt_data] are the keys only the
    ready reply has; [is_guided_hunt] is always [True]. *)
Record reply := {
  message : option str;
  reply_step : nat;
  ready_to_hunt : bool;
  hunt_data : option (gmap str value)
}.

Definition new_session (now : str) : session :=
  {| step := 0; data := ∅; started_at := now; active := true |}.

Definition start_session (now user_id : str) (sessions : gmap str session)
    : reply * gmap str session :=
  ({| message := cfg ← STEPS !! 0%nat; question cfg;
      reply_step := 0; ready_to_hunt := false; hunt_data := None |},
   <[user_id := new_session now]> sessions).

Definition get_session (user_id : str) (sessions : gmap str session)
    : option session :=
  match sessions !! user_id with
  | Some session => if active session then Some session else None
  | None => None
  end.

Definition get (data : gmap str value) (k : string) (fallback : value)
    : value :=
  default fallback (data !! lit k).

Definition _build_summary (data : gmap str value) : str :=
  let budget := get data "budget" (Text (lit "أي ميزانية")) in
  lines [
    lit "📋 **ملخص طلبك:**";
    [];
    lit "🎯 نوع العميل: **"
      ++ show (get data "target_type" (Text (lit "غير محدد"))) ++ lit "**";
    lit "🏠 نوع العقار: **"
      ++ show (get data "property_type" (Text (lit "غير محدد"))) ++ lit "**";
    lit "📍 المنطقة: **"
      ++ show (get data "location" (Text (lit "غير محدد"))) ++ lit "**";
    lit "💰 الميزانية: **"
      ++ show (if value_truthy budget then budget
               else Text (lit "أي ميزانية")) ++ lit "**";
    lit "👥 العدد: **" ++ show (get data "count" (Number 20)) ++ lit " عميل**";
    [];
    lit "هل تريد البدء في الصيد؟";
    lit "1️⃣ ابدأ الصيد الآن";
    lit "2️⃣ تعديل البيانات"
  ].

Section Count.

(** The interpreter's limit on the digits [int()] converts. *)
Variable max_str_digits : option nat.

(** The value [process_response] stores for a response to a step: the
    option the response selects, or the stripped response; for the count,
    the clamped number, or 20 when [int()] raises. *)
Definition step_value (step_config : step_config) (response : str) : value :=
  let value :=
    match options step_config with
    | Some opts =>
      if bool_decide (opts = ∅) then strip response
      else default (strip response) (opts !! strip response)
    | None => strip response
    end in
  if bool_decide (key step_config = lit "count") then
    match int_of_digits max_str_digits (sub (Chr D) [] value) with
    | Some count => Number (Z.max 5 (Z.min 50 count))
    | None => Number 20
    end
  else Text value.

(** [None] stands for the [IndexError] of [STEPS[current_step]]; the
    sessions are then as they were. *)
Definition process_response (now user_id response : str)
    (sessions : gmap str session) : option (reply * gmap str session) :=
  match get_session user_id sessions with
  | None => Some (start_session now user_id sessions)
  | Some session =>
    let current_step := step session in
    step_config ← STEPS !! current_step;
    let value := step_value step_config response in
    let session :=
      {| step := S (step session);
         data := <[key step_config := value]> (data session);
         started_at := started_at session;
         active := active session |} in
    let sessions := <[user_id := session]> sessions in
    if (length STEPS - 1 <=? step session)%nat then
      Some ({| message := Some (_build_summary (data session));
               reply_step := step session;
               ready_to_hunt := true;
               hunt_data := Some (data session) |}, sessions)
    else
      next_step ← STEPS !! step session;
      Some ({| message := question next_step;
               reply_step := step session;
               ready_to_hunt := false;
               hunt_data := None |}, sessions)
  end.

(** One call of [process_response] for each message of the user, in
    order. *)
Fixpoint conversation (now user_id : str) (responses : list str)
    (sessions : gmap str session)
    : option (list reply * gmap str session) :=
  match responses with
  | [] => Some ([], sessions)
  | response :: rest =>
    '(r, sessions) ← process_response now user_id response sessions;
    '(rs, sessions) ← conversation now user_id rest sessions;
    Some (r :: rs, sessions)
  end.

End Count.

Definition end_session (user_id : str) (sessions : gmap str session)
    : gmap str session :=
  match sessions !! user_id with
  | Some session =>
    <[user_id := {| step := step session; data := data session;
                    started_at := started_at session; active := false |}]>
      sessions
  | None => sessions
  end.

(** What [confirm_hunt] returns: [None], a copy of the session's data, or
    [{"restart": True}]. *)
Inductive confirmation :=
  | NoHunt
  | HuntData (hunt_data : gmap str value)
  | Restart.

Definition confirm_words : list str :=
  [lit "1"; lit "ابدأ"; lit "نعم"; lit "اه"; lit "أيوه"; lit "تمام"; lit "يلا"].

Definition restart_words : list str := [lit "2"; lit "تعديل"; lit "لا"].

Definition confirm_hunt (now user_id confirm : str)
    (sessions : gmap str session) : confirmation * gmap str session :=
  match get_session user_id sessions with
  | None => (NoHunt, sessions)
  | Some session =>
    if bool_decide (data session = ∅) then (NoHunt, sessions)
    else if bool_decide (strip confirm ∈ confirm_words) then
      (HuntData (data session), end_session user_id sessions)
    else if bool_decide (strip confirm ∈ restart_words) then
      (Restart, <[user_id := new_session now]> sessions)
    else (NoHunt, sessions)
  end.

Section Query.

(** The interpreter's [int()] on a string; [None] stands for its
    [ValueError]. *)
Variable int_of_str : str -> option Z.

(** The string a value is, if it is one. *)
Definition text_of (v : value) : option str :=
  match v with
  | Text s => Some s
  | Number _ => None
  end.

(** [build_search_query]: [None] stands for the [TypeError] of
    ["مشتر" in target] on an [int] and of [" ".join] on a list that holds
    one, and for the [ValueError] of [int()]. *)
Definition build_search_query (hunt_data : gmap str value)
    : option (str * value * Z) :=
  let target := get hunt_data "target_type" (Text (lit "عقارات")) in
  let property_type := get hunt_data "property_type" (Text []) in
  let location := get hunt_data "location" (Text (lit "القاهرة")) in
  let budget := get hunt_data "budget" (Text []) in
  target ← text_of target;
  let query_parts :=
    if contains (lit "مشتر") target then [Text (lit "محتاج"); Text (lit "عايز")]
    else if contains (lit "بايع") target then [Text (lit "للبيع")]
    else if contains (lit "مستثمر") target then [Text (lit "استثمار")]
    else if contains (lit "شركات") target then [Text (lit "شركة عقارات")]
    else [] in
  let query_parts :=
    if value_truthy property_type
       && negb (bool_decide (property_type = Text (lit "عقارات")))
    then query_parts ++ [property_type]
    else query_parts ++ [Text (lit "عقارات")] in
  let query_parts :=
    if value_truthy budget then query_parts ++ [budget] else query_parts in
  query_parts ← mapM text_of query_parts;
  let query := join (lit " ") query_parts in
  count ← match get hunt_data "count" (Number 20) with
          | Number n => Some n
          | Text s => int_of_str s
          end;
  Some (query, location, count).

End Query.

End GuidedSession.

(** ** [SmartHuntSession] of [app/services/smart_hunt_service.py]: the
    session store

    [process_message], which asks the language model, fills [messages] and
    [context] and sets [ready]; both are kept abstract here. *)

Module SmartSession.
Import Py.

Section Store.

(** The entries of [messages] and the values of the [context] dict. *)
Variables (message value : Type).

Record session := {
  messages : list message;
  context : gmap str value;
  started_at : str;
  active : bool;
  ready : bool
}.

Definition new_session (now : str) : session :=
  {| messages := []; context := ∅; started_at := now; active := true;
     ready := false |}.

Definition get_session (user_id : str) (sessions : gmap str session)
    : option session :=
  match sessions !! user_id with
  | Some session => if active session then Some session else None
  | None => None
  end.

Definition end_session (user_id : str) (sessions : gmap str session)
    : gmap str session :=
  match sessions !! user_id with
  | Some session =>
    <[user_id := {| messages := messages session;
                    context := context session;
                    started_at := started_at session;
                    active := false;
                    ready := ready session |}]> sessions
  | None => sessions
  end.

(** What [confirm_hunt] returns: [None], a copy of the session's context,
    or [{"restart": True}]. *)
Inductive confirmation :=
  | NoHunt
  | HuntContext (hunt_context : gmap str value)
  | Restart.

Definition confirm_words : list str :=
  [lit "1"; lit "ابدأ"; lit "نعم"; lit "اه"; lit "أيوه"; lit "تمام"; lit "يلا";
   lit "اوك"; lit "ok"].

Definition restart_words : list str :=
  [lit "2"; lit "تعديل"; lit "لا"; lit "غير"].

Definition confirm_hunt (now user_id confirm : str)
    (sessions : gmap str session) : confirmation * gmap str session :=
  match get_session user_id sessions with
  | None => (NoHunt, sessions)
  | Some session =>
    if negb (ready session) then (NoHunt, sessions)
    else if bool_decide (strip confirm ∈ confirm_words) then
      (HuntContext (context session), end_session user_id sessions)
    else if bool_decide (strip confirm ∈ restart_words) then
      (Restart, <[user_id := new_session now]> sessions)
    else (NoHunt, sessions)
  end.

End Store.

Arguments messages {_ _} _.
Arguments context {_ _} _.
Arguments started_at {_ _} _.
Arguments active {_ _} _.
Arguments ready {_ _} _.
Arguments get_session {_ _} _ _.
Arguments end_session {_ _} _ _.
Arguments NoHunt {_}.
Arguments HuntContext {_} _.
Arguments Restart {_}.
Arguments confirm_hunt {_ _} _ _ _ _.

End SmartSession.

(** ** The local store: [app/services/user_service.py] and
    [app/services/lead_service.py]

    The functions as they run with [DB_TYPE == "local"], the value
    [app/core/database.py] gives it: neither database branch is entered and
    [LOCAL_DB] holds the users and the leads.  A user of [LOCAL_DB] has the
    keys its two writers, [get_or_create] and [create_user], give it, and a
    lead the keys [add_lead] gives it; [update_lead], which can give a
    stored lead other keys, is not embedded. *)

Module LocalStore.
Import Py.

(** [app/core/config.py] *)
Definition HUNT_COST : Z := 20.
Definition DEFAULT_BALANCE : Z := 100.

(** A user: [password] is the key only [create_user] writes. *)
Record user := {
  username : str;
  password : option str;
  wallet_balance : Z;
  is_admin : bool;
  created_at : str
}.

(** A lead as [add_lead] stores it. *)
Record stored_lead := {
  lead_id : str;
  user_id : str;
  full_name : str;
  phone_number : str;
  stored_email : str;
  stored_source : str;
  stored_notes : str;
  stored_status : str;
  stored_at : str
}.

(** A lead as [_normalize_lead] returns it. *)
Record normalized_lead := {
  id : str;
  owner : str;
  name : str;
  phone : str;
  email : str;
  source : str;
  notes : str;
  status : str;
  quality : str;
  funnel_stage : str;
  is_favorite : bool;
  normalized_at : str
}.

(** [LOCAL_DB], and the number of values read so far from the clock and
    from the generator of identifiers. *)
Record store := {
  users : gmap str user;
  leads : list stored_lead;
  reads : nat
}.

Definition set_users (db : store) (us : gmap str user) : store :=
  {| users := us; leads := leads db; reads := reads db |}.

Definition set_admin_flag (u : user) : user :=
  {| username := username u; password := password u;
     wallet_balance := wallet_balance u; is_admin := true;
     created_at := created_at u |}.

Definition set_balance (u : user) (balance : Z) : user :=
  {| username := username u; password := password u;
     wallet_balance := balance; is_admin := is_admin u;
     created_at := created_at u |}.

(** The stored lead has the keys [full_name] and [phone_number] and not
    [name] and [phone]. *)
Definition _normalize_lead (l : stored_lead) : normalized_lead :=
  {| id := lead_id l;
     owner := user_id l;
     name := if truthy (full_name l) then full_name l else [];
     phone := if truthy (phone_number l) then phone_number l else [];
     email := stored_email l;
     source := stored_source l;
     notes := stored_notes l;
     status := stored_status l;
     quality := [];
     funnel_stage := [];
     is_favorite := false;
     normalized_at := stored_at l |}.

Section Environment.

(** [str.lower], the clock ([datetime.now().isoformat()]) and
    [str(uuid.uuid4())]; the latter two by the number of values read
    before. *)
Variable lower : str -> str.
Variable now : nat -> str.
Variable uuid4 : nat -> str.

(** [UserService.get_or_create] *)
Definition get_or_create (user_id : str) (db : store) : user * store :=
  let admin := bool_decide (lower user_id = lit "admin") in
  match users db !! user_id with
  | None =>
    let u := {| username := user_id; password := None;
                wallet_balance := DEFAULT_BALANCE; is_admin := admin;
                created_at := now (reads db) |} in
    (u, {| users := <[user_id := u]> (users db); leads := leads db;
           reads := S (reads db) |})
  | Some u =>
    if admin
    then (set_admin_flag u,
          set_users db (<[user_id := set_admin_flag u]> (users db)))
    else (u, db)
  end.

(** [UserService.check_balance] *)
Definition check_balance (user_id : str) (cost : Z) (db : store)
    : (bool * Z) * store :=
  let '(u, db) := get_or_create user_id db in
  if is_admin u then ((true, 999999), db)
  else
    let balance := wallet_balance u in
    ((cost <=? balance, balance), db).

(** [UserService.deduct_balance] *)
Definition deduct_balance (user_id : str) (cost : Z) (db : store)
    : bool * store :=
  let '(u, db) := get_or_create user_id db in
  if is_admin u then (true, db)
  else
    match users db !! user_id with
    | Some stored =>
      if cost <=? wallet_balance stored
      then (true,
            set_users db (<[user_id := set_balance stored
                                          (wallet_balance stored - cost)]>
                            (users db)))
      else (false, db)
    | None => (false, db)
    end.

(** [UserService.add_balance] *)
Definition add_balance (user_id : str) (amount : Z) (db : store)
    : bool * store :=
  let '(_, db) := get_or_create user_id db in
  match users db !! user_id with
  | Some stored =>
    (true,
     set_users db (<[user_id := set_balance stored
                                   (wallet_balance stored + amount)]>
                     (users db)))
  | None => (false, db)
  end.

(** [LeadService.add_lead] of a lead of the hunt, whose dict has the keys
    [name], [phone], [email], [source], [notes] and [status] and neither
    [full_name] nor [phone_number]. *)
Definition add_lead (owner : str) (lead_data : SearchService.lead)
    (db : store) : normalized_lead * store :=
  let lead :=
    {| lead_id := uuid4 (reads db);
       user_id := owner;
       full_name := if truthy (SearchService.name lead_data)
                    then SearchService.name lead_data else [];
       phone_number := if truthy (SearchService.phone lead_data)
                       then SearchService.phone lead_data else [];
       stored_email := SearchService.email lead_data;
       stored_source := SearchService.lead_source lead_data;
       stored_notes := SearchService.notes lead_data;
       stored_status := SearchService.status lead_data;
       stored_at := now (S (reads db)) |} in
  (_normalize_lead lead,
   {| users := users db; leads := leads db ++ [lead];
      reads := S (S (reads db)) |}).

(** [LeadService.add_leads_batch] *)
Fixpoint add_leads_batch (owner : str) (leads_data : list SearchService.lead)
    (db : store) : list normalized_lead * store :=
  match leads_data with
  | [] => ([], db)
  | lead_data :: rest =>
    let '(lead, db) := add_lead owner lead_data db in
    let '(added, db) := add_leads_batch owner rest db in
    (lead :: added, db)
  end.

End Environment.

(** [LeadService.get_user_leads] *)
Definition get_user_leads (owner : str) (db : store) : list normalized_lead :=
  _normalize_lead <$> filter (fun l => user_id l = owner) (leads db).

(** [LeadService.delete_lead]; the identifiers are strings, on which
    [str()] is the identity. *)
Definition delete_lead (id owner : str) (db : store) : bool * store :=
  (true,
   {| users := users db;
      leads := filter (fun l => ~ (lead_id l = id /\ user_id l = owner))
                      (leads db);
      reads := reads db |}).

(** The dict [get_lead_stats] returns. *)
Record lead_stats := {
  total : nat;
  by_status : gmap str nat;
  stats_new : nat;
  stats_bait_sent : nat;
  stats_replied : nat;
  stats_interested : nat;
  stats_negotiating : nat;
  stats_hot : nat;
  stats_closed : nat;
  stats_lost : nat;
  stats_converted : nat
}.

(** [LeadService.get_lead_stats] *)
Definition get_lead_stats (owner : str) (db : store) : lead_stats :=
  let leads := get_user_leads owner db in
  let status_counts :=
    foldl (fun counts lead =>
             <[status lead := (default 0 (counts !! status lead) + 1)%nat]>
               counts)
          (∅ : gmap str nat) leads in
  let counted (k : str) := default 0%nat (status_counts !! k) in
  {| total := length leads;
     by_status := status_counts;
     stats_new := counted (lit "new");
     stats_bait_sent := counted (lit "bait_sent");
     stats_replied := counted (lit "replied");
     stats_interested := counted (lit "interested");
     stats_negotiating := counted (lit "negotiating");
     stats_hot := counted (lit "hot");
     stats_closed := counted (lit "closed");
     stats_lost := counted (lit "lost");
     stats_converted := counted (lit "closed") |}.

End LocalStore.

(** ** [app/api/routes/chat.py]: the hunt route *)

Module ChatRoutes.
Import Py PyInt Net LocalStore.

(** A validated [HuntRequest]. *)
Record HuntRequest := {
  query : str;
  city : str;
  max_results : Z
}.

(** The JSON the route returns. *)
Record hunt_response := {
  found : list SearchService.lead;
  count : nat;
  tokens_used : Z;
  remaining_balance : Z
}.

Inductive outcome :=
  | HTTPException (status_code : Z) (detail : str)
  | Returned (response : hunt_response).

Section Route.

Variable SERPER_API_KEY : str.
Variable http : oracle.
Variable lower : str -> str.
Variable now : nat -> str.
Variable uuid4 : nat -> str.

(** [hunt]: the state is the local store and the log of requests. *)
Definition hunt (user_id : str) (data : HuntRequest) (db : store)
    (log : list request) : outcome * store * list request :=
  let '((can_afford, balance), db) :=
    check_balance lower now user_id HUNT_COST db in
  if negb can_afford then
    (HTTPException 402
       (lit "رصيدك غير كافي (" ++ str_of_int balance
        ++ lit " توكن). المطلوب: " ++ str_of_int HUNT_COST ++ lit " توكن"),
     db, log)
  else
    let '(leads, log) :=
      SearchService.hunt_leads SERPER_API_KEY http lower (query data)
        (city data) (max_results data) (lit "social_media") None log in
    let db :=
      match leads with
      | [] => db
      | _ :: _ =>
        let '(_, db) := add_leads_batch now uuid4 user_id leads db in
        let '(_, db) := deduct_balance lower now user_id HUNT_COST db in
        db
      end in
    let '(user, db) := get_or_create lower now user_id db in
    (Returned {| found := leads;
                 count := length leads;
                 tokens_used :=
                   match leads with [] => 0 | _ :: _ => HUNT_COST end;
                 remaining_balance := wallet_balance user |},
     db, log).

End Route.

End ChatRoutes.

(** ** [app/core/security.py] *)

Module Security.
Import Py Re.

(** [validate_phone]: the pattern is [[^\d]]. *)
Definition validate_phone (phone : str) : str :=
  let phone := sub (Chr (cls_not d)) [] phone in
  if (length phone <? 10)%nat then [] else phone.

End Security.

(** ** Vocabulary of the further properties *)

Module Tiers.
Import Py Net SearchService.

(** The queries of the three fallback tiers in the order [hunt_leads]
    tries them: the six phone-heavy ones, the five of
    [generate_fallback_queries] and the five generic ones. *)
Definition fallback_tier_queries (lower : str -> str)
    (query city country phone_patterns : str) : list str :=
  let service := AIService._extract_service query in
  let country_name := AIService.dict_get country_names country (lit "مصر") in
  phone_heavy_queries service city phone_patterns
  ++ AIService.generate_fallback_queries lower query city (Some country)
  ++ generic_queries service city country_name phone_patterns.

(** All the queries of a hunt, the golden query first. *)
Definition tier_queries (lower : str -> str)
    (query city strategy country phone_patterns : str) : list str :=
  golden_query lower query city strategy country phone_patterns
  :: fallback_tier_queries lower query city country phone_patterns.

(** The requests one search sends when every reply fails: Serper, if there
    is a key, then DuckDuckGo. *)
Definition failed_search (SERPER_API_KEY query country : str)
    (max_results : Z) : list request :=
  (if truthy SERPER_API_KEY
   then [SerperPost SERPER_API_KEY query
           (AIService.dict_get country_gl country (lit "eg")) max_results]
   else [])
  ++ [DuckGet query].

End Tiers.

(** ** Inputs of the examples *)

Module Examples.
Import Py Net SearchService.

(** A lead with the given contact strings. *)
Definition contact (p e : string) : lead :=
  {| name := lit "lead"; phone := lit p; email := lit e; lead_source := [];
     notes := []; status := lit "new"; country := lit "egypt";
     lead_type := [] |}.

(** The advert of the specification's extraction example. *)
Definition advert : result :=
  {| title := Some (lit "للتواصل اتصل 01012345678 — شقق للبيع");
     link := Some (lit "https://example.com/ad");
     snippet := Some (lit "شقق للبيع");
     source := Some (lit "serper") |}.

Definition advert_lead : lead :=
  {| name := lit "للتواصل اتصل 01012345678 — شقق للبيع";
     phone := lit "01012345678";
     email := [];
     lead_source := lit "https://example.com/ad";
     notes := lit "شقق للبيع";
     status := lit "new";
     country := lit "egypt";
     lead_type := lit "with_phone" |}.

(** An entry of DuckDuckGo's [RelatedTopics]. *)
Definition topic (text url : string) : item :=
  IObj {[ lit "Text" := lit text; lit "FirstURL" := lit url ]}.

(** A network that answers the first request with the given topics and
    fails from then on. *)
Definition first_reply (topics : list item) : oracle :=
  fun n _ =>
    match n with
    | O => Response 200 (Dict {[ lit "RelatedTopics" := VList topics ]})
    | S _ => Failed
    end.

(** A network on which every request fails. *)
Definition offline : oracle := fun _ _ => Failed.

(** Five adverts with five phones. *)
Definition five_adverts : list item := [
  topic "محتاج سباك 01012345671" "https://example.com/1";
  topic "محتاج سباك 01012345672" "https://example.com/2";
  topic "محتاج سباك 01012345673" "https://example.com/3";
  topic "محتاج سباك 01012345674" "https://example.com/4";
  topic "محتاج سباك 01012345675" "https://example.com/5"
].

(** One phone, written without and with the country prefix. *)
Definition same_phone_twice : list item := [
  topic "سباك 01012345678" "https://example.com/1";
  topic "سباك +201012345678" "https://example.com/2"
].

(** A phone, an email and a mere request. *)
Definition mixed_adverts : list item := [
  topic "محتاج سباك 01012345671" "https://example.com/1";
  topic "محتاج سباك plumber@example.com" "https://example.com/2";
  topic "محتاج سباك ضروري" "https://example.com/3"
].

(** The lead made from a topic with a phone. *)
Definition phone_lead (text url p : string) : lead :=
  {| name := lit text; phone := lit p; email := []; lead_source := lit url;
     notes := lit text; status := lit "new"; country := lit "egypt";
     lead_type := lit "with_phone" |}.

(** The lead made from a topic with an email only. *)
Definition email_lead (text url e : string) : lead :=
  {| name := lit text; phone := []; email := lit e; lead_source := lit url;
     notes := lit text; status := lit "new"; country := lit "egypt";
     lead_type := lit "with_email" |}.

(** A live connection whose lead table holds the given phones and no
    email. *)
Definition stored_phones (phones : list str)
    : SmartHunt.DuplicateChecker.postgres :=
  {| SmartHunt.DuplicateChecker.phone_rows := Some phones;
     SmartHunt.DuplicateChecker.email_rows := fun _ => Some [] |}.

(** The hunt of the examples: a plumber in Cairo, without a Serper key. *)
Definition plumber_hunt (http : oracle) (max_results : Z) : list lead * list request :=
  hunt_leads [] http ascii_lower (lit "سباك") (lit "القاهرة") max_results
             (lit "social_media") (Some (lit "egypt")) [].

End Examples.

(** ** Inputs of the further examples *)

Module MoreExamples.
Import Py Net SearchService.

(** The search result DuckDuckGo's topic with this text and URL becomes. *)
Definition advert_result (text url : string) : result :=
  {| title := Some (lit text); link := Some (lit url);
     snippet := Some (lit text); source := Some (lit "duckduckgo") |}.

(** A guided session that waits for its confirmation. *)
Definition waiting_session : gmap str GuidedSession.session :=
  {[ lit "u" :=
       {| GuidedSession.step := 5;
          GuidedSession.data :=
            {[ lit "location" := GuidedSession.Text (lit "دبي") ]};
          GuidedSession.started_at := lit "t";
          GuidedSession.active := true |} ]}.

(** A store whose only user has the given balance. *)
Definition one_user (balance : Z) : LocalStore.store :=
  {| LocalStore.users :=
       {[ lit "u" :=
            {| LocalStore.username := lit "u";
               LocalStore.password := None;
               LocalStore.wallet_balance := balance;
               LocalStore.is_admin := false;
               LocalStore.created_at := lit "t" |} ]};
     LocalStore.leads := [];
     LocalStore.reads := 0 |}.

(** A smart session that is flagged ready. *)
Definition ready_smart_session : gmap str (SmartSession.session unit str) :=
  {[ lit "u" :=
       {| SmartSession.messages := [];
          SmartSession.context := {[ lit "location" := lit "دبي" ]};
          SmartSession.started_at := lit "t";
          SmartSession.active := true;
          SmartSession.ready := true |} ]}.

Definition empty_store : LocalStore.store :=
  {| LocalStore.users := ∅; LocalStore.leads := []; LocalStore.reads := 0 |}.

(** A clock and a generator of identifiers. *)
Definition clock : nat -> str := fun _ => lit "t".
Definition ids : nat -> str := fun n => PyInt.str_of_int (Z.of_nat n).

(** The request for five plumbers in Cairo. *)
Definition plumber_request : ChatRoutes.HuntRequest :=
  {| ChatRoutes.query := lit "سباك"; ChatRoutes.city := lit "القاهرة";
     ChatRoutes.max_results := 5 |}.

End MoreExamples.

(* ===================================================================== *)
(** * Part II: properties                                                 *)
(* ===================================================================== *)

(** ** Strings *)

Section StringFacts.
Import Py.

Lemma startswith_spec (s p : str) :
  startswith s p = true <-> exists rest, s = p ++ rest.
Proof.
  revert s; induction p as [|a p IH]; intros s; simpl.
  - split; [intros _; by exists s | reflexivity].
  - destruct s as [|b s].
    + split; [discriminate | intros [rest H]; discriminate].
    + rewrite andb_true_iff, N.eqb_eq, IH. split.
      * intros [-> [rest ->]]. by exists rest.
      * intros [rest H]. injection H as -> ->. eauto.
Qed.

Lemma startswith_drop (s p : str) :
  startswith s p = true -> s = p ++ drop (length p) s.
Proof.
  intros [rest ->]%startswith_spec.
  by rewrite drop_app_length.
Qed.

Lemma contains_spec (p s : str) :
  contains p s = true <-> exists before after, s = before ++ p ++ after.
Proof.
  induction s as [|c s IH]; simpl.
  - rewrite orb_false_r, startswith_spec. split.
    + intros [rest H]. by exists [], rest.
    + intros (before & after & H). symmetry in H.
      apply app_eq_nil in H as [-> [-> ->]%app_eq_nil]. by exists [].
  - rewrite orb_true_iff, startswith_spec, IH. split.
    + intros [[rest H] | (before & after & ->)].
      * by exists [], rest.
      * by exists (c :: before), after.
    + intros ([|b before] & after & H); simpl in H.
      * left. eauto.
      * right. injection H as -> ->. eauto.
Qed.

Lemma truthy_spec (s : str) : truthy s = true <-> s <> [].
Proof. by destruct s. Qed.

Lemma lstrip_fixed (s : str) :
  (forall c, head s = Some c -> isspace c = false) -> lstrip s = s.
Proof.
  destruct s as [|c s]; simpl; [done|].
  intros H. by rewrite (H c).
Qed.

Lemma strip_fixed (s : str) :
  (forall c, head s = Some c -> isspace c = false) ->
  (forall c, last s = Some c -> isspace c = false) ->
  strip s = s.
Proof.
  intros Hh Hl. unfold strip, rstrip.
  rewrite (lstrip_fixed s Hh), lstrip_fixed, reverse_involutive; [done|].
  intros c. rewrite head_reverse. apply Hl.
Qed.

Lemma slice_to_length {A} (n : Z) (xs : list A) :
  0 <= n -> Z.of_nat (length (slice_to n xs)) <= n.
Proof.
  intros Hn. unfold slice_to.
  destruct (Z.leb_spec 0 n); [|lia].
  rewrite length_take. lia.
Qed.

End StringFacts.

(** ** Result count: the three clamps *)

Section Clamps.
Import Py Re Requests SmartHunt GuidedHunt.

Lemma validate_max_clamp (v : Z) :
  validate_max v = if v <? 1 then 1 else if 50 <? v then 50 else v.
Proof.
  unfold validate_max.
  destruct (Z.ltb_spec v 1), (Z.ltb_spec 50 v); lia.
Qed.

Lemma build_smart_query_clamp (ctx : context) :
  (build_smart_query ctx).2 =
    let n := default 20 (count ctx) in
    if n <? 5 then 5 else if 50 <? n then 50 else n.
Proof.
  unfold build_smart_query. simpl.
  set (n := default 20 (count ctx)).
  destruct (Z.ltb_spec n 5), (Z.ltb_spec 50 n); lia.
Qed.

Lemma count_value_clamp (limit : option nat) (response : str) :
  count_value limit response =
    match int_of_digits limit (sub (Chr D) [] (strip response)) with
    | Some n => if n <? 5 then 5 else if 50 <? n then 50 else n
    | None => 20
    end.
Proof.
  unfold count_value.
  destruct (int_of_digits _ _) as [n|]; [|done].
  destruct (Z.ltb_spec n 5), (Z.ltb_spec 50 n); lia.
Qed.

(** C6, as the claim states it for the schema validator, fails: a request
    for 3 results passes [HuntRequest.validate_max] unchanged, below 5. *)
Lemma validate_max_keeps_three :
  validate_max 3 = 3 /\ ~ (5 <= validate_max 3 <= 50).
Proof. vm_compute. split; [done | intros [H _]; by apply H]. Qed.

(** C6 (amended): [build_smart_query] and the count step of the guided
    hunt bring the count into 5..50 (below 5 gives 5, above 50 gives 50, the
    guided step reading the count from the digits of the answer and taking
    20 when there is none to convert); [HuntRequest.validate_max] brings it
    into 1..50. *)
Theorem count_clamps (v : Z) (ctx : context) (limit : option nat)
    (response : str) :
  validate_max v = (if v <? 1 then 1 else if 50 <? v then 50 else v)
  /\ 1 <= validate_max v <= 50
  /\ (build_smart_query ctx).2 =
       (let n := default 20 (count ctx) in
        if n <? 5 then 5 else if 50 <? n then 50 else n)
  /\ 5 <= (build_smart_query ctx).2 <= 50
  /\ count_value limit response =
       match int_of_digits limit (sub (Chr D) [] (strip response)) with
       | Some n => if n <? 5 then 5 else if 50 <? n then 50 else n
       | None => 20
       end
  /\ 5 <= count_value limit response <= 50.
Proof.
  rewrite validate_max_clamp, build_smart_query_clamp, count_value_clamp.
  cbv zeta.
  repeat split; try done;
    repeat match goal with
           | |- context [int_of_digits ?a ?b] => destruct (int_of_digits a b)
           | |- context [?a <? ?b] => destruct (Z.ltb_spec a b)
           end; lia.
Qed.

Example count_value_examples :
  count_value (Some 4300%nat) (lit " 3 ") = 5
  /\ count_value (Some 4300%nat) (lit "12 عميل") = 12
  /\ count_value (Some 4300%nat) (lit "١٢") = 12
  /\ count_value (Some 4300%nat) (lit "100") = 50
  /\ count_value (Some 4300%nat) (lit "كتير") = 20.
Proof. by vm_compute. Qed.

End Clamps.

(** ** Service extraction *)

Section ExtractService.
Import Py AIService.

Lemma after_first_prefix_hit (ps before after : list str) (p query : str) :
  ps = before ++ p :: after ->
  startswith query p = true ->
  Forall (fun p' => startswith query p' = false) before ->
  after_first_prefix ps query = drop (length p) query.
Proof.
  intros -> Hp Hbefore.
  induction Hbefore as [|p' before Hp' _ IH]; simpl.
  - by rewrite Hp.
  - by rewrite Hp'.
Qed.

Lemma after_first_prefix_miss (ps : list str) (query : str) :
  Forall (fun p => startswith query p = false) ps ->
  after_first_prefix ps query = query.
Proof.
  induction 1 as [|p ps Hp _ IH]; simpl; [done|].
  by rewrite Hp.
Qed.

(** C8, as the claim states it, fails: a query that starts with no prefix
    of the list is not returned unchanged when it has white space at an
    end. *)
Lemma extract_service_strips_unprefixed :
  Forall (fun p => startswith (lit " سباك ") p = false) prefixes
  /\ _extract_service (lit " سباك ") <> lit " سباك "
  /\ _extract_service (lit " سباك ") = lit "سباك".
Proof.
  split; [|split].
  - repeat constructor.
  - by vm_compute.
  - by vm_compute.
Qed.

(** C8 (amended): [_extract_service] removes one leading prefix, the first
    of the ordered list that the query starts with, or nothing when the
    query starts with none, and returns what is left with the white space
    at both ends stripped. *)
Theorem extract_service_first_prefix (query : str) :
  (forall before p after,
      prefixes = before ++ p :: after ->
      startswith query p = true ->
      Forall (fun p' => startswith query p' = false) before ->
      query = p ++ drop (length p) query
      /\ _extract_service query = strip (drop (length p) query))
  /\ (Forall (fun p => startswith query p = false) prefixes ->
      _extract_service query = strip query).
Proof.
  split.
  - intros before p after Hps Hp Hbefore. split.
    + by apply startswith_drop.
    + unfold _extract_service.
      by rewrite (after_first_prefix_hit _ _ _ _ _ Hps Hp Hbefore).
  - intros Hnone. unfold _extract_service.
    by rewrite after_first_prefix_miss.
Qed.

Lemma extract_service_first_prefix_witness :
  (lit "انا دكتور أسنان "
     = lit "انا " ++ drop (length (lit "انا ")) (lit "انا دكتور أسنان ")
   /\ _extract_service (lit "انا دكتور أسنان ")
      = strip (drop (length (lit "انا ")) (lit "انا دكتور أسنان ")))
  /\ _extract_service (lit "دكتور أسنان") = strip (lit "دكتور أسنان").
Proof.
  split.
  - refine (proj1 (extract_service_first_prefix (lit "انا دكتور أسنان "))
                  [lit "أنا "] (lit "انا ")
                  [lit "أعمل كـ "; lit "اعمل ك"; lit "عندي "; lit "لدي "]
                  _ _ _).
    + reflexivity.
    + vm_compute. reflexivity.
    + constructor; [vm_compute; reflexivity | constructor].
  - refine (proj2 (extract_service_first_prefix (lit "دكتور أسنان")) _).
    repeat (constructor; [vm_compute; reflexivity|]). constructor.
Defined.

(** Without white space at its ends, an unprefixed query is unchanged. *)
Corollary extract_service_unprefixed_unchanged (query : str) :
  Forall (fun p => startswith query p = false) prefixes ->
  (forall c, head query = Some c -> isspace c = false) ->
  (forall c, last query = Some c -> isspace c = false) ->
  _extract_service query = query.
Proof.
  intros Hnone Hh Hl. unfold _extract_service.
  rewrite after_first_prefix_miss by done. by apply strip_fixed.
Qed.

End ExtractService.

(** ** Country resolution *)

Section DetectCountry.
Import Py AIService.

Lemma find_first {A} (f : A -> bool) (l before after : list A) (x : A) :
  l = before ++ x :: after ->
  f x = true ->
  Forall (fun y => f y = false) before ->
  find f l = Some x.
Proof.
  intros -> Hx Hbefore.
  induction Hbefore as [|y before Hy _ IH]; simpl.
  - by rewrite Hx.
  - by rewrite Hy.
Qed.

Lemma find_nothing {A} (f : A -> bool) (l : list A) :
  Forall (fun y => f y = false) l -> find f l = None.
Proof.
  induction 1 as [|y l Hy _ IH]; simpl; [done|].
  by rewrite Hy.
Qed.

Lemma any_in_spec (words : list str) (text : str) :
  any_in words text = true <->
  exists w before after, w ∈ words /\ text = before ++ w ++ after.
Proof.
  unfold any_in. rewrite existsb_exists. split.
  - intros (w & Hw%list_elem_of_In & (b & a & ->)%contains_spec). eauto 6.
  - intros (w & b & a & Hw%list_elem_of_In & ->).
    exists w. split; [done|]. apply contains_spec. eauto.
Qed.

(** A country matches when one of its cities is part of the given text or
    the given text is part of one of its cities. *)
Lemma city_matches_spec (city : str) (config : country_config) :
  city_matches city config = true <->
  exists c, c ∈ cities config
            /\ ((exists before after, city = before ++ c ++ after)
                \/ (exists before after, c = before ++ city ++ after)).
Proof.
  unfold city_matches. rewrite existsb_exists. split.
  - intros (c & Hc%list_elem_of_In & H). exists c. split; [done|].
    apply orb_true_iff in H as [H|H]; apply contains_spec in H; eauto.
  - intros (c & Hc%list_elem_of_In & H). exists c. split; [done|].
    apply orb_true_iff. destruct H as [H|H]; apply contains_spec in H; eauto.
Qed.

(** C7: [detect_country] is a function of the city (and of the case tables
    of the interpreter), so it returns, and returns the same code for the
    same city.  A country touches the city when one of its cities is part of
    the text of the city or that text is part of it.  The first country of
    the table, in table order, that touches the city wins; when no country
    does, the keywords of saudi, then uae, then kuwait are looked up in the
    lowered, stripped text; without any, the answer is egypt. *)
Theorem detect_country_resolution (lower : str -> str) (city : str) :
  let touches (config : country_config) :=
    exists c, c ∈ cities config
              /\ ((exists before after, city = before ++ c ++ after)
                  \/ (exists before after, c = before ++ city ++ after)) in
  let names (words : list str) :=
    exists w before after,
      w ∈ words /\ strip (lower city) = before ++ w ++ after in
  let saudi := [lit "الرياض"; lit "جدة"; lit "مكة"; lit "السعودية"] in
  let uae := [lit "دبي"; lit "أبوظبي"; lit "الشارقة"; lit "الإمارات"] in
  let kuwait := [lit "الكويت"; lit "حولي"] in
  (forall before code config after,
      COUNTRY_CONFIGS = before ++ (code, config) :: after ->
      touches config ->
      Forall (fun kv => ~ touches kv.2) before ->
      detect_country lower city = code)
  /\ (Forall (fun kv => ~ touches kv.2) COUNTRY_CONFIGS ->
      (names saudi -> detect_country lower city = lit "saudi")
      /\ (~ names saudi -> names uae -> detect_country lower city = lit "uae")
      /\ (~ names saudi -> ~ names uae -> names kuwait ->
          detect_country lower city = lit "kuwait")
      /\ (~ names saudi -> ~ names uae -> ~ names kuwait ->
          detect_country lower city = lit "egypt"))
  /\ detect_country lower city
       ∈ [lit "egypt"; lit "saudi"; lit "uae"; lit "kuwait"].
Proof.
  intros touches names saudi uae kuwait.
  assert (forall l : list (str * country_config),
             Forall (fun kv => ~ touches kv.2) l ->
             Forall (fun kv => city_matches city kv.2 = false) l) as Hnone.
  { intros l Hl. eapply Forall_impl; [exact Hl|]. intros kv Hkv.
    cbv beta in *.
    destruct (city_matches city kv.2) eqn:Hhit; [|done].
    destruct Hkv. by apply city_matches_spec. }
  split; [|split].
  - intros before code config after Htable Hhit%city_matches_spec
      Hbefore%Hnone.
    unfold detect_country.
    by rewrite (find_first _ _ _ _ _ Htable Hhit Hbefore).
  - intros Hmiss%Hnone. unfold detect_country.
    rewrite (find_nothing _ _ Hmiss).
    fold saudi uae kuwait.
    assert (forall words, any_in words (strip (lower city)) = true
                          <-> names words) as Hnames
      by (intros words; apply any_in_spec).
    destruct (any_in saudi _) eqn:Hsaudi;
      [apply Hnames in Hsaudi;
       split_and!; intros; first [reflexivity | contradiction]|].
    assert (~ names saudi) by (rewrite <- Hnames; congruence).
    destruct (any_in uae _) eqn:Huae;
      [apply Hnames in Huae;
       split_and!; intros; first [reflexivity | contradiction]|].
    assert (~ names uae) by (rewrite <- Hnames; congruence).
    destruct (any_in kuwait _) eqn:Hkuwait;
      [apply Hnames in Hkuwait;
       split_and!; intros; first [reflexivity | contradiction]|].
    assert (~ names kuwait) by (rewrite <- Hnames; congruence).
    split_and!; intros; first [reflexivity | contradiction].
  - unfold detect_country.
    destruct (find _ _) as [kv|] eqn:Hfind.
    + apply find_some in Hfind as [Hin _].
      apply list_elem_of_In in Hin.
      unfold COUNTRY_CONFIGS in Hin.
      repeat (apply elem_of_cons in Hin as [->|Hin];
              [simpl; set_solver|]).
      by apply elem_of_nil in Hin.
    + repeat (destruct (any_in _ _); [rewrite !elem_of_cons; auto 10|]).
      rewrite !elem_of_cons; auto 10.
Qed.

(** No city of the country is part of the text, nor the text of one. *)
Lemma city_matches_none (city : str) (config : country_config) :
  city_matches city config = false ->
  ~ exists c, c ∈ cities config
              /\ ((exists before after, city = before ++ c ++ after)
                  \/ (exists before after, c = before ++ city ++ after)).
Proof. intros Hmiss Hhit%city_matches_spec. congruence. Qed.

Lemma any_in_none (words : list str) (text : str) :
  any_in words text = false ->
  ~ exists w before after, w ∈ words /\ text = before ++ w ++ after.
Proof. intros Hmiss Hhit%any_in_spec. congruence. Qed.

(** A district of Dammam and a fragment of its name are saudi by the
    table, in the one and in the other direction of containment, where the
    keywords would answer egypt; a text that names the Emirates is uae by
    the keywords; one that spells them otherwise is egypt. *)
Lemma detect_country_resolution_witness :
  detect_country ascii_lower (lit "حي الدمام") = lit "saudi"
  /\ detect_country ascii_lower (lit "الدما") = lit "saudi"
  /\ detect_country ascii_lower (lit "في الإمارات") = lit "uae"
  /\ detect_country ascii_lower (lit "الامارات العربية") = lit "egypt".
Proof.
  split_and!.
  - refine (proj1 (detect_country_resolution ascii_lower (lit "حي الدمام"))
                  [_] (lit "saudi") _ [_; _] _ _ _).
    + reflexivity.
    + apply city_matches_spec. reflexivity.
    + repeat constructor. apply city_matches_none. reflexivity.
  - refine (proj1 (detect_country_resolution ascii_lower (lit "الدما"))
                  [_] (lit "saudi") _ [_; _] _ _ _).
    + reflexivity.
    + apply city_matches_spec. reflexivity.
    + repeat constructor. apply city_matches_none. reflexivity.
  - refine (proj1 (proj2 (proj1 (proj2 (detect_country_resolution
                                           ascii_lower (lit "في الإمارات")))
                                _)) _ _).
    + repeat constructor; apply city_matches_none; reflexivity.
    + apply any_in_none. reflexivity.
    + apply any_in_spec. reflexivity.
  - refine (proj2 (proj2 (proj2 (proj1 (proj2 (detect_country_resolution
                                           ascii_lower
                                           (lit "الامارات العربية")))
                                       _))) _ _ _).
    + repeat constructor; apply city_matches_none; reflexivity.
    + apply any_in_none. reflexivity.
    + apply any_in_none. reflexivity.
    + apply any_in_none. reflexivity.
Defined.

End DetectCountry.

(** ** Duplicate filter *)

Section FilterDuplicates.
Import Py Re SearchService SmartHunt SmartHunt.DuplicateChecker.

Variable lower : str -> str.
Variable existing_phones existing_emails : gset str.

Local Abbreviation step := (filter_step lower existing_phones existing_emails).
Local Abbreviation filtered :=
  (filter_loop lower existing_phones existing_emails).
Local Abbreviation start :=
  {| unique_leads := []; new_phones := ∅; new_emails := ∅ |}.

(** The email as the filter compares it. *)
Local Abbreviation email_key l := (strip (lower (email l))).

Lemma set_phone_same (l : lead) : set_phone l (phone l) = l.
Proof. by destruct l. Qed.

Lemma normalize_phone_empty : _normalize_phone [] = [].
Proof. reflexivity. Qed.

(** The step, with the normalized phone computed once for all leads. *)
Lemma filter_step_eq (st : filtering) (l : lead) :
  let p := _normalize_phone (phone l) in
  let e := email_key l in
  step st l =
    if truthy p then
      if bool_decide (p ∈ existing_phones) || bool_decide (p ∈ new_phones st)
      then st
      else {| unique_leads := unique_leads st ++ [set_phone l p];
              new_phones := new_phones st ∪ {[p]};
              new_emails := new_emails st |}
    else if truthy e then
      if bool_decide (e ∈ existing_emails) || bool_decide (e ∈ new_emails st)
      then st
      else {| unique_leads := unique_leads st ++ [set_phone l p];
              new_phones := new_phones st;
              new_emails := new_emails st ∪ {[e]} |}
    else st.
Proof.
  unfold filter_step. destruct (truthy (phone l)) eqn:Hphone; simpl; [done|].
  destruct (phone l) eqn:Hp; [|done].
  rewrite normalize_phone_empty. simpl.
  by rewrite <- Hp, set_phone_same.
Qed.

(** The two sets of the loop hold the phones of the leads kept so far and
    the emails of the phoneless leads kept so far. *)
Lemma filter_sets (candidates : list lead) :
  let st := foldl step start candidates in
  (forall p, p ∈ new_phones st <->
             p <> [] /\ p ∈ phone <$> unique_leads st)
  /\ (forall e, e ∈ new_emails st <->
                e ∈ (fun l => email_key l)
                      <$> filter (fun l => phone l = []) (unique_leads st)).
Proof.
  induction candidates as [|l candidates IH] using rev_ind; simpl.
  - split; intros x; set_solver.
  - rewrite foldl_snoc. destruct IH as [IHp IHe].
    set (st := foldl step start candidates) in *.
    rewrite filter_step_eq. simpl.
    destruct (truthy (_normalize_phone (phone l))) eqn:Hp.
    + apply truthy_spec in Hp.
      destruct (_ || _); [done|]. simpl. split.
      * intros p. rewrite elem_of_union, elem_of_singleton, IHp.
        rewrite fmap_app, elem_of_app. simpl. rewrite list_elem_of_singleton.
        naive_solver.
      * intros e. rewrite IHe, filter_app, fmap_app, elem_of_app.
        rewrite filter_cons_False, filter_nil by done. set_solver.
    + assert (_normalize_phone (phone l) = []) as Hnil
        by (by destruct (_normalize_phone (phone l))).
      destruct (truthy (email_key l)); [|done].
      destruct (_ || _); [done|]. simpl. split.
      * intros p. rewrite IHp, fmap_app, elem_of_app. simpl.
        rewrite list_elem_of_singleton, Hnil. naive_solver.
      * intros e. rewrite elem_of_union, elem_of_singleton, IHe.
        rewrite filter_app, fmap_app, elem_of_app.
        rewrite filter_cons_True, filter_nil by (simpl; by rewrite Hnil).
        simpl. rewrite list_elem_of_singleton. naive_solver.
Qed.

(** What is kept of the first candidates stays at the head of the result,
    whatever follows them. *)
Lemma filter_duplicates_prefix (earlier later : list lead) :
  exists rest, filtered (earlier ++ later) = filtered earlier ++ rest.
Proof.
  unfold filter_loop. rewrite foldl_app.
  generalize (foldl step start earlier). intros st.
  induction later as [|l later IH] using rev_ind.
  - exists []. by rewrite app_nil_r.
  - destruct IH as [rest IH]. rewrite foldl_snoc, filter_step_eq. simpl.
    repeat case_match; simpl; rewrite ?IH, <- ?(assoc_L (++)); eauto.
Qed.




End FilterDuplicates.

Section FilterDuplicatesExamples.
Import Py SearchService SmartHunt.DuplicateChecker Examples.



End FilterDuplicatesExamples.

(** ** Regular expressions *)

Section RegexFacts.
Import Py Re.

(** What the matcher accepts is a match: the text splits into a matched
    part and the rest handed to the continuation. *)
Lemma rep_sound {A} (p : cls) (lo : nat) (hi : option nat) (s : str)
    (k : str -> option A) (x : A) :
  rep p lo hi s k = Some x ->
  exists a t, s = a ++ t /\ matches (Rep p lo hi) a /\ k t = Some x.
Proof.
  revert lo hi. induction s as [|c s IH]; intros lo hi.
  - simpl. destruct lo; [|done]. intros Hk.
    exists [], []. repeat split; [|done].
    constructor; [done | simpl; lia | simpl; intros; lia].
  - simpl.
    assert (match lo with O => k (c :: s) | S _ => None end = Some x ->
            exists a t, c :: s = a ++ t /\ matches (Rep p lo hi) a
                        /\ k t = Some x) as Hstop.
    { destruct lo; [|done]. intros Hk.
      exists [], (c :: s). repeat split; [|done].
      constructor; [done | simpl; lia | simpl; intros; lia]. }
    destruct (p c) eqn:Hc; [|done].
    destruct (decide (hi = Some O)) as [Hhi|Hhi].
    { by rewrite (bool_decide_eq_true_2 _ Hhi). }
    rewrite (bool_decide_eq_false_2 _ Hhi). simpl.
    destruct (rep p (pred lo) (pred <$> hi) s k) as [y|] eqn:Hrec; [|done].
    intros [= ->].
    apply IH in Hrec as (a & t & -> & Ha & Hk).
    exists (c :: a), t. repeat split; [|done].
    inversion Ha as [| | | | |? ? ? ? Hall Hlo Hup]; subst.
    constructor.
    + by constructor.
    + simpl. lia.
    + intros h ->. simpl. destruct h as [|h]; [done|].
      specialize (Hup h eq_refl). lia.
Qed.

Lemma run_sound {A} (r : regex) (s : str) (k : str -> option A) (x : A) :
  run r s k = Some x ->
  exists a t, s = a ++ t /\ matches r a /\ k t = Some x.
Proof.
  revert s k. induction r as [|p|r1 IH1 r2 IH2|r IH|p lo hi]; intros s k; simpl.
  - intros Hk. exists [], s. repeat split; [constructor | done].
  - destruct s as [|c s]; [done|].
    destruct (p c) eqn:Hc; [|done]. intros Hk.
    exists [c], s. repeat split; [by constructor | done].
  - intros (a & t & -> & Ha & (b & t' & -> & Hb & Hk)%IH2)%IH1.
    exists (a ++ b), t'. rewrite <- (assoc_L (++)).
    repeat split; [by constructor | done].
  - destruct (run r s k) as [y|] eqn:Hrun.
    + intros [= ->]. apply IH in Hrun as (a & t & -> & Ha & Hk).
      exists a, t. repeat split; [by constructor | done].
    + intros Hk. exists [], s. repeat split; [constructor | done].
  - apply rep_sound.
Qed.

Lemma match_here_sound (r : regex) (s : str) (n : nat) :
  match_here r s = Some n -> matches r (take n s).
Proof.
  intros (a & t & -> & Ha & [= <-])%run_sound.
  rewrite length_app.
  replace (length a + length t - length t)%nat with (length a) by lia.
  by rewrite take_app_length.
Qed.

(** Every text [findall] returns is a match of the pattern. *)
Lemma findall_from_sound (r : regex) (s : str) (skip : nat) (x : str) :
  x ∈ findall_from r s skip -> matches r x.
Proof.
  revert skip. induction s as [|c s IH]; intros skip.
  - destruct skip; simpl; [|by intros ?%elem_of_nil].
    destruct (match_here r []) as [n|] eqn:Hm; [|by intros ?%elem_of_nil].
    intros ->%list_elem_of_singleton. by apply match_here_sound in Hm.
  - destruct skip; simpl; [|by apply IH].
    destruct (match_here r (c :: s)) as [n|] eqn:Hm; [|by apply IH].
    intros [->|Hin]%elem_of_cons; [|by apply IH in Hin].
    by apply match_here_sound in Hm.
Qed.

Lemma findall_sound (r : regex) (s x : str) :
  x ∈ findall r s -> matches r x.
Proof. apply findall_from_sound. Qed.

(** Deleting the matches of a one-character pattern deletes the characters
    of its class. *)
Lemma sub_chr_filter (p : cls) (s : str) :
  sub (Chr p) [] s = filter (fun c => p c = false) s.
Proof.
  unfold sub. induction s as [|c s IH]; [done|].
  simpl. unfold match_here. simpl.
  destruct (p c) eqn:Hc.
  - replace (S (length s) - length s)%nat with 1%nat by lia.
    simpl. rewrite IH. by rewrite filter_cons_False by (by rewrite Hc).
  - rewrite IH. by rewrite filter_cons_True.
Qed.

Lemma sub_chr_clean (p : cls) (s : str) :
  Forall (fun c => p c = false) (sub (Chr p) [] s).
Proof.
  rewrite sub_chr_filter. apply Forall_forall.
  by intros c [Hc _]%list_elem_of_filter.
Qed.

End RegexFacts.

(** ** Lead extraction *)

Section Extraction.
Import Py Re AIService SearchService.

Local Arguments any_in : simpl never.

Lemma add_phone_clean (st : list str * gset str) (m : str) :
  Forall cleaned st.1 -> Forall cleaned (add_phone st m).1.
Proof.
  destruct st as [phones seen]. unfold add_phone. intros Hall.
  destruct (_ && _) eqn:Hadd; [|done].
  apply andb_true_iff in Hadd as [Hlen%Nat.leb_le _].
  apply Forall_app. split; [done|]. constructor; [|done]. split.
  - done.
  - apply sub_chr_clean.
Qed.

Lemma scan_phones_clean (patterns : list regex) (text : str) (seen : gset str) :
  Forall cleaned (scan_phones patterns text seen).1.
Proof.
  unfold scan_phones.
  assert (Forall cleaned (([] : list str), seen).1) as Hstart by done.
  revert Hstart. generalize (([] : list str), seen).
  induction patterns as [|pattern patterns IH]; intros st Hst; simpl; [done|].
  apply IH. revert st Hst.
  induction (findall pattern text) as [|m ms IHm]; intros st Hst; simpl; [done|].
  by apply IHm, add_phone_clean.
Qed.

Lemma dash_or_space_false (c : char) :
  dash_or_space c = false -> isspace c = false /\ [c] <> lit "-".
Proof.
  unfold dash_or_space, cls_or, ch.
  intros [Hdash Hspace]%orb_false_iff. split; [done|].
  by apply bool_decide_eq_false in Hdash.
Qed.

(** Every match of the email pattern has a character. *)
Lemma email_match_nonempty (x : str) : matches email_pattern x -> x <> [].
Proof.
  unfold email_pattern, seq, plus. simpl.
  inversion 1 as [| |? ? a b Ha Hb| | |]; subst.
  inversion Ha as [| | | | |? ? ? ? _ Hlo _]; subst.
  destruct a; simpl in *; [lia | done].
Qed.

Lemma emails_nonempty (text : str) :
  Forall (fun e => e <> []) (findall email_pattern text).
Proof.
  apply Forall_forall. intros e He.
  by apply email_match_nonempty, (findall_sound _ text).
Qed.

(** What one iteration does to the state: nothing to the leads, or one
    lead more, made from this result. *)
Lemma extract_step_spec (patterns : list regex) (country : str)
    (include_no_phone : bool) (st : extraction) (r : result) :
  let st' := extract_step patterns country include_no_phone st r in
  (leads st' = leads st /\ seen_urls st' = seen_urls st)
  \/ exists l,
       leads st' = leads st ++ [l]
       /\ seen_urls st' = seen_urls st ∪ {[url_of r]}
       /\ lead_source l = url_of r
       /\ (phone l <> [] \/ email l <> []
           \/ (include_no_phone = true
               /\ any_in CUSTOMER_INTENT_KEYWORDS (text_of r) = true
               /\ url_of r ∉ seen_urls st))
       /\ (phone l <> [] -> cleaned (phone l))
       /\ lead_type l =
            match phone l, email l with
            | _ :: _, _ => lit "with_phone"
            | [], _ :: _ => lit "with_email"
            | [], [] => lit "potential"
            end.
Proof.
  unfold extract_step.
  pose proof (scan_phones_clean patterns (text_of r) (seen_phones st)) as Hphones.
  pose proof (emails_nonempty (text_of r)) as Hemails.
  destruct (scan_phones _ _ _) as [phones seen]. simpl in Hphones.
  destruct (_ || _ || _) eqn:Hinclude; simpl; [|by left].
  right. eexists. split; [done|]. split; [done|]. simpl.
  split; [done|].
  destruct phones as [|p phones]; simpl.
  - destruct (findall email_pattern (text_of r)) as [|e emails]; simpl.
    + split_and!; [|done|done].
      right. right. simpl in Hinclude.
      apply andb_true_iff in Hinclude as [[-> Hintent]%andb_true_iff Hurl].
      split_and!; [done|done|].
      by apply negb_true_iff, bool_decide_eq_false in Hurl.
    + apply Forall_cons in Hemails as [He _].
      split_and!; [by right; left | done | by destruct e].
  - apply Forall_cons in Hphones as [Hp _].
    assert (p <> []) by (intros ->; destruct Hp as [Hlen _]; simpl in Hlen; lia).
    split_and!; [by left | done | by destruct p].
Qed.

(** The URLs seen are the sources of the leads made so far. *)
Lemma extract_seen_urls (patterns : list regex) (country : str)
    (include_no_phone : bool) (results : list result) :
  let st := foldl (extract_step patterns country include_no_phone)
                  {| leads := []; seen_phones := ∅; seen_urls := ∅ |} results in
  forall url, url ∈ seen_urls st <-> url ∈ lead_source <$> leads st.
Proof.
  induction results as [|r results IH] using rev_ind; simpl.
  - intros url. set_solver.
  - rewrite foldl_snoc. intros url.
    destruct (extract_step_spec patterns country include_no_phone
                (foldl (extract_step patterns country include_no_phone)
                       {| leads := []; seen_phones := ∅; seen_urls := ∅ |}
                       results) r)
      as [[-> ->] | (l & -> & -> & Hsrc & _)]; [apply IH|].
    rewrite elem_of_union, elem_of_singleton, fmap_app, elem_of_app. simpl.
    rewrite list_elem_of_singleton, Hsrc. simpl in IH. rewrite IH. naive_solver.
Qed.

(** C3: every lead of [extract_leads_from_results] is made from one of the
    results and carries a phone, or an email, or comes from a result whose
    text has a customer-intent phrase, with the flag set and a URL that no
    earlier lead of the call has as its source; a phone it carries has at
    least 8 characters and neither white space nor dash; and its type is
    with_phone with a phone, else with_email with an email, else
    potential. *)
Theorem extracted_lead_shape (results : list result) (country : str)
    (include_no_phone : bool) (l : lead) :
  l ∈ extract_leads_from_results results country include_no_phone ->
  exists before r after,
    results = before ++ r :: after
    /\ lead_source l = url_of r
    /\ (phone l <> [] \/ email l <> []
        \/ (include_no_phone = true
            /\ any_in CUSTOMER_INTENT_KEYWORDS (text_of r) = true
            /\ url_of r ∉ lead_source
                 <$> extract_leads_from_results before country include_no_phone))
    /\ (phone l <> [] ->
        (8 <= length (phone l))%nat
        /\ Forall (fun c => isspace c = false /\ [c] <> lit "-") (phone l))
    /\ lead_type l =
         match phone l, email l with
         | _ :: _, _ => lit "with_phone"
         | [], _ :: _ => lit "with_email"
         | [], [] => lit "potential"
         end.
Proof.
  unfold extract_leads_from_results.
  induction results as [|r results IH] using rev_ind; simpl.
  - by intros ?%elem_of_nil.
  - rewrite foldl_snoc.
    pose proof (extract_seen_urls (patterns_of country) country
                  include_no_phone results) as Hseen. simpl in Hseen.
    destruct (extract_step_spec (patterns_of country) country include_no_phone
                (foldl (extract_step (patterns_of country) country
                                     include_no_phone)
                       {| leads := []; seen_phones := ∅; seen_urls := ∅ |}
                       results) r)
      as [[-> _] | (l' & -> & _ & Hsrc & Hwhy & Hphone & Htype)].
    + intros (before & r' & after & -> & H)%IH.
      exists before, r', (after ++ [r]).
      by rewrite <- (assoc_L (++)).
    + intros [Hin | ->%list_elem_of_singleton]%elem_of_app.
      * apply IH in Hin as (before & r' & after & -> & H).
        exists before, r', (after ++ [r]).
        by rewrite <- (assoc_L (++)).
      * exists results, r, []. repeat split; try done.
        -- rewrite <- Hseen. naive_solver.
        -- by apply Hphone.
        -- apply Hphone in H as [_ Hall].
           eapply Forall_impl; [done|]. apply dash_or_space_false.
Qed.

Lemma extracted_lead_shape_witness :
  extract_leads_from_results [Examples.advert] (lit "egypt") true
    = [Examples.advert_lead]
  /\ exists before r after,
       [Examples.advert] = before ++ r :: after
       /\ lead_source Examples.advert_lead = url_of r
       /\ (phone Examples.advert_lead <> [] \/ email Examples.advert_lead <> []
           \/ (true = true
               /\ any_in CUSTOMER_INTENT_KEYWORDS (text_of r) = true
               /\ url_of r ∉ lead_source
                    <$> extract_leads_from_results before (lit "egypt") true))
       /\ (phone Examples.advert_lead <> [] ->
           (8 <= length (phone Examples.advert_lead))%nat
           /\ Forall (fun c => isspace c = false /\ [c] <> lit "-")
                     (phone Examples.advert_lead))
       /\ lead_type Examples.advert_lead =
            match phone Examples.advert_lead, email Examples.advert_lead with
            | _ :: _, _ => lit "with_phone"
            | [], _ :: _ => lit "with_email"
            | [], [] => lit "potential"
            end.
Proof.
  split; [by vm_compute|].
  apply (extracted_lead_shape [Examples.advert] (lit "egypt") true
                              Examples.advert_lead).
  vm_compute. apply list_elem_of_here.
Defined.

End Extraction.

(** ** Search backends *)

Section SearchBackends.
Import Py Net SearchService.

Variable SERPER_API_KEY : str.
Variable http : oracle.

Lemma parsed_unsuccessful (r : reply) (key : string) (max_results : Z)
    (loop : list item -> option (list result)) :
  unsuccessful r -> parsed r key max_results loop = None.
Proof.
  destruct r as [|status_code body]; simpl; [done|].
  intros Hcode. by destruct (Z.eqb_spec status_code 200).
Qed.

(** C9: a backend call whose request raises or whose reply has a status
    other than 200 gives the empty list (and so does a reply whose payload
    cannot be read); the functions return in every case.  [search_serper]
    sends nothing without an API key.  [search] asks Serper first and
    returns its results when there are some, the results of DuckDuckGo
    otherwise. *)
Theorem search_backends_degrade (query : str) (max_results : Z)
    (log : list request) :
  let serper := SerperPost SERPER_API_KEY query (lit "eg") max_results in
  let duck := DuckGet query in
  (search_serper SERPER_API_KEY http query max_results log =
     if truthy SERPER_API_KEY
     then (default [] (parsed (http (length log) serper) "organic"
                              max_results serper_results),
           log ++ [serper])
     else ([], log))
  /\ (unsuccessful (http (length log) serper) ->
      (search_serper SERPER_API_KEY http query max_results log).1 = [])
  /\ (search_duckduckgo http query max_results log =
        (default [] (parsed (http (length log) duck) "RelatedTopics"
                            max_results duckduckgo_results),
         log ++ [duck]))
  /\ (unsuccessful (http (length log) duck) ->
      (search_duckduckgo http query max_results log).1 = [])
  /\ (forall r, parsed (Response 200 NotJson) "organic" max_results r = None
                /\ parsed (Response 200 NotDict) "organic" max_results r = None)
  /\ search SERPER_API_KEY http query max_results log =
       match search_serper SERPER_API_KEY http query max_results log with
       | ([], log') => search_duckduckgo http query max_results log'
       | (results, log') => (results, log')
       end.
Proof.
  intros serper duck. split_and!.
  - unfold search_serper. by destruct (truthy SERPER_API_KEY).
  - intros Hbad. unfold search_serper.
    destruct (truthy SERPER_API_KEY); [|done]. simpl.
    unfold bind, send, ret. simpl. fold serper.
    by rewrite parsed_unsuccessful.
  - done.
  - intros Hbad. unfold search_duckduckgo, bind, send, ret. simpl. fold duck.
    by rewrite parsed_unsuccessful.
  - done.
  - unfold search, bind.
    destruct (search_serper _ _ _ _ _) as [[|r results] log']; done.
Qed.

End SearchBackends.

(** ** The hunt: accumulation *)

Section Accumulation.
Import Py Re AIService SearchService.

Lemma extracted_typed (results : list result) (country : str)
    (include_no_phone : bool) :
  Forall typed (extract_leads_from_results results country include_no_phone).
Proof.
  unfold extract_leads_from_results.
  induction results as [|r results IH] using rev_ind; simpl; [done|].
  rewrite foldl_snoc.
  destruct (extract_step_spec (patterns_of country) country include_no_phone
              (foldl (extract_step (patterns_of country) country
                                   include_no_phone)
                     {| leads := []; seen_phones := ∅; seen_urls := ∅ |}
                     results) r)
    as [[-> _] | (l & -> & _ & _ & _ & _ & Htype)]; [done|].
  apply Forall_app. split; [done|]. by constructor.
Qed.

Lemma hunt_ok_start :
  hunt_ok {| all_leads := []; hunt_phones := ∅; seen_emails := ∅ |}.
Proof.
  split; simpl; try done.
  - by intros a ?%elem_of_nil.
  - by intros a ?%elem_of_nil.
Qed.

Lemma typed_not_potential (l : lead) :
  typed l -> phone l <> [] \/ email l <> [] -> lead_type l <> lit "potential".
Proof.
  unfold typed. intros -> Hcontact.
  destruct (phone l), (email l); try done.
  by destruct Hcontact.
Qed.

(** The body of the accumulation loop keeps the invariant. *)
Lemma accept_ok (st : hunt) (l : lead) :
  hunt_ok st -> typed l -> hunt_ok (accept st l).
Proof.
  intros [Hps Hes Hpa Hea Hc Ht] Htyped. unfold accept.
  destruct (truthy (phone l)) eqn:Hphone; simpl.
  - apply truthy_spec in Hphone.
    destruct (decide (phone l ∈ hunt_phones st)) as [Hin|Hout].
    { rewrite (bool_decide_eq_true_2 _ Hin). simpl.
      assert (truthy (email l) && negb (bool_decide (email l ∈ seen_emails st))
              && false = false) as -> by apply andb_false_r.
      by split. }
    rewrite (bool_decide_eq_false_2 _ Hout). simpl.
    split; simpl.
    + intros a [Ha | ->%list_elem_of_singleton]%elem_of_app Hna;
        apply elem_of_union; [left; by apply Hps | right; by apply elem_of_singleton].
    + intros a [Ha | ->%list_elem_of_singleton]%elem_of_app Hna;
        [by apply Hes | done].
    + intros i j a b [[Hi Ha] | [-> <-]]%lookup_snoc_Some
                     [[Hj Hb] | [-> <-]]%lookup_snoc_Some Hij Hna.
      * by eapply Hpa.
      * intros Heq. apply Hout. rewrite <- Heq.
        apply Hps; [by eapply list_elem_of_lookup_2 | done].
      * intros Heq. destruct (decide (phone b = [])) as [Hnil|Hnb].
        -- by rewrite Hnil in Heq.
        -- apply Hout. rewrite Heq.
           apply Hps; [by eapply list_elem_of_lookup_2 | done].
      * done.
    + intros i j a b [[Hi Ha] | [-> <-]]%lookup_snoc_Some
                     [[Hj Hb] | [-> <-]]%lookup_snoc_Some Hij Hna Hnb;
        try done.
      by eapply Hea.
    + apply Forall_app. split; [done|]. constructor; [by left | done].
    + apply Forall_app. split; [done|]. constructor; [|done].
      apply typed_not_potential; [done | by left].
  - assert (phone l = []) as Hnil by (by destruct (phone l)).
    rewrite andb_true_r.
    destruct (truthy (email l)) eqn:Hemail; simpl; [|by split].
    apply truthy_spec in Hemail.
    destruct (decide (email l ∈ seen_emails st)) as [Hin|Hout].
    { rewrite (bool_decide_eq_true_2 _ Hin). by split. }
    rewrite (bool_decide_eq_false_2 _ Hout). simpl.
    split; simpl.
    + intros a [Ha | ->%list_elem_of_singleton]%elem_of_app Hna;
        [by apply Hps | done].
    + intros a [Ha | ->%list_elem_of_singleton]%elem_of_app Hna;
        apply elem_of_union; [left; by apply Hes | right; by apply elem_of_singleton].
    + intros i j a b [[Hi Ha] | [-> <-]]%lookup_snoc_Some
                     [[Hj Hb] | [-> <-]]%lookup_snoc_Some Hij Hna;
        try done.
      * by eapply Hpa.
      * by rewrite Hnil.
    + intros i j a b [[Hi Ha] | [-> <-]]%lookup_snoc_Some
                     [[Hj Hb] | [-> <-]]%lookup_snoc_Some Hij Hna Hnb.
      * by eapply Hea.
      * intros Heq. apply Hout. rewrite <- Heq.
        apply Hes; [by eapply list_elem_of_lookup_2 | done].
      * intros Heq. apply Hout. rewrite Heq.
        apply Hes; [by eapply list_elem_of_lookup_2 | done].
      * done.
    + apply Forall_app. split; [done|]. constructor; [by right | done].
    + apply Forall_app. split; [done|]. constructor; [|done].
      apply typed_not_potential; [done | by right].
Qed.

Lemma accumulate_ok (st : hunt) (found : list lead) :
  hunt_ok st -> Forall typed found -> hunt_ok (accumulate st found).
Proof.
  unfold accumulate. revert st.
  induction found as [|l found IH]; intros st Hst Hfound; simpl; [done|].
  apply Forall_cons in Hfound as [Hl Hfound].
  by apply IH; [apply accept_ok|].
Qed.

End Accumulation.

(** ** The hunt: waves *)

Section Waves.
Import Py Re Net AIService SearchService.

Variable SERPER_API_KEY : str.
Variable http : oracle.
Variable lower : str -> str.

Local Abbreviation wave := (SearchService.wave SERPER_API_KEY http).
Local Abbreviation golden_wave :=
  (SearchService.golden_wave SERPER_API_KEY http lower).
Local Abbreviation fallback_waves :=
  (SearchService.fallback_waves SERPER_API_KEY http lower).
Local Abbreviation hunt_leads :=
  (SearchService.hunt_leads SERPER_API_KEY http lower).
Local Abbreviation search_with_country :=
  (SearchService.search_with_country SERPER_API_KEY http).

(** One call of [search_with_country] sends one or two requests, all with
    its query. *)
Lemma search_with_country_log (query country : str) (max_results : Z)
    (log : list request) :
  exists reqs,
    (search_with_country query country max_results log).2 = log ++ reqs
    /\ (1 <= length reqs <= 2)%nat
    /\ Forall (fun req => query_of req = query) reqs.
Proof.
  unfold SearchService.search_with_country, search_duckduckgo, bind, send, ret.
  destruct (truthy SERPER_API_KEY); simpl.
  - destruct (parsed _ _ _ _); simpl.
    + eexists [_]. split_and!; simpl; [done | lia | lia | by repeat constructor].
    + eexists [_; _]. rewrite <- (assoc_L (++)).
      split_and!; simpl; [done | lia | lia | by repeat constructor].
  - eexists [_]. split_and!; simpl; [done | lia | lia | by repeat constructor].
Qed.

(** A loop over queries sends nothing once the quota is met. *)
Lemma wave_gated (queries : list str) (country : str) (max_results : Z)
    (st : hunt) (log : list request) :
  quota_met st max_results = true ->
  wave queries country max_results st log = (st, log).
Proof.
  intros Hmet. destruct queries; simpl; [done|]. by rewrite Hmet.
Qed.

Lemma fallback_waves_gated (query city : str) (max_results : Z)
    (country phone_patterns : str) (st : hunt) (log : list request) :
  quota_met st max_results = true ->
  fallback_waves query city max_results country phone_patterns st log
  = (st, log).
Proof.
  intros Hmet. unfold SearchService.fallback_waves, bind.
  rewrite wave_gated by done. rewrite Hmet. simpl. unfold ret.
  by rewrite Hmet.
Qed.

Lemma wave_ok (queries : list str) (country : str) (max_results : Z)
    (st : hunt) (log : list request) :
  hunt_ok st -> hunt_ok (wave queries country max_results st log).1.
Proof.
  revert st log.
  induction queries as [|q queries IH]; intros st log Hst; simpl; [done|].
  destruct (quota_met st max_results); [done|].
  unfold bind.
  destruct (search_with_country q country max_results log) as [results log'].
  apply IH, accumulate_ok; [done | apply extracted_typed].
Qed.

Lemma golden_wave_ok (query city : str) (max_results : Z)
    (strategy country phone_patterns : str) (log : list request) :
  hunt_ok (golden_wave query city max_results strategy country
                       phone_patterns log).1.
Proof.
  unfold SearchService.golden_wave, bind.
  destruct (search_with_country _ _ _ _) as [results log']. simpl.
  apply accumulate_ok; [apply hunt_ok_start | apply extracted_typed].
Qed.

Lemma fallback_waves_ok (query city : str) (max_results : Z)
    (country phone_patterns : str) (st : hunt) (log : list request) :
  hunt_ok st ->
  hunt_ok (fallback_waves query city max_results country phone_patterns
                          st log).1.
Proof.
  intros Hst. unfold SearchService.fallback_waves, bind.
  pose proof (wave_ok (phone_heavy_queries (_extract_service query) city
                                           phone_patterns)
                country max_results st log Hst) as H1.
  destruct (wave _ _ _ st log) as [st1 log1]. cbn [fst] in H1.
  destruct (quota_met st1 max_results) eqn:Hq1; cbn [negb].
  - unfold ret. by rewrite Hq1.
  - pose proof (wave_ok (generate_fallback_queries lower query city
                                                   (Some country))
                  country max_results st1 log1 H1) as H2.
    destruct (wave _ _ _ st1 log1) as [st2 log2]. cbn [fst] in H2.
    destruct (negb (quota_met st2 max_results)); [by apply wave_ok | done].
Qed.

(** The state the hunt ends in keeps the invariant, and the hunt returns
    its accepted leads, sliced. *)
Lemma hunt_leads_final (query city : str) (max_results : Z) (strategy : str)
    (country : option str) (log : list request) :
  exists st,
    hunt_ok st
    /\ (hunt_leads query city max_results strategy country log).1
       = slice_to max_results (all_leads st).
Proof.
  unfold SearchService.hunt_leads, bind.
  pose proof (golden_wave_ok query city max_results strategy
                (country_or_detect lower country city)
                (dict_get phone_patterns_map
                          (country_or_detect lower country city)
                          (qlit "(`010` OR `011` OR `012` OR `015`)"))
                log) as H1.
  destruct (golden_wave _ _ _ _ _ _ log) as [st1 log1]. simpl in H1.
  pose proof (fallback_waves_ok query city max_results
                (country_or_detect lower country city)
                (dict_get phone_patterns_map
                          (country_or_detect lower country city)
                          (qlit "(`010` OR `011` OR `012` OR `015`)"))
                st1 log1 H1) as H2.
  destruct (fallback_waves _ _ _ _ _ st1 log1) as [st2 log2]. simpl in H2.
  by exists st2.
Qed.

Lemma slice_to_lookup {A} (n : Z) (xs : list A) (i : nat) (x : A) :
  slice_to n xs !! i = Some x -> xs !! i = Some x.
Proof.
  unfold slice_to. destruct (0 <=? n); by intros [? _]%lookup_take_Some.
Qed.

(** C1 (amended): for a count that is not negative, [hunt_leads] returns at
    most that many leads. *)
Theorem hunt_leads_quota (query city : str) (max_results : Z) (strategy : str)
    (country : option str) (log : list request) :
  0 <= max_results ->
  Z.of_nat (length (hunt_leads query city max_results strategy country log).1)
  <= max_results.
Proof.
  intros Hmax.
  destruct (hunt_leads_final query city max_results strategy country log)
    as (st & _ & ->).
  by apply slice_to_length.
Qed.

(** C2 (amended): two leads at different places of the list [hunt_leads]
    returns never carry the same phone text, as extracted (white space and
    dashes removed, prefixes kept); two leads without phone never carry the
    same email text, as extracted. *)
Theorem hunt_leads_distinct_contacts (query city : str) (max_results : Z)
    (strategy : str) (country : option str) (log : list request)
    (i j : nat) (a b : lead) :
  let out := (hunt_leads query city max_results strategy country log).1 in
  out !! i = Some a -> out !! j = Some b -> i <> j ->
  (phone a <> [] -> phone a <> phone b)
  /\ (phone a = [] -> phone b = [] -> email a <> email b).
Proof.
  simpl.
  destruct (hunt_leads_final query city max_results strategy country log)
    as (st & Hst & ->).
  intros Ha%slice_to_lookup Hb%slice_to_lookup Hij. split.
  - by eapply (phones_apart st Hst).
  - by eapply (emails_apart st Hst).
Qed.

(** C10: every lead [hunt_leads] returns carries a phone or an email, and
    none is tagged potential. *)
Theorem hunt_leads_contactable (query city : str) (max_results : Z)
    (strategy : str) (country : option str) (log : list request) (a : lead) :
  a ∈ (hunt_leads query city max_results strategy country log).1 ->
  (phone a <> [] \/ email a <> []) /\ lead_type a <> lit "potential".
Proof.
  destruct (hunt_leads_final query city max_results strategy country log)
    as (st & Hst & ->).
  intros [i Ha%slice_to_lookup]%list_elem_of_lookup.
  assert (a ∈ all_leads st) as Hin by (by eapply list_elem_of_lookup_2).
  split.
  - by eapply Forall_forall in Hin; [|apply (contacts st Hst)].
  - by eapply Forall_forall in Hin; [|apply (types st Hst)].
Qed.

(** C4: when the leads accepted from the search with the golden query meet
    the quota, [hunt_leads] returns them, sliced, and the log of requests is
    the one that search left: the one or two requests that carry the golden
    query.  No query of the three fallback tiers is sent, each of them
    standing behind a quota check ([wave_gated], [fallback_waves_gated]). *)
Theorem golden_quota_stops_fallback (query city : str) (max_results : Z)
    (strategy : str) (country : option str) (log : list request) :
  let c := country_or_detect lower country city in
  let patterns :=
    dict_get phone_patterns_map c (qlit "(`010` OR `011` OR `012` OR `015`)") in
  let golden := golden_wave query city max_results strategy c patterns log in
  quota_met golden.1 max_results = true ->
  hunt_leads query city max_results strategy country log
  = (slice_to max_results (all_leads golden.1), golden.2)
  /\ exists reqs,
       golden.2 = log ++ reqs
       /\ (1 <= length reqs <= 2)%nat
       /\ Forall (fun req =>
                    query_of req
                    = golden_query lower query city strategy c patterns) reqs.
Proof.
  intros c patterns golden Hmet. split.
  - unfold SearchService.hunt_leads, bind. fold c patterns golden.
    destruct golden as [st1 log1] eqn:Hgolden. simpl in Hmet.
    by rewrite fallback_waves_gated.
  - unfold golden, SearchService.golden_wave, bind.
    destruct (search_with_country_log
                (golden_query lower query city strategy c patterns) c
                (max_results * 3) log) as (reqs & Hlog & Hlen & Hall).
    destruct (search_with_country _ _ _ _) as [results log'].
    simpl in *. by exists reqs.
Qed.

End Waves.

(** ** Worked hunts *)

Section WorkedHunts.
Import Py Net SearchService SmartHunt.DuplicateChecker Examples.

(** The scenario of the specification: three leads are asked for and the
    golden query brings five. *)
Lemma plumber_hunt_three :
  plumber_hunt (first_reply five_adverts) 3
  = ([phone_lead "محتاج سباك 01012345671" "https://example.com/1" "01012345671";
      phone_lead "محتاج سباك 01012345672" "https://example.com/2" "01012345672";
      phone_lead "محتاج سباك 01012345673" "https://example.com/3" "01012345673"],
     [DuckGet (golden_query ascii_lower (lit "سباك") (lit "القاهرة")
                            (lit "social_media") (lit "egypt")
                            (qlit "(`010` OR `011` OR `012` OR `015`)"))]).
Proof. by vm_compute. Qed.

(** C1, as the claim states it, fails for a negative count: the slice then
    drops leads from the end of the list, here the last of two. *)
Lemma hunt_leads_negative_count :
  (plumber_hunt (first_reply five_adverts) (-1)).1
  = [phone_lead "محتاج سباك 01012345671" "https://example.com/1" "01012345671"]
  /\ ~ (Z.of_nat (length (plumber_hunt (first_reply five_adverts) (-1)).1)
        <= -1).
Proof. split; [by vm_compute | vm_compute; intros H; by apply H]. Qed.

Lemma hunt_leads_quota_witness :
  0 <= 3
  /\ Z.of_nat (length (plumber_hunt (first_reply five_adverts) 3).1) <= 3.
Proof.
  split; [lia|].
  unfold plumber_hunt.
  refine (hunt_leads_quota [] (first_reply five_adverts) ascii_lower
            (lit "سباك") (lit "القاهرة") 3 (lit "social_media")
            (Some (lit "egypt")) [] _).
  lia.
Defined.

(** C2, as the claim states it, fails: the two leads returned have
    different phone texts with the same normal form. *)
Lemma hunt_leads_same_normalized_phone :
  phone <$> (plumber_hunt (first_reply same_phone_twice) 5).1
  = [lit "01012345678"; lit "+201012345678"]
  /\ _normalize_phone (lit "01012345678")
     = _normalize_phone (lit "+201012345678").
Proof. split; by vm_compute. Qed.

Lemma hunt_leads_distinct_contacts_witness :
  (plumber_hunt (first_reply same_phone_twice) 5).1 !! 0%nat
  = Some (phone_lead "سباك 01012345678" "https://example.com/1" "01012345678")
  /\ (plumber_hunt (first_reply same_phone_twice) 5).1 !! 1%nat
     = Some (phone_lead "سباك +201012345678" "https://example.com/2"
                        "+201012345678")
  /\ lit "01012345678" <> lit "+201012345678".
Proof.
  assert ((plumber_hunt (first_reply same_phone_twice) 5).1 !! 0%nat
          = Some (phone_lead "سباك 01012345678" "https://example.com/1"
                             "01012345678")) as H0 by (by vm_compute).
  assert ((plumber_hunt (first_reply same_phone_twice) 5).1 !! 1%nat
          = Some (phone_lead "سباك +201012345678" "https://example.com/2"
                             "+201012345678")) as H1 by (by vm_compute).
  split; [exact H0|]. split; [exact H1|].
  unfold plumber_hunt in H0, H1.
  refine (proj1 (hunt_leads_distinct_contacts [] (first_reply same_phone_twice)
                   ascii_lower (lit "سباك") (lit "القاهرة") 5
                   (lit "social_media") (Some (lit "egypt")) []
                   0%nat 1%nat _ _ H0 H1 _) _).
  - discriminate.
  - discriminate.
Defined.

(** The mere request of the third topic is extracted as a potential lead
    and left out by the hunt. *)
Lemma mixed_adverts_extracted :
  lead_type <$> extract_leads_from_results
                  [ {| title := Some (lit "محتاج سباك 01012345671");
                       link := Some (lit "https://example.com/1");
                       snippet := Some (lit "محتاج سباك 01012345671");
                       source := Some (lit "duckduckgo") |};
                    {| title := Some (lit "محتاج سباك plumber@example.com");
                       link := Some (lit "https://example.com/2");
                       snippet := Some (lit "محتاج سباك plumber@example.com");
                       source := Some (lit "duckduckgo") |};
                    {| title := Some (lit "محتاج سباك ضروري");
                       link := Some (lit "https://example.com/3");
                       snippet := Some (lit "محتاج سباك ضروري");
                       source := Some (lit "duckduckgo") |} ]
                  (lit "egypt") true
  = [lit "with_phone"; lit "with_email"; lit "potential"].
Proof. by vm_compute. Qed.

Lemma hunt_leads_contactable_witness :
  (plumber_hunt (first_reply mixed_adverts) 5).1
  = [phone_lead "محتاج سباك 01012345671" "https://example.com/1" "01012345671";
     email_lead "محتاج سباك plumber@example.com" "https://example.com/2"
                "plumber@example.com"]
  /\ (phone (email_lead "محتاج سباك plumber@example.com"
                        "https://example.com/2" "plumber@example.com") <> []
      \/ email (email_lead "محتاج سباك plumber@example.com"
                           "https://example.com/2" "plumber@example.com") <> [])
  /\ lead_type (email_lead "محتاج سباك plumber@example.com"
                           "https://example.com/2" "plumber@example.com")
     <> lit "potential".
Proof.
  assert ((plumber_hunt (first_reply mixed_adverts) 5).1
          = [phone_lead "محتاج سباك 01012345671" "https://example.com/1"
                        "01012345671";
             email_lead "محتاج سباك plumber@example.com"
                        "https://example.com/2" "plumber@example.com"]) as Hout
    by (by vm_compute).
  split; [done|].
  apply (hunt_leads_contactable [] (first_reply mixed_adverts) ascii_lower
           (lit "سباك") (lit "القاهرة") 5 (lit "social_media")
           (Some (lit "egypt")) []).
  fold (plumber_hunt (first_reply mixed_adverts) 5). rewrite Hout.
  apply list_elem_of_further, list_elem_of_here.
Defined.

Lemma golden_quota_stops_fallback_witness :
  let c := AIService.country_or_detect ascii_lower (Some (lit "egypt"))
                                       (lit "القاهرة") in
  let patterns :=
    AIService.dict_get phone_patterns_map c
                       (qlit "(`010` OR `011` OR `012` OR `015`)") in
  let golden :=
    golden_wave [] (first_reply five_adverts) ascii_lower (lit "سباك")
                (lit "القاهرة") 3 (lit "social_media") c patterns [] in
  quota_met golden.1 3 = true
  /\ hunt_leads [] (first_reply five_adverts) ascii_lower (lit "سباك")
                (lit "القاهرة") 3 (lit "social_media") (Some (lit "egypt")) []
     = (slice_to 3 (all_leads golden.1), golden.2).
Proof.
  intros c patterns golden.
  assert (quota_met golden.1 3 = true) as Hmet by (by vm_compute).
  split; [exact Hmet|].
  exact (proj1 (golden_quota_stops_fallback [] (first_reply five_adverts)
                  ascii_lower (lit "سباك") (lit "القاهرة") 3
                  (lit "social_media") (Some (lit "egypt")) [] Hmet)).
Defined.

(** Serper answers with an error status and DuckDuckGo cannot be reached:
    both backends give the empty list and [search] returns it. *)
Lemma search_backends_degrade_witness :
  (search_serper (lit "key") (fun _ _ => Response 500 NotJson)
                 (lit "سباك") 20 []).1 = []
  /\ (search_duckduckgo offline (lit "سباك") 20 []).1 = [].
Proof.
  split.
  - refine (proj1 (proj2 (search_backends_degrade (lit "key")
                            (fun _ _ => Response 500 NotJson)
                            (lit "سباك") 20 [])) _).
    simpl. discriminate.
  - refine (proj1 (proj2 (proj2 (proj2 (search_backends_degrade []
                            offline (lit "سباك") 20 [])))) _).
    exact I.
Defined.

End WorkedHunts.

(** ** The hunt: requests sent *)

Section Budget.
Import Py Re Net AIService SearchService Tiers.

Variable SERPER_API_KEY : str.
Variable http : oracle.
Variable lower : str -> str.

Local Abbreviation wave := (SearchService.wave SERPER_API_KEY http).
Local Abbreviation golden_wave :=
  (SearchService.golden_wave SERPER_API_KEY http lower).
Local Abbreviation fallback_waves :=
  (SearchService.fallback_waves SERPER_API_KEY http lower).
Local Abbreviation hunt_leads :=
  (SearchService.hunt_leads SERPER_API_KEY http lower).
Local Abbreviation search_with_country :=
  (SearchService.search_with_country SERPER_API_KEY http).

(** The most requests one search sends. *)
Local Abbreviation tries := (if truthy SERPER_API_KEY then 2%nat else 1%nat).

Local Arguments phone_heavy_queries : simpl never.
Local Arguments generic_queries : simpl never.
Local Arguments generate_fallback_queries : simpl never.
Local Arguments failed_search : simpl never.

Lemma search_with_country_requests (query country : str) (max_results : Z)
    (log : list request) :
  exists reqs,
    (search_with_country query country max_results log).2 = log ++ reqs
    /\ (1 <= length reqs <= tries)%nat
    /\ Forall (fun req => query_of req = query) reqs.
Proof.
  unfold SearchService.search_with_country, search_duckduckgo, bind, send, ret.
  destruct (truthy SERPER_API_KEY); simpl.
  - destruct (parsed _ _ _ _); simpl.
    + eexists [_]. split_and!; simpl; [done | lia | lia | by repeat constructor].
    + eexists [_; _]. rewrite <- (assoc_L (++)).
      split_and!; simpl; [done | lia | lia | by repeat constructor].
  - eexists [_]. split_and!; simpl; [done | lia | lia | by repeat constructor].
Qed.

(** A loop over queries sends at most [tries] requests for each of them,
    and only requests that carry one of them. *)
Lemma wave_requests (queries : list str) (country : str) (max_results : Z)
    (st : hunt) (log : list request) :
  exists reqs,
    (wave queries country max_results st log).2 = log ++ reqs
    /\ (length reqs <= tries * length queries)%nat
    /\ Forall (fun req => query_of req ∈ queries) reqs.
Proof.
  revert st log.
  induction queries as [|q queries IH]; intros st log; simpl.
  - exists []. rewrite app_nil_r. split_and!; simpl; [done | lia | done].
  - destruct (quota_met st max_results).
    { exists []. rewrite app_nil_r. split_and!; simpl; [done | lia | done]. }
    unfold bind.
    destruct (search_with_country_requests q country max_results log)
      as (reqs1 & Hlog1 & Hlen1 & Hall1).
    destruct (search_with_country q country max_results log)
      as [results log1]. simpl in Hlog1. subst log1.
    destruct (IH (accumulate st (extract_leads_from_results results country
                                                            true))
                 (log ++ reqs1)) as (reqs2 & -> & Hlen2 & Hall2).
    exists (reqs1 ++ reqs2). rewrite <- (assoc_L (++)).
    split_and!; [done | |].
    + rewrite length_app. nia.
    + apply Forall_app. split.
      * eapply Forall_impl; [done|]. simpl. intros req ->. apply list_elem_of_here.
      * eapply Forall_impl; [done|]. simpl. intros req Hin.
        by apply list_elem_of_further.
Qed.

Lemma fallback_waves_requests (query city : str) (max_results : Z)
    (country phone_patterns : str) (st : hunt) (log : list request) :
  exists reqs,
    (fallback_waves query city max_results country phone_patterns st log).2
    = log ++ reqs
    /\ (length reqs <= tries * 16)%nat
    /\ Forall (fun req =>
                 query_of req
                 ∈ phone_heavy_queries (_extract_service query) city
                                       phone_patterns
                   ++ generate_fallback_queries lower query city (Some country)
                   ++ generic_queries (_extract_service query) city
                        (dict_get country_names country (lit "مصر"))
                        phone_patterns) reqs.
Proof.
  unfold SearchService.fallback_waves, bind.
  destruct (wave_requests (phone_heavy_queries (_extract_service query) city
                                               phone_patterns)
              country max_results st log) as (reqs1 & Hlog1 & Hlen1 & Hall1).
  destruct (wave _ _ _ st log) as [st1 log1]. simpl in Hlog1. subst log1.
  assert (exists reqs2 st2,
             (if negb (quota_met st1 max_results)
              then wave (generate_fallback_queries lower query city
                                                   (Some country))
                        country max_results st1
              else ret st1) (log ++ reqs1) = (st2, log ++ reqs1 ++ reqs2)
             /\ (length reqs2 <= tries * 5)%nat
             /\ Forall (fun req =>
                          query_of req
                          ∈ generate_fallback_queries lower query city
                              (Some country)) reqs2)
    as (reqs2 & st2 & -> & Hlen2 & Hall2).
  { destruct (negb (quota_met st1 max_results)).
    - destruct (wave_requests (generate_fallback_queries lower query city
                                                         (Some country))
                  country max_results st1 (log ++ reqs1))
        as (reqs2 & Hlog2 & Hlen2 & Hall2).
      destruct (wave _ _ _ st1 _) as [st2 log2]. simpl in Hlog2. subst log2.
      exists reqs2, st2. by rewrite <- (assoc_L (++)).
    - exists [], st1. rewrite app_nil_r.
      split_and!; simpl; [done | lia | done]. }
  assert (exists reqs3,
             ((if negb (quota_met st2 max_results)
               then wave (generic_queries (_extract_service query) city
                            (dict_get country_names country (lit "مصر"))
                            phone_patterns)
                         country max_results st2
               else ret st2) (log ++ reqs1 ++ reqs2)).2
             = log ++ reqs1 ++ reqs2 ++ reqs3
             /\ (length reqs3 <= tries * 5)%nat
             /\ Forall (fun req =>
                          query_of req
                          ∈ generic_queries (_extract_service query) city
                              (dict_get country_names country (lit "مصر"))
                              phone_patterns) reqs3)
    as (reqs3 & -> & Hlen3 & Hall3).
  { destruct (negb (quota_met st2 max_results)).
    - destruct (wave_requests (generic_queries (_extract_service query) city
                                 (dict_get country_names country (lit "مصر"))
                                 phone_patterns)
                  country max_results st2 (log ++ reqs1 ++ reqs2))
        as (reqs3 & Hlog3 & Hlen3 & Hall3).
      exists reqs3. by rewrite Hlog3, <- !(assoc_L (++)).
    - exists []. rewrite app_nil_r.
      split_and!; simpl; [done | lia | done]. }
  exists (reqs1 ++ reqs2 ++ reqs3). split_and!; [done | |].
  - rewrite !length_app. simpl in Hlen1. nia.
  - rewrite !Forall_app. split_and!;
      (eapply Forall_impl; [done|]; intros req Hin; cbv beta in *;
       rewrite !elem_of_app; auto).
Qed.

(** X1: a hunt sends at least one and at most 34 requests, at most 17
    without a Serper key, and every request carries one of the 17 queries of
    its tiers. *)
Theorem hunt_leads_request_budget (query city : str) (max_results : Z)
    (strategy : str) (country : option str) (log : list request) :
  let c := country_or_detect lower country city in
  let patterns :=
    dict_get phone_patterns_map c (qlit "(`010` OR `011` OR `012` OR `015`)") in
  exists reqs,
    (hunt_leads query city max_results strategy country log).2 = log ++ reqs
    /\ (1 <= length reqs <= 34)%nat
    /\ (length reqs <= tries * 17)%nat
    /\ Forall (fun req =>
                 query_of req
                 ∈ tier_queries lower query city strategy c patterns) reqs.
Proof.
  intros c patterns. unfold SearchService.hunt_leads, bind.
  fold c patterns.
  unfold SearchService.golden_wave, bind.
  destruct (search_with_country_requests
              (golden_query lower query city strategy c patterns) c
              (max_results * 3) log) as (reqs0 & Hlog0 & Hlen0 & Hall0).
  destruct (search_with_country _ _ _ log) as [results log0].
  simpl in Hlog0. subst log0. unfold ret.
  destruct (fallback_waves_requests query city max_results c patterns
              (accumulate
                 {| all_leads := []; hunt_phones := ∅; seen_emails := ∅ |}
                 (extract_leads_from_results results c true))
              (log ++ reqs0)) as (reqs1 & Hlog1 & Hlen1 & Hall1).
  destruct (fallback_waves _ _ _ _ _ _ _) as [st1 log1].
  simpl in Hlog1. subst log1. simpl.
  exists (reqs0 ++ reqs1). rewrite <- (assoc_L (++)).
  split_and!; [done | | | |].
  - rewrite length_app. lia.
  - rewrite length_app. destruct (truthy SERPER_API_KEY); lia.
  - rewrite length_app. lia.
  - unfold tier_queries. apply Forall_app. split.
    + eapply Forall_impl; [done|]. simpl. intros req ->. apply list_elem_of_here.
    + eapply Forall_impl; [done|]. simpl. intros req Hin.
      by apply list_elem_of_further.
Qed.

Lemma search_with_country_failed (query country : str) (max_results : Z)
    (log : list request) :
  (forall n req, unsuccessful (http n req)) ->
  search_with_country query country max_results log
  = ([], log ++ failed_search SERPER_API_KEY query country max_results).
Proof.
  intros Hdown.
  unfold SearchService.search_with_country, search_duckduckgo, failed_search,
    bind, send, ret.
  destruct (truthy SERPER_API_KEY); simpl.
  - rewrite !parsed_unsuccessful by apply Hdown. simpl.
    by rewrite <- (assoc_L (++)).
  - by rewrite parsed_unsuccessful by apply Hdown.
Qed.

Lemma slice_to_nil {A} (n : Z) : slice_to n ([] : list A) = [].
Proof. unfold slice_to. destruct (0 <=? n); apply take_nil. Qed.

Lemma extract_nothing (country : str) (include_no_phone : bool) :
  extract_leads_from_results [] country include_no_phone = [].
Proof. reflexivity. Qed.

Lemma wave_failed (queries : list str) (country : str) (max_results : Z)
    (st : hunt) (log : list request) :
  (forall n req, unsuccessful (http n req)) ->
  quota_met st max_results = false ->
  wave queries country max_results st log
  = (st, log ++ concat ((fun q => failed_search SERPER_API_KEY q country
                                                max_results) <$> queries)).
Proof.
  intros Hdown Hquota. revert log.
  induction queries as [|q queries IH]; intros log; simpl.
  - by rewrite app_nil_r.
  - rewrite Hquota. unfold bind.
    rewrite search_with_country_failed by done.
    rewrite extract_nothing. unfold accumulate. simpl.
    by rewrite IH, <- (assoc_L (++)).
Qed.

(** X2: when every request fails (an exception or a status other than
    200), the hunt returns no lead; asked for at least one lead, it still
    tries every query of every tier once, in order, each with the requests
    of a failed search. *)
Theorem hunt_leads_offline (query city : str) (max_results : Z)
    (strategy : str) (country : option str) (log : list request) :
  let c := country_or_detect lower country city in
  let patterns :=
    dict_get phone_patterns_map c (qlit "(`010` OR `011` OR `012` OR `015`)") in
  (forall n req, unsuccessful (http n req)) ->
  (hunt_leads query city max_results strategy country log).1 = []
  /\ (0 < max_results ->
      (hunt_leads query city max_results strategy country log).2
      = log
        ++ failed_search SERPER_API_KEY
             (golden_query lower query city strategy c patterns) c
             (max_results * 3)
        ++ concat ((fun q => failed_search SERPER_API_KEY q c max_results)
                     <$> fallback_tier_queries lower query city c patterns)).
Proof.
  intros c patterns Hdown.
  unfold SearchService.hunt_leads, bind. fold c patterns.
  unfold SearchService.golden_wave, bind.
  rewrite search_with_country_failed by done.
  rewrite extract_nothing. unfold accumulate, ret. cbn [foldl].
  set (st := {| all_leads := []; hunt_phones := ∅; seen_emails := ∅ |}).
  destruct (quota_met st max_results) eqn:Hquota.
  - rewrite fallback_waves_gated by done. cbn [fst snd all_leads st].
    split; [apply slice_to_nil|].
    unfold quota_met in Hquota. cbn in Hquota.
    apply Z.leb_le in Hquota. lia.
  - unfold SearchService.fallback_waves, bind.
    rewrite wave_failed by done. rewrite Hquota. cbn [negb].
    rewrite wave_failed by done. rewrite Hquota. cbn [negb].
    rewrite wave_failed by done. cbn [fst snd all_leads st].
    split; [apply slice_to_nil|].
    intros _. unfold fallback_tier_queries.
    by rewrite !fmap_app, !concat_app, <- !(assoc_L (++)).
Qed.

Lemma accept_extends (st : hunt) (l : lead) :
  exists more, all_leads (accept st l) = all_leads st ++ more.
Proof.
  unfold accept. repeat case_match; simpl; eauto.
  all: exists []; by rewrite app_nil_r.
Qed.

Lemma accumulate_extends (st : hunt) (found : list lead) :
  exists more, all_leads (accumulate st found) = all_leads st ++ more.
Proof.
  unfold accumulate. revert st.
  induction found as [|l found IH]; intros st; simpl.
  - exists []. by rewrite app_nil_r.
  - destruct (IH (accept st l)) as [more2 ->].
    destruct (accept_extends st l) as [more1 ->].
    exists (more1 ++ more2). by rewrite <- (assoc_L (++)).
Qed.

Lemma wave_extends (queries : list str) (country : str) (max_results : Z)
    (st : hunt) (log : list request) :
  exists more,
    all_leads (wave queries country max_results st log).1
    = all_leads st ++ more.
Proof.
  revert st log.
  induction queries as [|q queries IH]; intros st log; simpl.
  - exists []. by rewrite app_nil_r.
  - destruct (quota_met st max_results).
    { exists []. by rewrite app_nil_r. }
    unfold bind.
    destruct (search_with_country q country max_results log)
      as [results log1].
    destruct (IH (accumulate st (extract_leads_from_results results country
                                                            true)) log1)
      as [more2 ->].
    destruct (accumulate_extends st (extract_leads_from_results results
                                       country true)) as [more1 ->].
    exists (more1 ++ more2). by rewrite <- (assoc_L (++)).
Qed.

Lemma fallback_waves_extends (query city : str) (max_results : Z)
    (country phone_patterns : str) (st : hunt) (log : list request) :
  exists more,
    all_leads (fallback_waves query city max_results country phone_patterns
                              st log).1
    = all_leads st ++ more.
Proof.
  unfold SearchService.fallback_waves, bind.
  destruct (wave_extends (phone_heavy_queries (_extract_service query) city
                                              phone_patterns)
              country max_results st log) as [more1 H1].
  destruct (wave _ _ _ st log) as [st1 log1]. cbn [fst] in H1.
  destruct (quota_met st1 max_results) eqn:Hq1; cbn [negb].
  - unfold ret. rewrite Hq1. simpl. eauto.
  - destruct (wave_extends (generate_fallback_queries lower query city
                                                      (Some country))
                country max_results st1 log1) as [more2 H2].
    destruct (wave _ _ _ st1 log1) as [st2 log2]. cbn [fst] in H2.
    destruct (negb (quota_met st2 max_results)).
    + destruct (wave_extends (generic_queries (_extract_service query) city
                                (dict_get country_names country (lit "مصر"))
                                phone_patterns)
                  country max_results st2 log2) as [more3 ->].
      rewrite H2, H1. exists (more1 ++ more2 ++ more3).
      by rewrite <- !(assoc_L (++)).
    + simpl. rewrite H2, H1. exists (more1 ++ more2).
      by rewrite <- !(assoc_L (++)).
Qed.

(** X3: the leads accepted from the search with the golden query head the
    list the hunt slices, in their order; the leads of the fallback tiers
    only follow them. *)
Theorem hunt_leads_golden_first (query city : str) (max_results : Z)
    (strategy : str) (country : option str) (log : list request) :
  let c := country_or_detect lower country city in
  let patterns :=
    dict_get phone_patterns_map c (qlit "(`010` OR `011` OR `012` OR `015`)") in
  let golden := golden_wave query city max_results strategy c patterns log in
  exists later,
    (hunt_leads query city max_results strategy country log).1
    = slice_to max_results (all_leads golden.1 ++ later).
Proof.
  intros c patterns golden.
  unfold SearchService.hunt_leads, bind. fold c patterns golden.
  destruct golden as [st1 log1].
  destruct (fallback_waves_extends query city max_results c patterns st1 log1)
    as [later Hlater].
  destruct (fallback_waves _ _ _ _ _ st1 log1) as [st2 log2].
  simpl in *. exists later. by rewrite Hlater.
Qed.

End Budget.

(** ** Lead extraction: bounds and distinct phones *)

Section ExtractionMore.
Import Py Re AIService SearchService.

Local Arguments any_in : simpl never.

(** The phones one result adds were not seen before and are seen after. *)
Lemma add_phone_fresh (seen0 : gset str) (st : list str * gset str) (m : str) :
  seen0 ⊆ st.2 ->
  (forall p, p ∈ st.1 -> (p ∉ seen0) /\ p ∈ st.2) ->
  seen0 ⊆ (add_phone st m).2
  /\ (forall p, p ∈ (add_phone st m).1 ->
                (p ∉ seen0) /\ p ∈ (add_phone st m).2).
Proof.
  destruct st as [phones seen]. unfold add_phone. cbn [fst snd].
  intros Hsub Hall.
  destruct (_ && _) eqn:Hadd; cbn [fst snd]; [|done].
  apply andb_true_iff in Hadd as [_ Hnew%negb_true_iff%bool_decide_eq_false].
  split; [set_solver|].
  intros p [Hp | ->%list_elem_of_singleton]%elem_of_app.
  - destruct (Hall p Hp). set_solver.
  - set_solver.
Qed.

Lemma scan_phones_fresh (patterns : list regex) (text : str) (seen : gset str) :
  seen ⊆ (scan_phones patterns text seen).2
  /\ (forall p, p ∈ (scan_phones patterns text seen).1 ->
                (p ∉ seen) /\ p ∈ (scan_phones patterns text seen).2).
Proof.
  unfold scan_phones.
  assert (seen ⊆ (([] : list str), seen).2
          /\ (forall p, p ∈ (([] : list str), seen).1 ->
                        (p ∉ seen) /\ p ∈ (([] : list str), seen).2)) as Hstart.
  { split; [done|]. by intros p ?%elem_of_nil. }
  revert Hstart. generalize (([] : list str), seen).
  induction patterns as [|pattern patterns IH]; intros st Hst; simpl; [done|].
  apply IH. revert st Hst.
  induction (findall pattern text) as [|m ms IHm]; intros st Hst; simpl; [done|].
  apply IHm. destruct Hst. by apply add_phone_fresh.
Qed.

(** One iteration, seen from the phones: the set only grows, and a phone
    given to a new lead enters it then; the name and the notes of a new lead
    are cut at 60 and 300 characters. *)
Lemma extract_step_phones (patterns : list regex) (country : str)
    (include_no_phone : bool) (st : extraction) (r : result) :
  let st' := extract_step patterns country include_no_phone st r in
  seen_phones st ⊆ seen_phones st'
  /\ (leads st' = leads st
      \/ exists l,
           leads st' = leads st ++ [l]
           /\ (phone l <> [] ->
               (phone l ∉ seen_phones st) /\ phone l ∈ seen_phones st')
           /\ (length (name l) <= 60)%nat
           /\ (length (notes l) <= 300)%nat
           /\ notes l = take 300 (default [] (snippet r))
           /\ status l = lit "new").
Proof.
  unfold extract_step.
  pose proof (scan_phones_fresh patterns (text_of r) (seen_phones st))
    as [Hsub Hfresh].
  pose proof (scan_phones_clean patterns (text_of r) (seen_phones st)) as Hclean.
  destruct (scan_phones _ _ _) as [phones seen]. cbn [fst snd] in *.
  destruct (_ || _ || _); cbn [seen_phones leads]; (split; [done|]); [|by left].
  right. eexists. split; [done|]. cbn [phone name notes status].
  split_and!; [| | |done|done].
  - destruct phones as [|p phones]; [done|]. simpl. intros _.
    apply Hfresh, list_elem_of_here.
  - rewrite length_take. lia.
  - rewrite length_take. lia.
Qed.

(** X4: [extract_leads_from_results] makes at most one lead from each
    result; the name of a lead has at most 60 characters, its notes at most
    300, and its status is new. *)
Theorem extracted_leads_bounds (results : list result) (country : str)
    (include_no_phone : bool) :
  let out := extract_leads_from_results results country include_no_phone in
  (length out <= length results)%nat
  /\ Forall (fun l => (length (name l) <= 60)%nat
                      /\ (length (notes l) <= 300)%nat
                      /\ status l = lit "new") out.
Proof.
  unfold extract_leads_from_results.
  induction results as [|r results IH] using rev_ind; simpl.
  - split; [lia | done].
  - rewrite foldl_snoc, length_app. simpl. destruct IH as [IHlen IHall].
    destruct (extract_step_phones (patterns_of country) country
                include_no_phone
                (foldl (extract_step (patterns_of country) country
                                     include_no_phone)
                       {| leads := []; seen_phones := ∅; seen_urls := ∅ |}
                       results) r)
      as [_ [-> | (l & -> & _ & Hname & Hnotes & _ & Hstatus)]].
    + split; [lia | done].
    + rewrite length_app. simpl. split; [lia|].
      apply Forall_app. split; [done|]. by constructor.
Qed.

(** X5: within one call of [extract_leads_from_results], no two leads carry
    the same phone. *)
Theorem extracted_phones_distinct (results : list result) (country : str)
    (include_no_phone : bool) (i j : nat) (a b : lead) :
  let out := extract_leads_from_results results country include_no_phone in
  out !! i = Some a -> out !! j = Some b -> i <> j ->
  phone a <> [] -> phone a <> phone b.
Proof.
  unfold extract_leads_from_results. simpl.
  set (step := extract_step (patterns_of country) country include_no_phone).
  set (start := {| leads := []; seen_phones := ∅; seen_urls := ∅ |}).
  assert (forall rs,
             (forall l, l ∈ leads (foldl step start rs) -> phone l <> [] ->
                        phone l ∈ seen_phones (foldl step start rs))
             /\ (forall i j a b,
                    leads (foldl step start rs) !! i = Some a ->
                    leads (foldl step start rs) !! j = Some b ->
                    i <> j -> phone a <> [] -> phone a <> phone b)) as Hinv.
  { clear i j a b.
    induction rs as [|r rs [IHseen IHapart]] using rev_ind.
    - split; [by intros l ?%elem_of_nil | done].
    - rewrite foldl_snoc.
      destruct (extract_step_phones (patterns_of country) country
                  include_no_phone (foldl step start rs) r)
        as [Hsub [Hsame | (l & Hnew & Hphone & _)]];
        fold step in Hsub, Hsame || fold step in Hsub, Hnew, Hphone.
      + rewrite Hsame. split; [|done].
        intros l Hl Hp. apply Hsub. by apply IHseen.
      + rewrite Hnew. split.
        * intros l' [Hl' | ->%list_elem_of_singleton]%elem_of_app Hp.
          -- apply Hsub. by apply IHseen.
          -- by apply Hphone.
        * intros i j a b [[Hi Ha] | [-> <-]]%lookup_snoc_Some
                         [[Hj Hb] | [-> <-]]%lookup_snoc_Some Hij Hp.
          -- by eapply IHapart.
          -- intros Heq. destruct (Hphone ltac:(by rewrite <- Heq)) as [Hout _].
             apply Hout. rewrite <- Heq.
             apply IHseen; [by eapply list_elem_of_lookup_2 | done].
          -- intros Heq. destruct (Hphone Hp) as [Hout _].
             apply Hout. rewrite Heq.
             apply IHseen; [by eapply list_elem_of_lookup_2 | by rewrite <- Heq].
          -- done. }
  intros Ha Hb Hij Hp.
  by eapply (proj2 (Hinv results)).
Qed.

(** X6: [_detect_phone_country] answers with one of five codes; it answers
    uae exactly for a number that, without white space, dashes and plus
    signs, starts with 971, and saudi for every number that then starts
    with 05: the test of the uae branch for ten-character 05 numbers comes
    after the saudi branch has taken them. *)
Theorem detect_phone_country_classes (p : str) :
  let clean := sub (Chr (cls_or dash_or_space (ch "+"))) [] p in
  _detect_phone_country p
    ∈ [lit "egypt"; lit "saudi"; lit "uae"; lit "kuwait"; lit "unknown"]
  /\ (_detect_phone_country p = lit "uae" <->
      p <> [] /\ startswith clean (lit "971") = true)
  /\ (p <> [] -> startswith clean (lit "05") = true ->
      _detect_phone_country p = lit "saudi").
Proof.
  intros clean. unfold _detect_phone_country. fold clean.
  destruct p as [|c0 p0]; cbn [truthy negb].
  { split_and!; [rewrite !elem_of_cons; auto 10 | | done].
    split; [by vm_compute | by intros [? _]]. }
  clearbody clean.
  assert (startswith clean (lit "971") = true ->
          startswith clean (lit "20") = false
          /\ startswith clean (lit "01") = false
          /\ startswith clean (lit "966") = false
          /\ startswith clean (lit "05") = false) as H971.
  { intros [rest ->]%startswith_spec. vm_compute. auto. }
  assert (startswith clean (lit "05") = true ->
          startswith clean (lit "20") = false
          /\ startswith clean (lit "01") = false) as H05.
  { intros [rest ->]%startswith_spec. vm_compute. auto. }
  destruct (startswith clean (lit "20")) eqn:E20,
           (startswith clean (lit "01")) eqn:E01,
           (startswith clean (lit "966")) eqn:E966,
           (startswith clean (lit "05")) eqn:E05,
           (startswith clean (lit "971")) eqn:E971,
           (startswith clean (lit "965")) eqn:E965;
    cbn [orb andb];
    try (destruct (H971 eq_refl) as (? & ? & ? & ?); congruence);
    try (destruct (H05 eq_refl) as (? & ?); congruence);
    (split_and!; [rewrite !elem_of_cons; auto 10 | | done]);
    ((split; [by vm_compute | by intros [_ ?]]) || done).
Qed.

End ExtractionMore.

(** ** Duplicate filter: what comes out *)

Section FilterOutput.
Import Py Re SearchService SmartHunt SmartHunt.DuplicateChecker.

Variable lower : str -> str.

Local Abbreviation email_key l := (strip (lower (email l))).

Section Loop.

Variable existing_phones existing_emails : gset str.

Local Abbreviation step := (filter_step lower existing_phones existing_emails).
Local Abbreviation filtered :=
  (filter_loop lower existing_phones existing_emails).
Local Abbreviation start :=
  {| unique_leads := []; new_phones := ∅; new_emails := ∅ |}.

Lemma normalize_phone_clean (p : str) :
  Forall (fun c => separators c = false) (_normalize_phone p).
Proof.
  unfold _normalize_phone.
  pose proof (sub_chr_clean separators p) as Hclean.
  repeat case_match; [| |done]; by apply Forall_drop.
Qed.

(** What the loop leaves: leads with a contact that is new, and no
    contact twice. *)
Lemma filter_loop_output (candidates : list lead) :
  let out := filtered candidates in
  (length out <= length candidates)%nat
  /\ Forall (fun a =>
               (phone a <> [] /\ (phone a ∉ existing_phones)
                /\ Forall (fun c => separators c = false) (phone a))
               \/ (phone a = [] /\ email_key a <> []
                   /\ (email_key a ∉ existing_emails))) out
  /\ (forall i j a b,
         out !! i = Some a -> out !! j = Some b -> i <> j ->
         (phone a <> [] -> phone a <> phone b)
         /\ (phone a = [] -> phone b = [] -> email_key a <> email_key b)).
Proof.
  unfold filter_loop.
  induction candidates as [|l candidates IH] using rev_ind.
  - simpl. split_and!; [lia | done | done].
  - destruct (filter_sets lower existing_phones existing_emails candidates)
      as [Hphones Hemails].
    rewrite foldl_snoc, filter_step_eq, length_app. simpl in *.
    destruct IH as (IHlen & IHall & IHapart).
    set (st := foldl step start candidates) in *.
    set (p := _normalize_phone (phone l)).
    pose proof (normalize_phone_clean (phone l)) as Hclean. fold p in Hclean.
    assert (length (unique_leads st) <= length candidates + 1)%nat by lia.
    destruct (truthy p) eqn:Hp.
    + apply truthy_spec in Hp.
      destruct (decide (p ∈ existing_phones)) as [Hin|Hout];
        [rewrite (bool_decide_eq_true_2 _ Hin); simpl; by split_and!|].
      destruct (decide (p ∈ new_phones st)) as [Hin'|Hout'];
        [rewrite (bool_decide_eq_true_2 _ Hin'), orb_true_r; by split_and!|].
      rewrite (bool_decide_eq_false_2 _ Hout), (bool_decide_eq_false_2 _ Hout').
      simpl. rewrite length_app. simpl. split_and!; [lia | |].
      * apply Forall_app. split; [done|]. constructor; [|done]. by left.
      * intros i j a b [[Hi Ha] | [-> <-]]%lookup_snoc_Some
                       [[Hj Hb] | [-> <-]]%lookup_snoc_Some Hij; simpl.
        -- by eapply IHapart.
        -- split; [|by intros _ ?].
           intros Hna Heq. apply Hout', Hphones. split; [done|].
           rewrite <- Heq. apply list_elem_of_fmap_2.
           by eapply list_elem_of_lookup_2.
        -- split; [|done].
           intros _ Heq. apply Hout', Hphones. split; [done|].
           rewrite Heq. apply list_elem_of_fmap_2.
           by eapply list_elem_of_lookup_2.
        -- done.
    + assert (p = []) as Hnil by (by destruct p).
      destruct (truthy (email_key l)) eqn:He; [|by split_and!].
      apply truthy_spec in He.
      destruct (decide (email_key l ∈ existing_emails)) as [Hin|Hout];
        [rewrite (bool_decide_eq_true_2 _ Hin); simpl; by split_and!|].
      destruct (decide (email_key l ∈ new_emails st)) as [Hin'|Hout'];
        [rewrite (bool_decide_eq_true_2 _ Hin'), orb_true_r; by split_and!|].
      rewrite (bool_decide_eq_false_2 _ Hout), (bool_decide_eq_false_2 _ Hout').
      simpl. rewrite length_app. simpl. split_and!; [lia | |].
      * apply Forall_app. split; [done|]. constructor; [|done]. by right.
      * intros i j a b [[Hi Ha] | [-> <-]]%lookup_snoc_Some
                       [[Hj Hb] | [-> <-]]%lookup_snoc_Some Hij; simpl.
        -- by eapply IHapart.
        -- split; [intros ? ?; congruence|].
           intros Hna _ Heq. apply Hout', Hemails. rewrite <- Heq.
           apply (list_elem_of_fmap_2 (fun l' => email_key l')).
           apply list_elem_of_filter. split; [done|].
           by eapply list_elem_of_lookup_2.
        -- split; [intros ? ?; congruence|].
           intros _ Hnb Heq. apply Hout', Hemails. rewrite Heq.
           apply (list_elem_of_fmap_2 (fun l' => email_key l')).
           apply list_elem_of_filter. split; [done|].
           by eapply list_elem_of_lookup_2.
        -- done.
Qed.

End Loop.

(** X7: [filter_duplicates] returns exactly when there is a connection to
    read the lead store from; otherwise a reader raises.  In the list it
    returns, every lead has a phone or else a (lowered, stripped) email; a
    phone is normalized (no white space, dash, dot or parenthesis), is none
    of the existing phones the reader returned and occurs once; the email of
    a phoneless lead is none of the existing emails and occurs once among
    the phoneless leads; and nothing is added: the list is no longer than
    the candidates. *)
Theorem filter_duplicates_output (db : option postgres) (user_id : str)
    (candidates : list lead) :
  (is_Some (filter_duplicates lower db user_id candidates) <-> is_Some db)
  /\ forall out,
       filter_duplicates lower db user_id candidates = Some out ->
       exists existing_phones existing_emails,
         get_existing_phones db user_id = Some existing_phones
         /\ get_existing_emails lower db user_id = Some existing_emails
         /\ (length out <= length candidates)%nat
         /\ Forall (fun a =>
                      (phone a <> [] /\ (phone a ∉ existing_phones)
                       /\ Forall (fun c => separators c = false) (phone a))
                      \/ (phone a = [] /\ email_key a <> []
                          /\ (email_key a ∉ existing_emails))) out
         /\ (forall i j a b,
                out !! i = Some a -> out !! j = Some b -> i <> j ->
                (phone a <> [] -> phone a <> phone b)
                /\ (phone a = [] -> phone b = [] ->
                    email_key a <> email_key b)).
Proof.
  unfold filter_duplicates, get_existing_phones, get_existing_emails.
  destruct db as [conn|]; cbn [mbind option_bind].
  - split; [by split; eauto|]. intros out [= <-].
    eexists _, _. split; [reflexivity|]. split; [reflexivity|].
    apply filter_loop_output.
  - split; [split; by intros [? ?]|done].
Qed.

End FilterOutput.

(** ** Search backends: the limit and the golden query *)

Section SearchLimits.
Import Py Re Net AIService SearchService.

Variable SERPER_API_KEY : str.
Variable http : oracle.

Lemma serper_results_length (items : list item) (rs : list result) :
  serper_results items = Some rs -> length rs = length items.
Proof.
  unfold serper_results. intros H. symmetry. by eapply length_mapM.
Qed.

Lemma duckduckgo_results_length (items : list item) (rs : list result) :
  duckduckgo_results items = Some rs -> (length rs <= length items)%nat.
Proof.
  revert rs. induction items as [|it items IH]; intros rs; simpl.
  - intros [= <-]. simpl. lia.
  - destruct (has_Text it) as [[|]|]; [| |done].
    + destruct it; try done.
      destruct (duckduckgo_results items) as [rs'|]; [|done].
      intros [= <-]. simpl. specialize (IH rs' eq_refl). lia.
    + intros H%IH. lia.
Qed.

Lemma parsed_limit (r : reply) (key : string) (max_results : Z)
    (loop : list item -> option (list result)) (rs : list result) :
  0 <= max_results ->
  (forall items rs', loop items = Some rs' ->
                     (length rs' <= length items)%nat) ->
  parsed r key max_results loop = Some rs ->
  Z.of_nat (length rs) <= max_results.
Proof.
  intros Hmax Hloop. unfold parsed, sliced_items.
  destruct r as [|status_code body]; [done|].
  destruct (status_code =? 200); [|done].
  destruct body as [| |fields]; [done|done|].
  destruct (fields !! lit key) as [[items|text|]|]; [| |done|].
  - intros H%Hloop. pose proof (slice_to_length max_results items Hmax). lia.
  - intros H%Hloop. rewrite length_fmap in H.
    pose proof (slice_to_length max_results text Hmax). lia.
  - intros H%Hloop. simpl in H. lia.
Qed.

Lemma search_serper_limit (query : str) (max_results : Z) (log : list request) :
  0 <= max_results ->
  Z.of_nat (length (search_serper SERPER_API_KEY http query max_results log).1)
  <= max_results.
Proof.
  intros Hmax. unfold search_serper, bind, send, ret.
  destruct (truthy SERPER_API_KEY); simpl; [|lia].
  destruct (parsed _ _ _ _) as [rs|] eqn:Hparsed; simpl; [|lia].
  eapply parsed_limit; [done| |done].
  intros items rs' H%serper_results_length. lia.
Qed.

Lemma search_duckduckgo_limit (query : str) (max_results : Z)
    (log : list request) :
  0 <= max_results ->
  Z.of_nat (length (search_duckduckgo http query max_results log).1)
  <= max_results.
Proof.
  intros Hmax. unfold search_duckduckgo, bind, send, ret. simpl.
  destruct (parsed _ _ _ _) as [rs|] eqn:Hparsed; simpl; [|lia].
  eapply parsed_limit; [done| |done].
  apply duckduckgo_results_length.
Qed.

(** X8: asked for at most [max_results] results ([max_results] not
    negative), no search function returns more: neither backend, nor
    [search], nor [search_with_country]. *)
Theorem search_result_limit (query country : str) (max_results : Z)
    (log : list request) :
  0 <= max_results ->
  Z.of_nat (length (search_serper SERPER_API_KEY http query max_results log).1)
    <= max_results
  /\ Z.of_nat (length (search_duckduckgo http query max_results log).1)
     <= max_results
  /\ Z.of_nat (length (search SERPER_API_KEY http query max_results log).1)
     <= max_results
  /\ Z.of_nat (length (search_with_country SERPER_API_KEY http query country
                                           max_results log).1)
     <= max_results.
Proof.
  intros Hmax. split_and!.
  - by apply search_serper_limit.
  - by apply search_duckduckgo_limit.
  - unfold search, bind.
    pose proof (search_serper_limit query max_results log Hmax) as Hserper.
    destruct (search_serper _ _ _ _ _) as [[|r rs] log']; [|done].
    by apply search_duckduckgo_limit.
  - unfold search_with_country, bind, send, ret.
    destruct (truthy SERPER_API_KEY); [|by apply search_duckduckgo_limit].
    simpl.
    destruct (parsed _ _ _ _) as [rs|] eqn:Hparsed;
      [|by apply search_duckduckgo_limit].
    simpl. eapply parsed_limit; [done| |done].
    intros items rs' H%serper_results_length. lia.
Qed.

Lemma truthy_app_r (x y : str) : truthy y = true -> truthy (x ++ y) = true.
Proof. destruct x, y; done. Qed.

(** X9: [generate_golden_query] never returns the empty string, so
    [hunt_leads] always searches with the query it returns and never with
    the replacement it keeps for an empty one; the query always holds the
    city between double quotes. *)
Theorem golden_query_never_replaced (lower : str -> str)
    (query city strategy country phone_patterns : str) :
  truthy (generate_golden_query lower query city strategy (Some country))
    = true
  /\ golden_query lower query city strategy country phone_patterns
     = generate_golden_query lower query city strategy (Some country)
  /\ contains (quoted city)
              (generate_golden_query lower query city strategy (Some country))
     = true.
Proof.
  assert (truthy (generate_golden_query lower query city strategy
                                        (Some country)) = true) as Hne.
  { unfold generate_golden_query. by apply truthy_app_r. }
  split_and!; [done | |].
  - unfold golden_query. by rewrite Hne.
  - apply contains_spec. unfold generate_golden_query, quoted. cbv zeta.
    set (sites := strategy_sites _).
    set (keywords := join _ _).
    set (phones := AIService.phone_patterns _).
    set (exclusions := qlit " -site:youtube.com -`وظيفة` -`مطلوب` -`شركة`").
    exists (sites ++ lit " (" ++ keywords ++ lit ") "),
           (lit " " ++ phones ++ exclusions).
    change (qlit ") `") with (lit ") " ++ qlit "`").
    change (qlit "` ") with (qlit "`" ++ lit " ").
    rewrite <- !(assoc_L (++)). reflexivity.
Qed.

End SearchLimits.

(** ** Worked examples of the further properties *)

Section MoreWorked.
Import Py Re Net AIService SearchService SmartHunt.DuplicateChecker.
Import Examples MoreExamples.

Lemma hunt_leads_offline_witness :
  (hunt_leads [] offline ascii_lower (lit "سباك") (lit "القاهرة") 5
              (lit "social_media") (Some (lit "egypt")) []).1 = [].
Proof.
  refine (proj1 (hunt_leads_offline [] offline ascii_lower (lit "سباك")
                   (lit "القاهرة") 5 (lit "social_media")
                   (Some (lit "egypt")) [] _)).
  intros n req. exact I.
Defined.

(** Offline and without a key, the hunt of the examples sends its 17
    queries to DuckDuckGo, one request each. *)
Example plumber_hunt_offline :
  length (plumber_hunt offline 5).2 = 17%nat
  /\ query_of <$> (plumber_hunt offline 5).2
     = Tiers.tier_queries ascii_lower (lit "سباك") (lit "القاهرة")
         (lit "social_media") (lit "egypt")
         (qlit "(`010` OR `011` OR `012` OR `015`)").
Proof. split; by vm_compute. Qed.

Lemma extracted_phones_distinct_witness :
  extract_leads_from_results
    [advert_result "سباك 01012345678" "https://example.com/1";
     advert_result "سباك 01012345678 او 01112345678" "https://example.com/2"]
    (lit "egypt") true
  = [phone_lead "سباك 01012345678" "https://example.com/1" "01012345678";
     phone_lead "سباك 01012345678 او 01112345678" "https://example.com/2"
                "01112345678"]
  /\ lit "01012345678" <> lit "01112345678".
Proof.
  assert (extract_leads_from_results
            [advert_result "سباك 01012345678" "https://example.com/1";
             advert_result "سباك 01012345678 او 01112345678"
                           "https://example.com/2"]
            (lit "egypt") true
          = [phone_lead "سباك 01012345678" "https://example.com/1"
                        "01012345678";
             phone_lead "سباك 01012345678 او 01112345678"
                        "https://example.com/2" "01112345678"]) as Hout
    by (by vm_compute).
  split; [exact Hout|].
  refine (extracted_phones_distinct
            [advert_result "سباك 01012345678" "https://example.com/1";
             advert_result "سباك 01012345678 او 01112345678"
                           "https://example.com/2"]
            (lit "egypt") true 0%nat 1%nat
            (phone_lead "سباك 01012345678" "https://example.com/1"
                        "01012345678")
            (phone_lead "سباك 01012345678 او 01112345678"
                        "https://example.com/2" "01112345678") _ _ _ _).
  - by rewrite Hout.
  - by rewrite Hout.
  - discriminate.
  - discriminate.
Defined.

Lemma detect_phone_country_classes_witness :
  _detect_phone_country (lit "050-123-4567") = lit "saudi".
Proof.
  refine (proj2 (proj2 (detect_phone_country_classes (lit "050-123-4567")))
                _ _).
  - discriminate.
  - vm_compute. reflexivity.
Defined.

Lemma filter_duplicates_output_witness :
  filter_duplicates ascii_lower (Some (stored_phones [lit "01012345678"]))
    (lit "u")
    [contact "010 1234 5678" ""; contact "01099999999" "a@example.com";
     contact "" "A@Example.com "; contact "" "a@example.com"]
  = Some [contact "01099999999" "a@example.com"; contact "" "A@Example.com "]
  /\ phone (contact "01099999999" "a@example.com")
     <> phone (contact "" "A@Example.com ").
Proof.
  assert (filter_duplicates ascii_lower
            (Some (stored_phones [lit "01012345678"])) (lit "u")
            [contact "010 1234 5678" ""; contact "01099999999" "a@example.com";
             contact "" "A@Example.com "; contact "" "a@example.com"]
          = Some [contact "01099999999" "a@example.com";
                  contact "" "A@Example.com "]) as Hout
    by (vm_compute; reflexivity).
  split; [exact Hout|].
  destruct (proj2 (filter_duplicates_output ascii_lower
                     (Some (stored_phones [lit "01012345678"])) (lit "u")
                     [contact "010 1234 5678" "";
                      contact "01099999999" "a@example.com";
                      contact "" "A@Example.com ";
                      contact "" "a@example.com"]) _ Hout)
    as (existing_phones & existing_emails & _ & _ & _ & _ & Hapart).
  refine (proj1 (Hapart 0%nat 1%nat _ _ eq_refl eq_refl _) _); discriminate.
Defined.

Lemma search_result_limit_witness :
  0 <= 2
  /\ Z.of_nat (length (search_duckduckgo (first_reply five_adverts)
                                         (lit "سباك") 2 []).1) <= 2.
Proof.
  split; [lia|].
  refine (proj1 (proj2 (search_result_limit [] (first_reply five_adverts)
                          (lit "سباك") (lit "egypt") 2 [] _))).
  lia.
Defined.

End MoreWorked.

(** ** Request schemas: the other validators *)

Section SchemaValidators.
Import Py Schemas.

Lemma allowed_or_spec (allowed : list str) (fallback v : str) :
  fallback ∈ allowed ->
  allowed_or allowed fallback v ∈ allowed
  /\ (allowed_or allowed fallback v = v <-> v ∈ allowed).
Proof.
  intros Hin. unfold allowed_or. case_bool_decide; naive_solver.
Qed.

(** X10: each integer validator of the request schemas maps every integer
    into the range of its field, and changes exactly the integers outside
    that range. *)
Theorem integer_validators_clamp (v : Z) :
  (0 <= validate_balance v <= 100000
   /\ (validate_balance v = v <-> 0 <= v <= 100000))
  /\ (1 <= validate_amount v <= 50000
      /\ (validate_amount v = v <-> 1 <= v <= 50000))
  /\ (1 <= validate_duration v <= 365
      /\ (validate_duration v = v <-> 1 <= v <= 365))
  /\ (1 <= validate_rating v <= 5
      /\ (validate_rating v = v <-> 1 <= v <= 5)).
Proof.
  unfold validate_balance, validate_amount, validate_duration,
    validate_rating.
  lia.
Qed.

(** X11: each allow-list validator of the request schemas answers with a
    member of its list, and changes exactly the strings outside the list;
    [validate_stage] raises on exactly those. *)
Theorem allow_list_validators (v : str) :
  (validate_platform v ∈ ad_platforms
   /\ (validate_platform v = v <-> v ∈ ad_platforms))
  /\ (validate_type v ∈ bait_templates
      /\ (validate_type v = v <-> v ∈ bait_templates))
  /\ (validate_learning_platform v ∈ learning_platforms
      /\ (validate_learning_platform v = v <-> v ∈ learning_platforms))
  /\ (validate_outcome v ∈ outcomes
      /\ (validate_outcome v = v <-> v ∈ outcomes))
  /\ (validate_stage v = (if bool_decide (v ∈ funnel_stages)
                          then Some v else None)).
Proof.
  repeat (split; [apply allowed_or_spec, (bool_decide_unpack _); by vm_compute|]).
  unfold validate_stage. repeat case_bool_decide; naive_solver.
Qed.

End SchemaValidators.

(** ** The guided session *)

Section GuidedFlow.
Import Py Re GuidedSession.

Variable max_str_digits : option nat.

Local Arguments _build_summary : simpl never.
Local Arguments step_value : simpl never.

(** The session after a response to the step [cfg]. *)
Local Abbreviation advanced cfg response s :=
  {| step := S (step s);
     data := <[key cfg := step_value max_str_digits cfg response]> (data s);
     started_at := started_at s;
     active := active s |}.

Lemma get_session_insert (user : str) (s : session) (ss : gmap str session) :
  active s = true -> get_session user (<[user := s]> ss) = Some s.
Proof. unfold get_session. rewrite lookup_insert_eq. by intros ->. Qed.

Lemma get_session_ended (user : str) (ss : gmap str session) :
  get_session user (end_session user ss) = None.
Proof.
  unfold get_session, end_session.
  destruct (ss !! user) as [s|] eqn:Hs; [by rewrite lookup_insert_eq|].
  by rewrite Hs.
Qed.

Lemma end_session_others (user u : str) (ss : gmap str session) :
  u <> user -> end_session user ss !! u = ss !! u.
Proof.
  intros Hne. unfold end_session.
  destruct (ss !! user); [by rewrite lookup_insert_ne|done].
Qed.

Lemma step_value_count (cfg : step_config) (response : str) :
  key cfg = lit "count" ->
  exists n, step_value max_str_digits cfg response = Number n /\ 5 <= n <= 50.
Proof.
  intros Hkey. unfold step_value. rewrite bool_decide_eq_true_2 by done.
  destruct (int_of_digits _ _); eexists; (split; [done|lia]).
Qed.

Lemma step_value_text (cfg : step_config) (response : str) :
  key cfg <> lit "count" ->
  exists t, step_value max_str_digits cfg response = Text t.
Proof.
  intros Hkey. unfold step_value. rewrite bool_decide_eq_false_2 by done.
  by eexists.
Qed.

Lemma step_value_free (cfg : step_config) (response : str) :
  options cfg = None -> key cfg <> lit "count" ->
  step_value max_str_digits cfg response = Text (strip response).
Proof.
  intros Hopt Hkey. unfold step_value.
  by rewrite Hopt, bool_decide_eq_false_2.
Qed.

Lemma process_response_active (now user response : str)
    (ss : gmap str session) (s : session) (cfg : step_config) :
  get_session user ss = Some s ->
  STEPS !! step s = Some cfg ->
  process_response max_str_digits now user response ss
  = let s' := advanced cfg response s in
    if (5 <=? step s')%nat then
      Some ({| message := Some (_build_summary (data s'));
               reply_step := step s';
               ready_to_hunt := true;
               hunt_data := Some (data s') |}, <[user := s']> ss)
    else
      next_step ← STEPS !! step s';
      Some ({| message := question next_step;
               reply_step := step s';
               ready_to_hunt := false;
               hunt_data := None |}, <[user := s']> ss).
Proof.
  intros Hs Hcfg. unfold process_response. rewrite Hs. cbv zeta.
  by rewrite Hcfg.
Qed.

(** A response to one of the first four steps: the next question. *)
Lemma conversation_question (now user response : str) (rest : list str)
    (ss : gmap str session) (k : nat) (d : gmap str value) (t : str)
    (cfg next : step_config) :
  STEPS !! k = Some cfg ->
  (S k < 5)%nat ->
  STEPS !! S k = Some next ->
  conversation max_str_digits now user (response :: rest)
    (<[user := {| step := k; data := d; started_at := t; active := true |}]>
       ss)
  = '(reps, ss') ← conversation max_str_digits now user rest
                     (<[user := {| step := S k;
                                   data := <[key cfg := step_value
                                               max_str_digits cfg response]> d;
                                   started_at := t; active := true |}]> ss);
    Some ({| message := question next;
             reply_step := S k;
             ready_to_hunt := false;
             hunt_data := None |} :: reps, ss').
Proof.
  intros Hcfg Hlt Hnext. cbn [conversation].
  erewrite process_response_active;
    [|by apply get_session_insert|exact Hcfg].
  cbv zeta. cbn [step data started_at active].
  rewrite (proj2 (Nat.leb_gt _ _)) by lia.
  rewrite Hnext. cbn [mbind option_bind]. by rewrite insert_insert_eq.
Qed.

(** A response to the count step or to a later one: the summary. *)
Lemma conversation_ready (now user response : str) (rest : list str)
    (ss : gmap str session) (k : nat) (d : gmap str value) (t : str)
    (cfg : step_config) :
  STEPS !! k = Some cfg ->
  (4 <= k)%nat ->
  let d' := <[key cfg := step_value max_str_digits cfg response]> d in
  conversation max_str_digits now user (response :: rest)
    (<[user := {| step := k; data := d; started_at := t; active := true |}]>
       ss)
  = '(reps, ss') ← conversation max_str_digits now user rest
                     (<[user := {| step := S k; data := d';
                                   started_at := t; active := true |}]> ss);
    Some ({| message := Some (_build_summary d');
             reply_step := S k;
             ready_to_hunt := true;
             hunt_data := Some d' |} :: reps, ss').
Proof.
  intros Hcfg Hle d'. cbn [conversation].
  erewrite process_response_active;
    [|by apply get_session_insert|exact Hcfg].
  cbv zeta. cbn [step data started_at active].
  rewrite (proj2 (Nat.leb_le _ _)) by lia.
  cbn [mbind option_bind]. by rewrite insert_insert_eq.
Qed.

Local Ltac distinct_literals :=
  let H := fresh in intros H; vm_compute in H; discriminate H.

(** X12: five responses after [start_session] complete the guided flow.
    The first four are answered with the questions of the steps 2 to 5, the
    fifth with the summary and the hunt data, whose keys are the keys of the
    first five steps, whose location is the stripped third response and
    whose count is an integer from 5 to 50, whatever was typed.  The
    sessions of other users are as they were. *)
Theorem guided_five_answers (now user : str) (ss : gmap str session)
    (r1 r2 r3 r4 r5 : str) :
  let started := (start_session now user ss).2 in
  exists reps d final,
    conversation max_str_digits now user [r1; r2; r3; r4; r5] started
    = Some (reps, final)
    /\ ready_to_hunt <$> reps = [false; false; false; false; true]
    /\ reply_step <$> reps = [1; 2; 3; 4; 5]%nat
    /\ message <$> reps
       = (question <$> take 4 (drop 1 STEPS)) ++ [Some (_build_summary d)]
    /\ hunt_data <$> reps = [None; None; None; None; Some d]
    /\ get_session user final
       = Some {| step := 5; data := d; started_at := now; active := true |}
    /\ dom d = list_to_set (key <$> take 5 STEPS)
    /\ d !! lit "location" = Some (Text (strip r3))
    /\ (exists n, d !! lit "count" = Some (Number n) /\ 5 <= n <= 50)
    /\ (forall u, u <> user -> final !! u = ss !! u).
Proof.
  intros started. unfold started, start_session, new_session. cbn [snd].
  erewrite (conversation_question now user r1); [|reflexivity|lia|reflexivity].
  erewrite (conversation_question now user r2); [|reflexivity|lia|reflexivity].
  erewrite (conversation_question now user r3); [|reflexivity|lia|reflexivity].
  erewrite (conversation_question now user r4); [|reflexivity|lia|reflexivity].
  erewrite (conversation_ready now user r5); [|reflexivity|lia].
  cbn [conversation mbind option_bind key].
  eexists _, _, _. split; [reflexivity|].
  split; [reflexivity|]. split; [reflexivity|]. split; [reflexivity|].
  split; [reflexivity|]. split; [by apply get_session_insert|].
  split; [|split; [|split]].
  - rewrite !dom_insert_L, dom_empty_L. cbn [take drop fmap list_fmap key
      list_to_set foldr]. set_solver.
  - rewrite !lookup_insert_ne by distinct_literals.
    rewrite lookup_insert_eq.
    apply (f_equal Some), step_value_free; [done|distinct_literals].
  - rewrite lookup_insert_eq.
    destruct (step_value_count
                {| step_id := lit "count";
                   question := (STEPS !! 4%nat) ≫= question;
                   key := lit "count"; options := None |} r5 eq_refl)
      as (n & Hn & Hrange).
    exists n. split; [by f_equal|done].
  - intros u Hne. by rewrite !lookup_insert_ne.
Qed.

Lemma conversation_raises (now user response : str) (rest : list str)
    (ss : gmap str session) (k : nat) (d : gmap str value) (t : str) :
  STEPS !! k = None ->
  conversation max_str_digits now user (response :: rest)
    (<[user := {| step := k; data := d; started_at := t; active := true |}]>
       ss)
  = None.
Proof.
  intros Hcfg. cbn [conversation]. unfold process_response.
  rewrite get_session_insert by done. cbn [step]. by rewrite Hcfg.
Qed.

(** X13: [process_response] raises [IndexError] exactly when the user's
    active session has been answered six times: its step is then past the
    last entry of [STEPS].  A session that is never confirmed gets there:
    after [start_session], six responses are answered and the seventh
    raises. *)
Theorem process_response_index_error (now user response : str)
    (ss : gmap str session) (r1 r2 r3 r4 r5 r6 r7 : str) :
  (process_response max_str_digits now user response ss = None
   <-> exists s, get_session user ss = Some s /\ (6 <= step s)%nat)
  /\ let started := (start_session now user ss).2 in
     is_Some (conversation max_str_digits now user
                [r1; r2; r3; r4; r5; r6] started)
     /\ conversation max_str_digits now user
          [r1; r2; r3; r4; r5; r6; r7] started = None.
Proof.
  split.
  - unfold process_response. change (length STEPS - 1)%nat with 5%nat.
    destruct (get_session user ss) as [s|] eqn:Hs; [|naive_solver].
    destruct (STEPS !! step s) as [cfg|] eqn:Hcfg; cbn [mbind option_bind].
    + apply lookup_lt_Some in Hcfg. change (length STEPS) with 6%nat in *.
      cbn [step].
      destruct (5 <=? S (step s))%nat eqn:Hready.
      * split; [done|]. intros (s' & [= <-] & Hle). lia.
      * apply Nat.leb_gt in Hready.
        destruct (lookup_lt_is_Some_2 STEPS (S (step s))) as [next ->];
          [change (length STEPS) with 6%nat; lia|].
        split; [done|]. intros (s' & [= <-] & Hle). lia.
    + apply lookup_ge_None in Hcfg. change (length STEPS) with 6%nat in Hcfg.
      split; [|done]. intros _. by exists s.
  - intros started. unfold started, start_session, new_session. cbn [snd].
    split.
    + erewrite (conversation_question now user r1);
        [|reflexivity|lia|reflexivity].
      erewrite (conversation_question now user r2);
        [|reflexivity|lia|reflexivity].
      erewrite (conversation_question now user r3);
        [|reflexivity|lia|reflexivity].
      erewrite (conversation_question now user r4);
        [|reflexivity|lia|reflexivity].
      erewrite (conversation_ready now user r5); [|reflexivity|lia].
      erewrite (conversation_ready now user r6); [|reflexivity|lia].
      by eexists.
    + erewrite (conversation_question now user r1);
        [|reflexivity|lia|reflexivity].
      erewrite (conversation_question now user r2);
        [|reflexivity|lia|reflexivity].
      erewrite (conversation_question now user r3);
        [|reflexivity|lia|reflexivity].
      erewrite (conversation_question now user r4);
        [|reflexivity|lia|reflexivity].
      erewrite (conversation_ready now user r5); [|reflexivity|lia].
      erewrite (conversation_ready now user r6); [|reflexivity|lia].
      by rewrite conversation_raises.
Qed.

(** X14: [confirm_hunt] hands a session's data out once.  When it returns
    the data, the session was active, its data was not empty and the
    stripped word is one of the seven that confirm; afterwards the user has
    no active session, a second [confirm_hunt] returns [None] and changes
    nothing, and the next response starts a new session; the sessions of
    other users are as they were. *)
Theorem guided_confirm_once (now user confirm : str)
    (ss : gmap str session) (d : gmap str value) :
  (confirm_hunt now user confirm ss).1 = HuntData d ->
  let ss' := (confirm_hunt now user confirm ss).2 in
  (exists s, get_session user ss = Some s /\ data s = d)
  /\ d <> ∅
  /\ strip confirm ∈ confirm_words
  /\ get_session user ss' = None
  /\ (forall now' confirm',
        confirm_hunt now' user confirm' ss' = (NoHunt, ss'))
  /\ (forall now' response,
        process_response max_str_digits now' user response ss'
        = Some (start_session now' user ss'))
  /\ (forall u, u <> user -> ss' !! u = ss !! u).
Proof.
  unfold confirm_hunt at 1 2.
  destruct (get_session user ss) as [s|] eqn:Hs; [|done].
  case_bool_decide as Hdata; [done|].
  case_bool_decide as Hword; [|by case_bool_decide].
  cbn [fst snd]. intros [= <-].
  assert (get_session user (end_session user ss) = None) as Hended
    by apply get_session_ended.
  split_and!; [by exists s|done|done|done|..].
  - intros now' confirm'. unfold confirm_hunt. by rewrite Hended.
  - intros now' response. unfold process_response. by rewrite Hended.
  - intros u Hne. by apply end_session_others.
Qed.

(** X15: [confirm_hunt] does not ask whether the flow is complete: after
    [start_session] and a single response, a word that confirms gets hunt
    data that holds the target type and nothing else. *)
Theorem guided_confirm_unfinished (now now' user confirm : str)
    (ss : gmap str session) (r1 : str) :
  strip confirm ∈ confirm_words ->
  let started := (start_session now user ss).2 in
  exists rep ss1 t,
    process_response max_str_digits now user r1 started = Some (rep, ss1)
    /\ ready_to_hunt rep = false
    /\ (confirm_hunt now' user confirm ss1).1
       = HuntData {[ lit "target_type" := Text t ]}.
Proof.
  intros Hword started. unfold started, start_session, new_session.
  cbn [snd].
  erewrite process_response_active;
    [|by apply get_session_insert|reflexivity].
  cbv zeta. cbn [step data started_at active key].
  change (5 <=? 1)%nat with false. cbn [mbind option_bind].
  destruct (step_value_text
              {| step_id := lit "target_type";
                 question := (STEPS !! 0%nat) ≫= question;
                 key := lit "target_type";
                 options := (STEPS !! 0%nat) ≫= options |} r1)
    as [t Ht]; [distinct_literals|].
  eexists _, _, t. split; [reflexivity|]. split; [reflexivity|].
  unfold confirm_hunt. rewrite get_session_insert by done. cbn [data].
  rewrite bool_decide_eq_false_2 by apply insert_non_empty.
  rewrite bool_decide_eq_true_2 by done.
  cbn [fst]. f_equal. rewrite insert_empty. f_equal. exact Ht.
Qed.

End GuidedFlow.

(** ** The guided session: the search query *)

Section GuidedQuery.
Import Py Re GuidedSession.

Variable max_str_digits : option nat.
Variable int_of_str : str -> option Z.

Local Arguments _build_summary : simpl never.
Local Arguments step_value : simpl never.

Local Ltac distinct_literals :=
  let H := fresh in intros H; vm_compute in H; discriminate H.

Lemma join_empty (sep : str) (xs : list str) :
  join sep xs = [] -> Forall (fun x => x = []) xs.
Proof.
  induction xs as [|x [|y xs] IH]; intros Hjoin; [done| |].
  - by constructor.
  - cbn [join] in Hjoin. apply app_eq_nil in Hjoin as [-> Hrest].
    apply app_eq_nil in Hrest as [_ Hrest]. constructor; [done|]. by apply IH.
Qed.

(** On data whose four answers are strings and whose count is an
    integer, [build_search_query] raises nothing. *)
Lemma build_search_query_answers (d : gmap str value) (t1 t2 t3 t4 : str)
    (n : Z) :
  d !! lit "target_type" = Some (Text t1) ->
  d !! lit "property_type" = Some (Text t2) ->
  d !! lit "location" = Some (Text t3) ->
  d !! lit "budget" = Some (Text t4) ->
  d !! lit "count" = Some (Number n) ->
  exists q, build_search_query int_of_str d = Some (q, Text t3, n) /\ q <> [].
Proof.
  intros H1 H2 H3 H4 H5. unfold build_search_query, get.
  rewrite H1, H2, H3, H4, H5.
  cbn [default from_option id text_of mbind option_bind value_truthy].
  destruct (truthy t2 && negb (bool_decide (Text t2 = Text (lit "عقارات"))))
    eqn:Hproperty;
    [apply andb_prop in Hproperty as [Ht2 _]|];
    destruct (contains (lit "مشتر") t1), (contains (lit "بايع") t1),
      (contains (lit "مستثمر") t1), (contains (lit "شركات") t1),
      (truthy t4);
    cbn [app mapM mbind option_bind text_of mret option_ret];
    (eexists; split; [reflexivity|]);
    intros Hq%join_empty;
    repeat match goal with
           | H : Forall _ (_ :: _) |- _ => apply Forall_cons in H as [? H]
           end;
    try (subst; discriminate);
    match goal with
    | H : lit _ = [] |- _ => vm_compute in H; discriminate H
    end.
Qed.

(** X26: [build_search_query] accepts the hunt data of every completed
    guided flow: whatever the five responses were, it raises nothing and
    returns a query that is not empty, the stripped third response as the
    location, and a count from 5 to 50. *)
Theorem guided_flow_query (now user : str) (ss : gmap str session)
    (r1 r2 r3 r4 r5 : str) :
  let started := (start_session now user ss).2 in
  exists reps final d q n,
    conversation max_str_digits now user [r1; r2; r3; r4; r5] started
    = Some (reps, final)
    /\ last reps ≫= hunt_data = Some d
    /\ build_search_query int_of_str d = Some (q, Text (strip r3), n)
    /\ q <> []
    /\ 5 <= n <= 50.
Proof.
  intros started. unfold started, start_session, new_session. cbn [snd].
  erewrite (conversation_question _ now user r1);
    [|reflexivity|lia|reflexivity].
  erewrite (conversation_question _ now user r2);
    [|reflexivity|lia|reflexivity].
  erewrite (conversation_question _ now user r3);
    [|reflexivity|lia|reflexivity].
  erewrite (conversation_question _ now user r4);
    [|reflexivity|lia|reflexivity].
  erewrite (conversation_ready _ now user r5); [|reflexivity|lia].
  cbn [conversation mbind option_bind key].
  match goal with
  | |- context [step_value _ ?c r1] =>
    destruct (step_value_text max_str_digits c r1) as [t1 ->];
      [distinct_literals|]
  end.
  match goal with
  | |- context [step_value _ ?c r2] =>
    destruct (step_value_text max_str_digits c r2) as [t2 ->];
      [distinct_literals|]
  end.
  match goal with
  | |- context [step_value _ ?c r3] =>
    rewrite (step_value_free max_str_digits c r3) by
      (done || distinct_literals)
  end.
  match goal with
  | |- context [step_value _ ?c r4] =>
    destruct (step_value_text max_str_digits c r4) as [t4 ->];
      [distinct_literals|]
  end.
  match goal with
  | |- context [step_value _ ?c r5] =>
    destruct (step_value_count max_str_digits c r5) as (n & -> & Hn);
      [reflexivity|]
  end.
  destruct (build_search_query_answers
              (<[lit "count" := Number n]>
                 (<[lit "budget" := Text t4]>
                    (<[lit "location" := Text (strip r3)]>
                       (<[lit "property_type" := Text t2]>
                          (<[lit "target_type" := Text t1]> ∅)))))
              t1 t2 (strip r3) t4 n) as (q & Hq & Hne);
    try (repeat (rewrite lookup_insert_eq
                 || rewrite lookup_insert_ne by distinct_literals);
         reflexivity).
  eexists _, _, _, q, n. split; [reflexivity|]. split; [reflexivity|].
  split; [exact Hq|]. split; [exact Hne|exact Hn].
Qed.

End GuidedQuery.

(** ** The smart session: confirmation *)

Section SmartFlow.
Import Py SmartSession.

Context {message value : Type}.

Implicit Types (ss : gmap str (session message value)).

Lemma smart_session_ended (user : str) ss :
  get_session user (end_session user ss) = None.
Proof.
  unfold get_session, end_session.
  destruct (ss !! user) as [s|] eqn:Hs; [by rewrite lookup_insert_eq|].
  by rewrite Hs.
Qed.

(** X16: [SmartHuntSession.confirm_hunt] hands out the context exactly
    when the user's session is active and flagged ready and the stripped
    word is one of the nine that confirm; it then ends the session.  It
    answers with a restart exactly when the session is active and ready and
    the stripped word is none of those and one of the four that restart; it
    then replaces the session by a new one, which is not ready.  In every
    other case it returns [None] and changes nothing.  After a hand-out or
    a restart, a further [confirm_hunt] returns [None], whatever the word;
    the sessions of other users are as they were. *)
Theorem smart_confirm_once (now user confirm : str) ss
    (ctx : gmap str value) :
  let out := confirm_hunt now user confirm ss in
  let ready_session s := get_session user ss = Some s /\ ready s = true in
  (out.1 = HuntContext ctx <->
   exists s, ready_session s /\ context s = ctx
             /\ strip confirm ∈ confirm_words)
  /\ (out.1 = Restart <->
      exists s, ready_session s /\ (strip confirm ∉ confirm_words)
                /\ strip confirm ∈ restart_words)
  /\ (out.1 = HuntContext ctx -> get_session user out.2 = None)
  /\ (out.1 = Restart ->
      get_session user out.2 = Some (new_session message value now))
  /\ (out.1 = NoHunt -> out.2 = ss)
  /\ (out.1 <> NoHunt ->
      forall now' confirm',
        confirm_hunt now' user confirm' out.2 = (NoHunt, out.2))
  /\ (forall u, u <> user -> out.2 !! u = ss !! u).
Proof.
  intros out ready_session. unfold out, ready_session, confirm_hunt.
  destruct (get_session user ss) as [s|] eqn:Hs.
  2: { cbn [fst snd]. split_and!; try done.
       - split; [done|]. by intros (s' & [? _] & _).
       - split; [done|]. by intros (s' & [? _] & _). }
  destruct (ready s) eqn:Hready; cbn [negb].
  2: { cbn [fst snd]. split_and!; try done.
       - split; [done|]. intros (s' & [[= <-] Hr] & _). congruence.
       - split; [done|]. intros (s' & [[= <-] Hr] & _). congruence. }
  assert (get_session user (<[user := new_session message value now]> ss)
          = Some (new_session message value now)) as Hnew
    by (unfold get_session; by rewrite lookup_insert_eq).
  assert (forall u, u <> user -> end_session user ss !! u = ss !! u)
    as Hothers.
  { intros u Hne. unfold end_session.
    destruct (ss !! user); [by rewrite lookup_insert_ne|done]. }
  case_bool_decide as Hword; [|case_bool_decide as Hword']; cbn [fst snd].
  - split_and!; try done.
    + split; [intros [= <-]; by exists s|].
      by intros (s' & [[= <-] _] & <- & _).
    + split; [done|]. by intros (s' & _ & Hnot & _).
    + intros _. apply smart_session_ended.
    + intros _ now' confirm'. by rewrite smart_session_ended.
  - split_and!; try done.
    + split; [done|]. by intros (s' & _ & _ & Hyes).
    + split; [by exists s|done].
    + intros _ now' confirm'. by rewrite Hnew.
    + intros u Hne. by rewrite lookup_insert_ne.
  - split_and!; try done.
    + split; [done|]. by intros (s' & _ & _ & Hyes).
    + split; [done|]. by intros (s' & _ & _ & Hrestart).
Qed.

End SmartFlow.

(** ** The local store: balances *)

Section Wallet.
Import Py LocalStore.

Variable lower : str -> str.
Variable now : nat -> str.

(** What [get_or_create] finds or makes for a user whose name is not
    the administrator's. *)
Lemma get_or_create_plain (uid : str) (db : store) :
  lower uid <> lit "admin" ->
  exists u,
    get_or_create lower now uid db = (u, (get_or_create lower now uid db).2)
    /\ users (get_or_create lower now uid db).2 !! uid = Some u
    /\ wallet_balance u
       = default DEFAULT_BALANCE (wallet_balance <$> users db !! uid)
    /\ is_admin u = default false (is_admin <$> users db !! uid)
    /\ leads (get_or_create lower now uid db).2 = leads db
    /\ (forall v, v <> uid ->
          users (get_or_create lower now uid db).2 !! v = users db !! v).
Proof.
  intros Hname. unfold get_or_create.
  rewrite bool_decide_eq_false_2 by done.
  destruct (users db !! uid) as [u|] eqn:Hu; cbn [fst snd users leads].
  - exists u. by rewrite Hu.
  - eexists. split; [reflexivity|]. rewrite lookup_insert_eq.
    split_and!; try done. intros v Hne. by rewrite lookup_insert_ne.
Qed.

Lemma get_or_create_stored (uid : str) (db : store) (u : user) :
  lower uid <> lit "admin" ->
  users db !! uid = Some u ->
  get_or_create lower now uid db = (u, db).
Proof.
  intros Hname Hu. unfold get_or_create.
  by rewrite bool_decide_eq_false_2, Hu.
Qed.

(** X17: for a stored user who is no administrator, [deduct_balance]
    succeeds exactly when the balance covers the cost; it then takes the
    cost off and otherwise changes nothing, so a balance that is not
    negative stays so.  Other users and the leads are as they were. *)
Theorem deduct_balance_guard (uid : str) (cost : Z) (db : store) (u : user) :
  lower uid <> lit "admin" ->
  users db !! uid = Some u ->
  is_admin u = false ->
  let ok := (deduct_balance lower now uid cost db).1 in
  let db' := (deduct_balance lower now uid cost db).2 in
  (ok = true <-> cost <= wallet_balance u)
  /\ (exists u',
        users db' !! uid = Some u'
        /\ wallet_balance u'
           = (if ok then wallet_balance u - cost else wallet_balance u)
        /\ is_admin u' = false
        /\ (0 <= wallet_balance u -> 0 <= wallet_balance u'))
  /\ (ok = false -> db' = db)
  /\ (forall v, v <> uid -> users db' !! v = users db !! v)
  /\ leads db' = leads db.
Proof.
  intros Hname Hu Hadmin. unfold deduct_balance.
  rewrite (get_or_create_stored uid db u) by done.
  rewrite Hadmin, Hu.
  destruct (cost <=? wallet_balance u) eqn:Hcost; cbn [fst snd].
  - apply Z.leb_le in Hcost. split_and!; try done.
    + eexists. cbn [users set_users]. rewrite lookup_insert_eq.
      split; [reflexivity|]. cbn [wallet_balance is_admin set_balance].
      split_and!; [done|done|lia].
    + intros v Hne. cbn [users set_users]. by rewrite lookup_insert_ne.
  - apply Z.leb_gt in Hcost. split_and!; try done.
    + split; [done|lia].
    + by exists u.
Qed.

(** X18: for a stored user who is no administrator, adding back what
    [deduct_balance] took restores the store. *)
Theorem deduct_then_add_restores (uid : str) (cost : Z) (db : store)
    (u : user) :
  lower uid <> lit "admin" ->
  users db !! uid = Some u ->
  is_admin u = false ->
  cost <= wallet_balance u ->
  (deduct_balance lower now uid cost db).1 = true
  /\ add_balance lower now uid cost
       (deduct_balance lower now uid cost db).2 = (true, db).
Proof.
  intros Hname Hu Hadmin Hcost. unfold deduct_balance.
  rewrite (get_or_create_stored uid db u) by done.
  rewrite Hadmin, Hu, (proj2 (Z.leb_le _ _)) by done. cbn [fst snd].
  split; [done|]. unfold add_balance.
  erewrite get_or_create_stored;
    [|done|cbn [users set_users]; by rewrite lookup_insert_eq].
  cbn [users set_users]. rewrite lookup_insert_eq. f_equal.
  destruct db as [us ls n], u as [una upw ubal uadm uat].
  unfold set_users, set_balance.
  cbn [users leads reads username password wallet_balance is_admin created_at]
    in *.
  rewrite insert_insert_eq. f_equal.
  replace (ubal - cost + cost) with ubal by lia. by apply insert_id.
Qed.

(** X19: a user whose name in lower case is [admin] is an administrator,
    whatever the store says: [check_balance] affords every cost,
    [deduct_balance] succeeds and takes nothing, and both leave the user
    stored as an administrator. *)
Theorem admin_by_name (uid : str) (cost : Z) (db : store) :
  lower uid = lit "admin" ->
  (check_balance lower now uid cost db).1 = (true, 999999)
  /\ (deduct_balance lower now uid cost db).1 = true
  /\ (is_admin <$> users (check_balance lower now uid cost db).2 !! uid)
     = Some true
  /\ (is_admin <$> users (deduct_balance lower now uid cost db).2 !! uid)
     = Some true
  /\ (wallet_balance
        <$> users (deduct_balance lower now uid cost db).2 !! uid)
     = Some (default DEFAULT_BALANCE
               (wallet_balance <$> users db !! uid)).
Proof.
  intros Hname. unfold check_balance, deduct_balance, get_or_create.
  rewrite bool_decide_eq_true_2 by done.
  destruct (users db !! uid) as [u|] eqn:Hu;
    cbn [fst snd is_admin set_admin_flag users set_users];
    by rewrite lookup_insert_eq.
Qed.

End Wallet.

(** ** The hunt route: billing *)

Section HuntRoute.
Import Py Net LocalStore ChatRoutes.

Variable SERPER_API_KEY : str.
Variable http : oracle.
Variable lower : str -> str.
Variable now : nat -> str.
Variable uuid4 : nat -> str.

Local Abbreviation hunt := (hunt SERPER_API_KEY http lower now uuid4).
Local Abbreviation hunt_leads :=
  (SearchService.hunt_leads SERPER_API_KEY http lower).

Local Arguments SearchService.hunt_leads : simpl never.

Lemma check_balance_spec (uid : str) (cost : Z) (db : store) :
  check_balance lower now uid cost db
  = (if is_admin (get_or_create lower now uid db).1 then (true, 999999)
     else (cost <=? wallet_balance (get_or_create lower now uid db).1,
           wallet_balance (get_or_create lower now uid db).1),
     (get_or_create lower now uid db).2).
Proof.
  unfold check_balance. destruct (get_or_create lower now uid db) as [u db1].
  cbn [fst snd]. by destruct (is_admin u).
Qed.

Lemma add_leads_batch_spec (owner : str) (found : list SearchService.lead)
    (db : store) :
  exists new,
    users (add_leads_batch now uuid4 owner found db).2 = users db
    /\ leads (add_leads_batch now uuid4 owner found db).2 = leads db ++ new
    /\ user_id <$> new = replicate (length found) owner
    /\ phone_number <$> new = SearchService.phone <$> found
    /\ stored_email <$> new = SearchService.email <$> found.
Proof.
  revert db. induction found as [|l found IH]; intros db.
  - exists []. cbn. by rewrite app_nil_r.
  - cbn [add_leads_batch]. unfold add_lead. cbv beta iota zeta.
    set (db1 := {| users := users db; leads := leads db ++ [_];
                   reads := S (S (reads db)) |}).
    destruct (IH db1) as (new & Husers & Hleads & Howner & Hphone & Hemail).
    destruct (add_leads_batch now uuid4 owner found db1) as [added db2].
    cbn [fst snd] in *. eexists (_ :: new).
    rewrite Husers, Hleads. unfold db1. cbn [users leads].
    rewrite <- (assoc_L (++)). split_and!; [done|reflexivity|..].
    + cbn. by rewrite Howner.
    + cbn. rewrite Hphone. by destruct (SearchService.phone l).
    + cbn. by rewrite Hemail.
Qed.

(** Who cannot afford a hunt: [check_balance] answers no exactly for the
    stored user who is no administrator, by flag or by name, and whose
    balance is below the cost; a user it creates has the default balance,
    which covers it. *)
Lemma check_balance_refuses (uid : str) (db : store) :
  (check_balance lower now uid HUNT_COST db).1.1 = false
  <-> exists u,
        users db !! uid = Some u /\ is_admin u = false
        /\ lower uid <> lit "admin" /\ wallet_balance u < HUNT_COST.
Proof.
  rewrite check_balance_spec. cbn [fst]. unfold get_or_create.
  destruct (decide (lower uid = lit "admin")) as [Hname|Hname].
  - rewrite bool_decide_eq_true_2 by done.
    destruct (users db !! uid) as [u|]; cbn [fst is_admin set_admin_flag];
      (split; [done|]); by intros (u' & _ & _ & Hne & _).
  - rewrite bool_decide_eq_false_2 by done.
    destruct (users db !! uid) as [u|] eqn:Hu; cbn [fst is_admin].
    + destruct (is_admin u) eqn:Hadmin; cbn [fst].
      * split; [done|]. intros (u' & [= <-] & Hflag & _). congruence.
      * rewrite Z.leb_gt. split; [by exists u|].
        by intros (u' & [= <-] & _ & _ & Hlow).
    + cbn [fst wallet_balance]. split; [done|]. by intros (u' & ? & _).
Qed.

(** X20: the route refuses with status 402 exactly the stored user who is
    no administrator, by flag or by name, and whose balance is below the
    cost of a hunt: these are the users [check_balance] answers no for, the
    route raises its exception for each of them, and for nobody else.  When
    it refuses, it sends no request and changes nothing in the store. *)
Theorem hunt_payment_required (uid : str) (data : HuntRequest) (db : store)
    (log : list request) :
  let refused :=
    exists u,
      users db !! uid = Some u /\ is_admin u = false
      /\ lower uid <> lit "admin" /\ wallet_balance u < HUNT_COST in
  ((check_balance lower now uid HUNT_COST db).1.1 = false <-> refused)
  /\ (refused ->
      exists detail,
        hunt uid data db log = (HTTPException 402 detail, db, log))
  /\ (forall status_code detail,
        (hunt uid data db log).1.1 = HTTPException status_code detail ->
        status_code = 402 /\ refused).
Proof.
  intros refused. split; [apply check_balance_refuses|]. split.
  - intros (u & Hu & Hadmin & Hname & Hlow).
    unfold ChatRoutes.hunt. rewrite check_balance_spec.
    rewrite (get_or_create_stored lower now uid db u) by done.
    cbn [fst snd]. rewrite Hadmin, (proj2 (Z.leb_gt _ _)) by done.
    cbn [negb]. by eexists.
  - intros status_code detail.
    pose proof (check_balance_refuses uid db) as Hrefuses.
    unfold ChatRoutes.hunt.
    destruct (check_balance lower now uid HUNT_COST db)
      as [[can_afford balance] db1].
    cbn [fst] in Hrefuses. destruct can_afford; cbn [negb].
    + destruct (SearchService.hunt_leads _ _ _ _ _ _ _ _ _) as [found log'].
      by destruct (get_or_create lower now uid
                     match found with
                     | [] => _
                     | _ :: _ => _
                     end) as [u' db'].
    + cbn [fst]. intros [= <- _]. split; [done|]. by apply Hrefuses.
Qed.

(** X21: a user who is no administrator and can afford the hunt pays for
    it exactly when it finds leads.  [balance] is what the user has: the
    stored balance, or the default of a user the route creates.  The
    response carries the leads of [hunt_leads] with the default strategy
    and no country, their number, the tokens used, 20 or 0, and the balance
    that remains and is stored, which is not negative; every lead is
    stored under the user with its phone and email, after the leads
    already there; other users are as they were. *)
Theorem hunt_charges_found_leads (uid : str) (data : HuntRequest)
    (db : store) (log : list request) (balance : Z) :
  lower uid <> lit "admin" ->
  default false (is_admin <$> users db !! uid) = false ->
  default DEFAULT_BALANCE (wallet_balance <$> users db !! uid) = balance ->
  HUNT_COST <= balance ->
  exists r db' new,
    hunt uid data db log
    = (Returned r, db',
       (hunt_leads (query data) (city data) (max_results data)
                   (lit "social_media") None log).2)
    /\ found r
       = (hunt_leads (query data) (city data) (max_results data)
                     (lit "social_media") None log).1
    /\ count r = length (found r)
    /\ tokens_used r = (if bool_decide (found r = []) then 0 else HUNT_COST)
    /\ remaining_balance r = balance - tokens_used r
    /\ 0 <= remaining_balance r
    /\ (wallet_balance <$> users db' !! uid) = Some (remaining_balance r)
    /\ leads db' = leads db ++ new
    /\ user_id <$> new = replicate (count r) uid
    /\ phone_number <$> new = SearchService.phone <$> found r
    /\ stored_email <$> new = SearchService.email <$> found r
    /\ (forall v, v <> uid -> users db' !! v = users db !! v).
Proof.
  intros Hname Hadmin Hbalance Hcost. unfold ChatRoutes.hunt.
  rewrite check_balance_spec.
  destruct (get_or_create_plain lower now uid db Hname)
    as (u & Hgoc & Hu & Hwallet & Hflag & Hleads & Hothers).
  set (db1 := (get_or_create lower now uid db).2) in *.
  rewrite Hgoc. cbn [fst snd]. rewrite Hadmin in Hflag.
  rewrite Hbalance in Hwallet.
  rewrite Hflag, Hwallet, (proj2 (Z.leb_le _ _)) by done. cbn [negb].
  destruct (SearchService.hunt_leads _ _ _ _ _ _ _ _ _) as [[|l rest] log'].
  - rewrite (get_or_create_stored lower now uid db1 u) by done.
    eexists _, _, []. split; [reflexivity|]. cbn [found count tokens_used
      remaining_balance fst snd length fmap list_fmap replicate].
    rewrite app_nil_r, Hu. cbn [fmap option_fmap option_map].
    rewrite Hwallet. unfold HUNT_COST in *. split_and!; try done; lia.
  - destruct (add_leads_batch_spec uid (l :: rest) db1)
      as (new & Husers & Hstored & Howner & Hphone & Hemail).
    destruct (add_leads_batch now uuid4 uid (l :: rest) db1) as [added db2].
    cbn [snd] in Husers, Hstored.
    assert (users db2 !! uid = Some u) as Hu2 by (by rewrite Husers).
    unfold deduct_balance.
    rewrite (get_or_create_stored lower now uid db2 u) by done.
    rewrite Hflag, Hu2, Hwallet, (proj2 (Z.leb_le _ _)) by done.
    erewrite get_or_create_stored;
      [|done|cbn [users set_users]; by rewrite lookup_insert_eq].
    eexists _, _, new. split; [reflexivity|].
    cbn [found count tokens_used remaining_balance fst snd users leads
         set_users set_balance wallet_balance].
    rewrite lookup_insert_eq, Hstored, Hleads.
    rewrite bool_decide_eq_false_2 by done.
    cbn [fmap option_fmap option_map wallet_balance].
    unfold HUNT_COST in *.
    split_and!; try done; try lia.
    intros v Hne. rewrite lookup_insert_ne by done. rewrite Husers.
    by apply Hothers.
Qed.

(** X22: through the route with its validated request, a hunt returns at
    most 50 leads and no more than the validated count, every one with a
    phone or an email; a refusal has status 402. *)
Theorem hunt_route_leads (uid query city : str) (v : Z) (db : store)
    (log : list request) :
  let data := {| query := query; city := city;
                 max_results := Requests.validate_max v |} in
  match (hunt uid data db log).1.1 with
  | Returned r =>
    (count r <= 50)%nat
    /\ Z.of_nat (count r) <= Requests.validate_max v
    /\ count r = length (found r)
    /\ Forall (fun a => SearchService.phone a <> []
                        \/ SearchService.email a <> []) (found r)
  | HTTPException status_code _ => status_code = 402
  end.
Proof.
  intros data. unfold ChatRoutes.hunt.
  destruct (check_balance lower now uid HUNT_COST db)
    as [[can_afford balance] db1].
  destruct can_afford; cbn [negb]; [|done].
  destruct (hunt_leads_final SERPER_API_KEY http lower (ChatRoutes.query data)
              (ChatRoutes.city data) (max_results data) (lit "social_media")
              None log) as (st & Hst & Hfound).
  destruct (SearchService.hunt_leads _ _ _ _ _ _ _ _ _) as [found log'].
  cbn [fst] in Hfound.
  destruct (get_or_create lower now uid
              match found with
              | [] => _
              | _ :: _ => _
              end) as [u' db'].
  cbn [fst snd count ChatRoutes.found].
  assert (Z.of_nat (length found) <= Requests.validate_max v) as Hlen.
  { rewrite Hfound. apply slice_to_length. unfold data. cbn [max_results].
    unfold Requests.validate_max. lia. }
  split_and!; [unfold Requests.validate_max in Hlen; lia|done|done|].
  rewrite Hfound. apply Forall_forall. intros a [i Ha]%list_elem_of_lookup.
  apply slice_to_lookup in Ha.
  assert (a ∈ SearchService.all_leads st) as Hin
    by (by eapply list_elem_of_lookup_2).
  by eapply Forall_forall in Hin; [|apply (SearchService.contacts st Hst)].
Qed.

End HuntRoute.

(** ** The local store: leads *)

Section LeadStore.
Import Py LocalStore.

Variable now : nat -> str.
Variable uuid4 : nat -> str.

Lemma get_user_leads_snoc (owner : str) (db : store) (l : stored_lead) :
  get_user_leads owner
    {| users := users db; leads := leads db ++ [l]; reads := S (S (reads db)) |}
  = get_user_leads owner db
    ++ (if decide (user_id l = owner) then [_normalize_lead l] else []).
Proof.
  unfold get_user_leads. cbn [leads]. rewrite filter_app, fmap_app.
  f_equal. rewrite filter_cons, filter_nil. by destruct (decide _).
Qed.

(** X23: the leads [add_leads_batch] stores for a user are the leads
    [get_user_leads] then returns after those the user already had, in
    order, each with the name, phone, email, source and status it was found
    with; and no other user sees them. *)
Theorem stored_leads_round_trip (owner : str)
    (found : list SearchService.lead) (db : store) :
  let added := (add_leads_batch now uuid4 owner found db).1 in
  let db' := (add_leads_batch now uuid4 owner found db).2 in
  get_user_leads owner db' = get_user_leads owner db ++ added
  /\ name <$> added = SearchService.name <$> found
  /\ phone <$> added = SearchService.phone <$> found
  /\ email <$> added = SearchService.email <$> found
  /\ source <$> added = SearchService.lead_source <$> found
  /\ status <$> added = SearchService.status <$> found
  /\ (forall v, v <> owner -> get_user_leads v db' = get_user_leads v db).
Proof.
  revert db. induction found as [|l found IH]; intros db.
  - cbn. by rewrite app_nil_r.
  - cbn [add_leads_batch]. unfold add_lead. cbv beta iota zeta.
    set (stored := {| lead_id := uuid4 (reads db); user_id := owner;
                      full_name := _; phone_number := _; stored_email := _;
                      stored_source := _; stored_notes := _;
                      stored_status := _; stored_at := _ |}).
    set (db1 := {| users := users db; leads := leads db ++ [stored];
                   reads := S (S (reads db)) |}).
    destruct (IH db1) as (Hmine & Hname & Hphone & Hemail & Hsource
                          & Hstatus & Hothers).
    destruct (add_leads_batch now uuid4 owner found db1) as [added db2].
    cbn [fst snd] in *.
    rewrite !fmap_cons, Hname, Hphone, Hemail, Hsource, Hstatus.
    split_and!.
    + rewrite Hmine. unfold db1. rewrite get_user_leads_snoc.
      cbn [user_id stored]. rewrite decide_True by done.
      by rewrite <- (assoc_L (++)).
    + f_equal. cbn. by destruct (SearchService.name l).
    + f_equal. cbn. by destruct (SearchService.phone l).
    + done.
    + done.
    + done.
    + intros v Hne. rewrite Hothers by done. unfold db1.
      rewrite get_user_leads_snoc. cbn [user_id stored].
      rewrite decide_False by done. by rewrite app_nil_r.
Qed.

Lemma get_user_leads_delete (id owner v : str) (db : store) :
  get_user_leads v (delete_lead id owner db).2
  = if decide (v = owner)
    then filter (fun l => LocalStore.id l <> id) (get_user_leads v db)
    else get_user_leads v db.
Proof.
  unfold get_user_leads, delete_lead. cbn [snd leads].
  induction (leads db) as [|l ls IH]; [by destruct (decide _)|].
  rewrite !filter_cons.
  destruct (decide (v = owner)) as [->|Hne].
  - destruct (decide (user_id l = owner)) as [Hown|Hown].
    + destruct (decide (lead_id l = id)) as [Hid|Hid].
      * rewrite decide_False by naive_solver.
        rewrite fmap_cons, filter_cons. cbn [LocalStore.id _normalize_lead].
        by rewrite decide_False by naive_solver.
      * rewrite decide_True by naive_solver.
        rewrite filter_cons, decide_True by done.
        rewrite !fmap_cons, filter_cons. cbn [LocalStore.id _normalize_lead].
        rewrite decide_True by done. by f_equal.
    + rewrite decide_True by naive_solver.
      by rewrite filter_cons, decide_False by done.
  - destruct (decide (user_id l = v)) as [Hown|Hown].
    + rewrite decide_True by naive_solver.
      rewrite filter_cons, decide_True by done.
      rewrite !fmap_cons. by f_equal.
    + destruct (decide (~ (lead_id l = id /\ user_id l = owner))); [|done].
      by rewrite filter_cons, decide_False by done.
Qed.

(** X24: [delete_lead] answers [True] whether or not a lead matched, and
    removes from the user's leads exactly those with the identifier; the
    leads of every other user are as they were, also when the identifier is
    theirs, and so are the users. *)
Theorem delete_lead_own (id owner : str) (db : store) :
  let db' := (delete_lead id owner db).2 in
  (delete_lead id owner db).1 = true
  /\ get_user_leads owner db'
     = filter (fun l => LocalStore.id l <> id) (get_user_leads owner db)
  /\ (forall v, v <> owner -> get_user_leads v db' = get_user_leads v db)
  /\ users db' = users db.
Proof.
  split_and!; [done| | |done].
  - by rewrite get_user_leads_delete, decide_True.
  - intros v Hne. by rewrite get_user_leads_delete, decide_False.
Qed.

Lemma status_counts_spec (ls : list normalized_lead) (s : str) :
  foldl (fun counts lead =>
           <[status lead := (default 0 (counts !! status lead) + 1)%nat]>
             counts)
        (∅ : gmap str nat) ls !! s
  = if decide (length (filter (fun l => status l = s) ls) = 0%nat) then None
    else Some (length (filter (fun l => status l = s) ls)).
Proof.
  induction ls as [|l ls IH] using rev_ind; [done|].
  rewrite foldl_snoc, filter_app, length_app, filter_cons, filter_nil.
  destruct (decide (status l = s)) as [->|Hne].
  - rewrite lookup_insert_eq, IH. cbn [length].
    destruct (decide (length (filter _ ls) = 0%nat)) as [->|Hpos].
    + done.
    + rewrite decide_False by lia. done.
  - rewrite lookup_insert_ne by done. rewrite IH. cbn [length].
    by rewrite Nat.add_0_r.
Qed.

(** X25: [get_lead_stats] counts: the total is the number of the user's
    leads, [by_status] holds for each status that occurs the number of
    leads that have it and no entry for a status that does not occur, the
    counter [new] is the number of the user's new leads, and [converted]
    always equals [closed]. *)
Theorem lead_stats_count (owner : str) (db : store) (s : str) :
  let mine := get_user_leads owner db in
  let having s := length (filter (fun l => status l = s) mine) in
  let stats := get_lead_stats owner db in
  total stats = length mine
  /\ default 0%nat (by_status stats !! s) = having s
  /\ (by_status stats !! s = None <-> having s = 0%nat)
  /\ stats_new stats = having (lit "new")
  /\ stats_closed stats = having (lit "closed")
  /\ stats_converted stats = stats_closed stats
  /\ (having s <= total stats)%nat.
Proof.
  intros mine having stats. unfold stats, get_lead_stats.
  cbn [total by_status stats_new stats_closed stats_converted].
  fold mine. rewrite !status_counts_spec. fold (having s).
  fold (having (lit "new")). fold (having (lit "closed")).
  split_and!; try done.
  - by destruct (decide (having s = 0%nat)) as [->|].
  - by destruct (decide (having s = 0%nat)).
  - by destruct (decide (having (lit "new") = 0%nat)) as [->|].
  - by destruct (decide (having (lit "closed") = 0%nat)) as [->|].
  - unfold having. apply length_filter.
Qed.

End LeadStore.

(** ** Worked examples: sessions, balances and the route *)

Section SessionsWorked.
Import Py Net Examples MoreExamples.

Lemma guided_confirm_once_witness :
  GuidedSession.get_session (lit "u")
    (GuidedSession.confirm_hunt (lit "t") (lit "u") (lit " نعم ")
                                waiting_session).2
  = None.
Proof.
  refine (proj1 (proj2 (proj2 (proj2
            (guided_confirm_once None (lit "t") (lit "u") (lit " نعم ")
               waiting_session
               {[ lit "location" := GuidedSession.Text (lit "دبي") ]} _))))).
  vm_compute. reflexivity.
Defined.

Lemma guided_confirm_unfinished_witness :
  strip (lit "1") ∈ GuidedSession.confirm_words
  /\ exists rep ss1 t,
       GuidedSession.process_response None (lit "t") (lit "u") (lit "3")
         (GuidedSession.start_session (lit "t") (lit "u") ∅).2
       = Some (rep, ss1)
       /\ GuidedSession.ready_to_hunt rep = false
       /\ (GuidedSession.confirm_hunt (lit "t") (lit "u") (lit "1") ss1).1
          = GuidedSession.HuntData
              {[ lit "target_type" := GuidedSession.Text t ]}.
Proof.
  assert (strip (lit "1") ∈ GuidedSession.confirm_words) as Hword
    by (apply (bool_decide_unpack _); vm_compute; exact I).
  split; [exact Hword|].
  exact (guided_confirm_unfinished None (lit "t") (lit "t") (lit "u")
           (lit "1") ∅ (lit "3") Hword).
Defined.

Lemma smart_confirm_once_witness :
  (SmartSession.confirm_hunt (lit "t") (lit "u") (lit " ok ")
                             ready_smart_session).1
  = SmartSession.HuntContext {[ lit "location" := lit "دبي" ]}.
Proof.
  refine (proj2 (proj1 (smart_confirm_once (lit "t") (lit "u") (lit " ok ")
                          ready_smart_session
                          {[ lit "location" := lit "دبي" ]})) _).
  eexists. split; [split; [vm_compute; reflexivity|reflexivity]|].
  split; [reflexivity|]. apply (bool_decide_unpack _). vm_compute. exact I.
Defined.

Lemma deduct_balance_guard_witness :
  (LocalStore.deduct_balance ascii_lower clock (lit "u") 20 (one_user 30)).1
  = true <-> 20 <= 30.
Proof.
  refine (proj1 (deduct_balance_guard ascii_lower clock (lit "u") 20
                   (one_user 30)
                   {| LocalStore.username := lit "u";
                      LocalStore.password := None;
                      LocalStore.wallet_balance := 30;
                      LocalStore.is_admin := false;
                      LocalStore.created_at := lit "t" |} _ _ _)).
  - vm_compute. discriminate.
  - vm_compute. reflexivity.
  - reflexivity.
Defined.

Lemma deduct_then_add_restores_witness :
  LocalStore.add_balance ascii_lower clock (lit "u") 20
    (LocalStore.deduct_balance ascii_lower clock (lit "u") 20 (one_user 30)).2
  = (true, one_user 30).
Proof.
  refine (proj2 (deduct_then_add_restores ascii_lower clock (lit "u") 20
                   (one_user 30)
                   {| LocalStore.username := lit "u";
                      LocalStore.password := None;
                      LocalStore.wallet_balance := 30;
                      LocalStore.is_admin := false;
                      LocalStore.created_at := lit "t" |} _ _ _ _)).
  - vm_compute. discriminate.
  - vm_compute. reflexivity.
  - reflexivity.
  - vm_compute. discriminate.
Defined.

Lemma admin_by_name_witness :
  (LocalStore.check_balance ascii_lower clock (lit "Admin") 20 empty_store).1
  = (true, 999999).
Proof.
  refine (proj1 (admin_by_name ascii_lower clock (lit "Admin") 20
                   empty_store _)).
  vm_compute. reflexivity.
Defined.

Lemma hunt_payment_required_witness :
  exists detail,
    ChatRoutes.hunt [] (first_reply five_adverts) ascii_lower clock ids
      (lit "u") plumber_request (one_user 19) []
    = (ChatRoutes.HTTPException 402 detail, one_user 19, []).
Proof.
  refine (proj1 (proj2 (hunt_payment_required [] (first_reply five_adverts)
                          ascii_lower clock ids (lit "u") plumber_request
                          (one_user 19) [])) _).
  eexists. split; [vm_compute; reflexivity|].
  split; [reflexivity|]. split; [vm_compute; discriminate|].
  vm_compute. reflexivity.
Defined.

Lemma hunt_charges_found_leads_witness :
  exists r,
    (ChatRoutes.hunt [] (first_reply five_adverts) ascii_lower clock ids
       (lit "u") plumber_request empty_store []).1.1
    = ChatRoutes.Returned r
    /\ ChatRoutes.remaining_balance r = 100 - ChatRoutes.tokens_used r.
Proof.
  destruct (hunt_charges_found_leads [] (first_reply five_adverts)
              ascii_lower clock ids (lit "u") plumber_request empty_store []
              100)
    as (r & db' & new & Hhunt & _ & _ & _ & Hremaining & _).
  - vm_compute. discriminate.
  - vm_compute. reflexivity.
  - vm_compute. reflexivity.
  - vm_compute. discriminate.
  - exists r. split; [|exact Hremaining].
    exact (f_equal (fun x => x.1.1) Hhunt).
Defined.

(** A new user who asks for five plumbers gets the five leads of the
    first reply, pays 20 tokens of the 100 a new user has, and finds the
    five leads stored. *)
Example new_user_hunt :
  let '(out, db, log) :=
    ChatRoutes.hunt [] (first_reply five_adverts) ascii_lower clock ids
      (lit "u") plumber_request empty_store [] in
  match out with
  | ChatRoutes.Returned r =>
    ChatRoutes.count r = 5%nat /\ ChatRoutes.tokens_used r = 20
    /\ ChatRoutes.remaining_balance r = 80
    /\ length (LocalStore.leads db) = 5%nat /\ length log = 1%nat
  | ChatRoutes.HTTPException _ _ => False
  end.
Proof. vm_compute. auto. Qed.

(** The guided flow of the examples: options, a free answer and a count
    written with Arabic digits. *)
Example guided_flow_example :
  match GuidedSession.conversation None (lit "t") (lit "u")
          [lit " 1 "; lit "6"; lit " الرياض "; lit "5"; lit "عايز ١٢ عميل"]
          (GuidedSession.start_session (lit "t") (lit "u") ∅).2 with
  | Some (reps, _) => GuidedSession.hunt_data <$> last reps
  | None => None
  end
  = Some (Some {[ lit "target_type"
                    := GuidedSession.Text (lit "مشترين عقارات");
                  lit "property_type" := GuidedSession.Text (lit "عقارات");
                  lit "location" := GuidedSession.Text (lit "الرياض");
                  lit "budget" := GuidedSession.Text [];
                  lit "count" := GuidedSession.Number 12 ]}).
Proof. vm_compute. reflexivity. Qed.

End SessionsWorked.

(** ** Phone validation *)

Section PhoneValidation.
Import Py Re Security.

(** X27: [validate_phone] returns the decimal digits of its argument, in
    order, when there are at least ten of them, and the empty string
    otherwise; so its result is empty or has at least ten characters, all
    decimal digits, and validating it again changes nothing. *)
Theorem validate_phone_digits (phone : str) :
  let digits := filter (fun c => isdecimal c = true) phone in
  validate_phone phone
  = (if (length digits <? 10)%nat then [] else digits)
  /\ Forall (fun c => isdecimal c = true) (validate_phone phone)
  /\ (validate_phone phone = [] \/ (10 <= length (validate_phone phone))%nat)
  /\ validate_phone (validate_phone phone) = validate_phone phone.
Proof.
  intros digits.
  assert (forall s, sub (Chr (cls_not d)) [] s
                    = filter (fun c => isdecimal c = true) s) as Hsub.
  { intros s. rewrite sub_chr_filter. apply list_filter_iff. intros c.
    unfold cls_not, d. by destruct (isdecimal c). }
  assert (validate_phone phone
          = if (length digits <? 10)%nat then [] else digits) as Hvalid.
  { unfold validate_phone. by rewrite Hsub. }
  assert (Forall (fun c => isdecimal c = true) digits) as Hdigits.
  { apply Forall_forall. by intros c [Hc _]%list_elem_of_filter. }
  split; [exact Hvalid|]. rewrite Hvalid.
  destruct (length digits <? 10)%nat eqn:Hshort.
  - split_and!; [done|by left|done].
  - apply Nat.ltb_ge in Hshort. split_and!; [done|by right|].
    unfold validate_phone. rewrite Hsub.
    assert (filter (fun c => isdecimal c = true) digits = digits) as ->.
    { unfold digits. rewrite list_filter_filter. apply list_filter_iff.
      naive_solver. }
    by rewrite (proj2 (Nat.ltb_ge _ _)).
Qed.

End PhoneValidation.
